(** * funderoftheworld: the Express/Oracle backend (backend/index.js)

    A shallow embedding of the route handlers of [backend/index.js] that the
    financial-consistency rules of the specification rest on, and the
    properties of those rules.

    Modelling decisions, stated once:
    - A JavaScript number is modelled when it is a whole number: [JS.Num n]
      is the double whose value is [n] ([JS.is_double]).  The sum, the difference and the
      comparisons of the expense handlers are those of doubles: a result
      that no double holds is rounded to the nearest one ([JS.fl], exact
      below 2^53).  The quotients of the two percentage computations are
      rounded likewise ([JS.flQ]).  Numbers with a fractional part and the
      infinities are outside the model, and so are the strings that read
      as such numbers: a numeric string is a decimal integer literal.
    - Strings are sequences of code units below 256; case mapping acts on
      ASCII letters.
    - Request bodies hold JSON primitives (no arrays or objects).  An
      answer that carries rows carries them as the database holds them;
      their rendering as JSON is outside the model.
    - The Oracle database is a record of tables, each a list of rows, with
      the texts that its TO_DATE reads as dates.  A NUMBER column holds a
      whole number.
    - A handler is a program whose steps are its readings of the clock and
      its calls of the driver.  Every call may fail: besides the errors
      that the model computes from the tables and the bind values, a fault
      can be raised at any call (a fault plan when the request is served
      alone, a choice of the schedule when requests are served at the same
      time).
    - A path is the list of its non-empty segments, written without percent
      escapes, so a trailing slash adds nothing to it. *)

From Stdlib Require Import ZArith QArith Qround Qabs List String Ascii Bool Lia.
From Stdlib Require Import DecimalString Permutation.
Import ListNotations.
Open Scope string_scope.
Open Scope Z_scope.

(** ** JavaScript values and the conversions the handlers rely on *)

Module JS.

Inductive value : Type :=
| Undefined
| Null
| Bool (b : bool)
| Num (n : Z)
| Str (s : string).

(** [!v] is [negb (truthy v)]. *)
Definition truthy (v : value) : bool :=
  match v with
  | Undefined | Null => false
  | Bool b => b
  | Num n => negb (n =? 0)
  | Str s => negb (s =? "")%string
  end.

Definition is_digit (c : ascii) : bool :=
  let n := N_of_ascii c in ((48 <=? n) && (n <=? 57))%N.

(** White space of [\s] and of the trimming in StringToNumber, among the
    code units below 256: TAB, LF, VT, FF, CR, SP, NBSP. *)
Definition is_space (c : ascii) : bool :=
  existsb (N.eqb (N_of_ascii c)) [9; 10; 11; 12; 13; 32; 160]%N.

Definition digit_value (c : ascii) : Z := Z.of_N (N_of_ascii c) - 48.

Fixpoint digits_value (acc : Z) (cs : list ascii) : option Z :=
  match cs with
  | [] => Some acc
  | c :: cs' =>
      if is_digit c then digits_value (10 * acc + digit_value c) cs' else None
  end.

Fixpoint drop_spaces (cs : list ascii) : list ascii :=
  match cs with
  | c :: cs' => if is_space c then drop_spaces cs' else cs
  | [] => []
  end.

Definition trim (cs : list ascii) : list ascii :=
  rev (drop_spaces (rev (drop_spaces cs))).

(** *** Double precision

    The quotient [a / b] ([0 <= a], [0 < b]) rounded to the nearest whole
    number, a tie going to the even one. *)
Definition div_rne (a b : Z) : Z :=
  let q := a / b in
  let r := a mod b in
  if 2 * r <? b then q
  else if b <? 2 * r then q + 1
  else if Z.even q then q else q + 1.

(** The double nearest to the whole number [n] (53 significant bits, a tie
    going to the even significand): [n] itself below 2^53.  It is the
    value with which a NUMBER column arrives in JavaScript and the result
    of an operation whose exact result is [n].  The exponent is not
    bounded: no whole number becomes an infinity. *)
Definition fl (n : Z) : Z :=
  let a := Z.abs n in
  if a <? 2 ^ 53 then n
  else let k := Z.log2 a - 52 in Z.sgn n * (div_rne a (2 ^ k) * 2 ^ k).


(** [x + y] and [x - y] on doubles that hold whole numbers. *)
Definition add (x y : Z) : Z := fl (x + y).
Definition sub (x y : Z) : Z := fl (x - y).

(** The integer part of the binary logarithm of [n / d] ([0 < n], [0 < d]). *)
Definition log2_ratio (n d : Z) : Z :=
  let k := Z.log2 n - Z.log2 d in
  if (if 0 <=? k then d * 2 ^ k <=? n else d <=? n * 2 ^ (- k)) then k else k - 1.

(** The double nearest to the rational [x]: 53 significant bits, the
    exponent of the last bit at least -1074, a tie going to the even
    significand. *)
Definition flQ (x : Q) : Q :=
  let n := Z.abs (Qnum x) in
  let d := Zpos (Qden x) in
  if n =? 0 then 0%Q
  else
    let e := Z.max (log2_ratio n d - 52) (-1074) in
    let m := if 0 <=? e then div_rne n (d * 2 ^ e)
             else div_rne (n * 2 ^ (- e)) d in
    let v := if 0 <=? e then inject_Z (m * 2 ^ e)
             else Qmake m (Z.to_pos (2 ^ (- e))) in
    Qred (if 0 <=? Qnum x then v else (- v)%Q).

(** An optionally signed, non-empty run of decimal digits. *)
Definition signed_digits (cs : list ascii) : option Z :=
  match cs with
  | [] => None
  | "+"%char :: (_ :: _) as ds => digits_value 0 ds
  | "-"%char :: (_ :: _) as ds => option_map Z.opp (digits_value 0 ds)
  | "+"%char :: [] | "-"%char :: [] => None
  | _ => digits_value 0 cs
  end.

(** StringToNumber on integer literals: the double nearest to the number
    written; [None] is NaN.  The empty and the all-blank string convert
    to 0.  The other numeric literals of JavaScript (a fraction, an
    exponent, a hexadecimal number, Infinity) are outside the model: the
    theorems that depend on the number read take it from a hypothesis. *)
Definition StringToNumber (s : string) : option Z :=
  match trim (list_ascii_of_string s) with
  | [] => Some 0
  | cs => option_map fl (signed_digits cs)
  end.

(** [Number(v)]; [None] is NaN. *)
Definition Number (v : value) : option Z :=
  match v with
  | Undefined => None
  | Null => Some 0
  | Bool b => Some (if b then 1 else 0)
  | Num n => Some n
  | Str s => StringToNumber s
  end.

Definition isNaN (x : option Z) : bool :=
  match x with None => true | Some _ => false end.

(** [x <= 0] on numbers: false when [x] is NaN. *)
Definition le_zero (x : option Z) : bool :=
  match x with Some n => n <=? 0 | None => false end.

(** [v == null] *)
Definition eq_null (v : value) : bool :=
  match v with Undefined | Null => true | _ => false end.

Definition decimal (n : Z) : string := NilZero.string_of_int (Z.to_int n).

(** [String(v)], the conversion [RegExp.prototype.test] applies. *)
Definition ToString (v : value) : string :=
  match v with
  | Undefined => "undefined"
  | Null => "null"
  | Bool true => "true"
  | Bool false => "false"
  | Num n => decimal n
  | Str s => s
  end.

Definition upper_char (c : ascii) : ascii :=
  let n := N_of_ascii c in
  if ((97 <=? n) && (n <=? 122))%N then ascii_of_N (n - 32) else c.

Fixpoint toUpperCase (s : string) : string :=
  match s with
  | EmptyString => EmptyString
  | String c s' => String (upper_char c) (toUpperCase s')
  end.

(** [s.slice(0, 1)] *)
Definition slice_0_1 (s : string) : string :=
  match s with
  | EmptyString => EmptyString
  | String c _ => String c EmptyString
  end.

(** [v.length] for the comparison [v.length < 6]: a string has a length,
    on the other primitives the property is [undefined]. *)
Definition length_of (v : value) : option Z :=
  match v with
  | Str s => Some (Z.of_nat (String.length s))
  | _ => None
  end.

(** [x < k] where [x] may be [undefined] (which converts to NaN). *)
Definition lt_num (x : option Z) (k : Z) : bool :=
  match x with Some n => n <? k | None => false end.

(** *** Regular expressions

    The two patterns of the signup handler are anchored at both ends, so
    [test] is a whole-string match; it is decided with derivatives. *)

Inductive regex : Type :=
| Void
| Eps
| Class (p : ascii -> bool)
| Cat (r1 r2 : regex)
| Alt (r1 r2 : regex)
| Star (r : regex).

Fixpoint nullable (r : regex) : bool :=
  match r with
  | Void => false
  | Eps => true
  | Class _ => false
  | Cat r1 r2 => nullable r1 && nullable r2
  | Alt r1 r2 => nullable r1 || nullable r2
  | Star _ => true
  end.

Fixpoint deriv (c : ascii) (r : regex) : regex :=
  match r with
  | Void => Void
  | Eps => Void
  | Class p => if p c then Eps else Void
  | Cat r1 r2 =>
      if nullable r1
      then Alt (Cat (deriv c r1) r2) (deriv c r2)
      else Cat (deriv c r1) r2
  | Alt r1 r2 => Alt (deriv c r1) (deriv c r2)
  | Star r1 => Cat (deriv c r1) (Star r1)
  end.

Fixpoint matches (r : regex) (s : string) : bool :=
  match s with
  | EmptyString => nullable r
  | String c s' => matches (deriv c r) s'
  end.

Definition Plus (r : regex) : regex := Cat r (Star r).

Fixpoint Repeat (n : nat) (r : regex) : regex :=
  match n with
  | O => Eps
  | S n' => Cat r (Repeat n' r)
  end.

Definition Chr (c : ascii) : regex := Class (Ascii.eqb c).

(** [\d] and [\S] *)
Definition d : regex := Class is_digit.
Definition S_ : regex := Class (fun c => negb (is_space c)).

(** [/^\d{12}$/] *)
Definition aadhar_re : regex := Repeat 12 d.

(** [/^\S+@\S+\.\S+$/] *)
Definition email_re : regex :=
  Cat (Plus S_) (Cat (Chr "@") (Cat (Plus S_) (Cat (Chr ".") (Plus S_)))).

(** [re.test(v)] *)
Definition test (re : regex) (v : value) : bool := matches re (ToString v).

End JS.

(** ** The Oracle store *)

Module Oracle.

(** [bcrypt.hash(data, rounds)]: the hash is kept symbolic. *)
Inductive pwhash : Type := Bcrypt (rounds : nat) (data : string).

Module NEW_CREDENTIALS.
Record row : Type := Row
  { USER_ID : string; AADHAR_NO : string; PASSWORD : pwhash;
    EMAIL : string; USER_TYPE : string }.
End NEW_CREDENTIALS.

Module STAFF.
Record row : Type := Row
  { STAFF_ID : string; USER_ID : string;
    FNAME : option string; LNAME : option string; DOJ : Z }.
End STAFF.

Module DONOR.
Record row : Type := Row
  { DONOR_ID : string; USER_ID : string;
    FNAME : option string; LNAME : option string }.
End DONOR.

(** [AMOUNT_COLLECTED] is the column that only the second donation handler
    writes ("You may need to add an AMOUNT_COLLECTED column to CAMPAIGN"). *)
Module CAMPAIGN.
Record row : Type := Row
  { CAMP_ID : string; C_NAME : string; STATUS : string;
    SDATE : string; EDATE : string; GOAL_AMOUNT : Z;
    MANAGER_STAFF_ID : string; AMOUNT_COLLECTED : option Z }.
End CAMPAIGN.

Module PROJECT.
Record row : Type := Row
  { PROJ_ID : string; PNAME : string; BUDGET : Z; SPENT : Z;
    STATUS : string; SDATE : string; OVERSEER_STAFF_ID : string;
    CAMP_ID : option string }.
End PROJECT.

(** The first donation handler writes [D_ID], [PAYMENT_METHOD] and
    [DONATION_DATE]; the second writes [DON_ID] and [DON_DATE].  The table
    of the model has the columns of both, each set that a handler does not
    write being NULL in its rows.  [DONATION_DATE] is an instant in
    milliseconds, [DON_DATE] a calendar day counted from the epoch. *)
Module DONATION.
Record row : Type := Row
  { D_ID : option string; DON_ID : option Z;
    DONOR_ID : string; CAMP_ID : string; AMOUNT : Z;
    PAYMENT_METHOD : option string; DONATION_DATE : option Z;
    DON_DATE : option Z }.
End DONATION.

(** The tables, the sequence of the second donation handler, and the texts
    that the database reads as dates: what [TO_DATE(:text, 'YYYY-MM-DD')]
    accepts is decided by Oracle, which is not in the repository, so it is
    a parameter of the store, [dates]; no statement changes it. *)
Record store : Type := Store
  { credentials : list NEW_CREDENTIALS.row;
    staff : list STAFF.row;
    donors : list DONOR.row;
    campaigns : list CAMPAIGN.row;
    projects : list PROJECT.row;
    donations : list DONATION.row;
    DONATION_SEQ : Z;
    dates : string -> bool }.

Definition with_credentials (s : store) (t : list NEW_CREDENTIALS.row) : store :=
  Store t (staff s) (donors s) (campaigns s) (projects s) (donations s) (DONATION_SEQ s)
        (dates s).
Definition with_staff (s : store) (t : list STAFF.row) : store :=
  Store (credentials s) t (donors s) (campaigns s) (projects s) (donations s) (DONATION_SEQ s)
        (dates s).
Definition with_donors (s : store) (t : list DONOR.row) : store :=
  Store (credentials s) (staff s) t (campaigns s) (projects s) (donations s) (DONATION_SEQ s)
        (dates s).
Definition with_campaigns (s : store) (t : list CAMPAIGN.row) : store :=
  Store (credentials s) (staff s) (donors s) t (projects s) (donations s) (DONATION_SEQ s)
        (dates s).
Definition with_projects (s : store) (t : list PROJECT.row) : store :=
  Store (credentials s) (staff s) (donors s) (campaigns s) t (donations s) (DONATION_SEQ s)
        (dates s).
Definition with_donations (s : store) (t : list DONATION.row) : store :=
  Store (credentials s) (staff s) (donors s) (campaigns s) (projects s) t (DONATION_SEQ s)
        (dates s).
Definition with_seq (s : store) (n : Z) : store :=
  Store (credentials s) (staff s) (donors s) (campaigns s) (projects s) (donations s) n
        (dates s).

(** What a handler's [try] can throw: an ORA error with its [errorNum], or
    an exception that has no [errorNum] (a TypeError, the Error of bcrypt on
    data that is not a string, the driver's own refusal of a bind value). *)
Inductive exn : Type :=
| OraError (errorNum : Z)
| JsError.

Inductive outcome (A : Type) : Type :=
| Ok (a : A)
| Throw (e : exn).
Arguments Ok {A} a.
Arguments Throw {A} e.

(** The environment of one request: the successive readings of the clock
    ([Date.now()], [new Date()]) and the fault plan of the driver. *)
Record env : Type := Env { clock : nat -> Z; faults : nat -> option Z }.

Record world : Type := World { db : store; reads : nat; calls : nat }.

(** A handler is a program over the store: between two calls it computes,
    and at each step it reads the clock or makes one call of the driver
    ([getConnection], [execute] with [autoCommit: true]), whose outcome its
    continuation receives.  The same program is run alone by [exec] and
    interleaved with others by [Interleaving.step]. *)
Inductive M (A : Type) : Type :=
| Return (a : A)
| Raise (x : exn)
| Clock (k : Z -> M A)
| Await {B : Type} (stmt : store -> outcome (B * store)) (k : outcome B -> M A).
Arguments Return {A} a.
Arguments Raise {A} x.
Arguments Clock {A} k.
Arguments Await {A B} stmt k.

Definition ret {A} (a : A) : M A := Return a.

Fixpoint bind {A B} (m : M A) (f : A -> M B) : M B :=
  match m with
  | Return a => f a
  | Raise x => Raise x
  | Clock k => Clock (fun t => bind (k t) f)
  | Await stmt k => Await stmt (fun r => bind (k r) f)
  end.

Definition throw {A} (x : exn) : M A := Raise x.

(** [try { body } catch (err) { handler err }] *)
Fixpoint try_catch {A} (body : M A) (handler : exn -> M A) : M A :=
  match body with
  | Return a => Return a
  | Raise x => handler x
  | Clock k => Clock (fun t => try_catch (k t) handler)
  | Await stmt k => Await stmt (fun r => try_catch (k r) handler)
  end.

(** [Date.now()] *)
Definition Date_now : M Z := Clock (fun t => Return t).

(** One call of the driver; an error it raises is thrown where the call is
    awaited. *)
Definition driver {A} (stmt : store -> outcome (A * store)) : M A :=
  Await stmt (fun r => match r with Ok a => Return a | Throw x => Raise x end).

(** What one call of the driver does to the store: it raises the fault if
    one is due, else runs the statement, which either raises an error of
    its own and leaves the tables as they are, or commits its effect. *)
Definition perform {B} (fault : option Z) (stmt : store -> outcome (B * store))
  (s : store) : outcome B * store :=
  match fault with
  | Some n => (Throw (OraError n), s)
  | None =>
      match stmt s with
      | Ok (b, s') => (Ok b, s')
      | Throw x => (Throw x, s)
      end
  end.

(** A program run alone, from its first step to its answer: the clock
    readings and the faults are those of the environment, in order. *)
Fixpoint exec {A} (m : M A) (e : env) (w : world) : outcome A * world :=
  match m with
  | Return a => (Ok a, w)
  | Raise x => (Throw x, w)
  | Clock k =>
      exec (k (clock e (reads w))) e (World (db w) (S (reads w)) (calls w))
  | Await stmt k =>
      let (r, s') := perform (faults e (calls w)) stmt (db w) in
      exec (k r) e (World s' (reads w) (S (calls w)))
  end.

Definition getConnection : M unit := driver (fun s => Ok (tt, s)).

Definition query {A} (q : store -> A) : store -> outcome (A * store) :=
  fun s => Ok (q s, s).

Definition no_faults : nat -> option Z := fun _ => None.

(** *** Bind values *)

(** A JavaScript value bound where a NUMBER is expected: a number is taken
    as it is, a string goes through Oracle's implicit TO_NUMBER (the empty
    string is NULL, any other string without a digit raises ORA-01722); a
    boolean is refused by the driver.  Of the strings only the integer
    literals are modelled; the theorems about the value stored take the
    bind value to be a number. *)
Definition bind_number (v : JS.value) : outcome (option Z) :=
  match v with
  | JS.Num n => Ok (Some n)
  | JS.Str s =>
      if (s =? "")%string then Ok None
      else match JS.signed_digits (JS.trim (list_ascii_of_string s)) with
           | Some n => Ok (Some n)
           | None => Throw (OraError 1722)
           end
  | JS.Undefined | JS.Null => Ok None
  | JS.Bool _ => Throw JsError
  end.

(** A value bound where a VARCHAR2 is expected; the empty string is NULL. *)
Definition bind_varchar2 (v : JS.value) : outcome (option string) :=
  match v with
  | JS.Str s => Ok (if (s =? "")%string then None else Some s)
  | JS.Num n => Ok (Some (JS.decimal n))
  | JS.Undefined | JS.Null => Ok None
  | JS.Bool _ => Throw JsError
  end.

(** A value compared with a VARCHAR2 key column ([WHERE CAMP_ID = :campId]):
    only a string is modelled as a key; comparing the column with a number
    makes Oracle convert the column, which fails on the keys this
    application generates ([CAMP_...], [PROJ_...]). *)
Definition bind_key (v : JS.value) : outcome string :=
  match v with
  | JS.Str s => Ok s
  | _ => Throw (OraError 1722)
  end.


(** *** Helpers of the statements *)

Definition opt_eqb (a : option string) (b : string) : bool :=
  match a with Some x => (x =? b)%string | None => false end.

Definition too_long (n : nat) (s : string) : bool := (n <? String.length s)%nat.

Fixpoint insert_by {A} (before : A -> A -> bool) (x : A) (l : list A) : list A :=
  match l with
  | [] => [x]
  | y :: l' => if before y x then y :: insert_by before x l' else x :: l
  end.

(** [ORDER BY]: a stable insertion sort; [before y x] says that [y] may stay
    ahead of [x]. *)
Definition order_by {A} (before : A -> A -> bool) (l : list A) : list A :=
  fold_left (fun acc x => insert_by before x acc) l [].

(** [ROUND(x, 2)] of SQL, and [toFixed(2)] on the exact value of a double:
    the nearest multiple of 1/100, a tie going away from zero. *)
Definition round2 (x : Q) : Q :=
  let n := Qfloor (Qabs x * 100 + (1 # 2))%Q in
  Qmake (if Qle_bool 0 x then n else - n) 100.

(** [NULL || s] is [s]. *)
Definition concat_null (a : option string) (b : string) : string :=
  match a with Some x => (x ++ b)%string | None => b end.

(** *** Statements of the signup handler

    The constraints of NEW_CREDENTIALS are those of the table definition in
    the README: [USER_ID] primary key, [AADHAR_NO] and [EMAIL] unique, and
    the column widths. *)
Definition insert_credentials (r : NEW_CREDENTIALS.row)
  : store -> outcome (unit * store) :=
  fun s =>
    if too_long 100 (NEW_CREDENTIALS.USER_ID r)
       || too_long 12 (NEW_CREDENTIALS.AADHAR_NO r)
       || too_long 255 (NEW_CREDENTIALS.EMAIL r)
       || too_long 10 (NEW_CREDENTIALS.USER_TYPE r)
    then Throw (OraError 12899)
    else if existsb (fun x =>
               (NEW_CREDENTIALS.USER_ID x =? NEW_CREDENTIALS.USER_ID r)%string
               || (NEW_CREDENTIALS.AADHAR_NO x =? NEW_CREDENTIALS.AADHAR_NO r)%string
               || (NEW_CREDENTIALS.EMAIL x =? NEW_CREDENTIALS.EMAIL r)%string)
            (credentials s)
    then Throw (OraError 1)
    else Ok (tt, with_credentials s (credentials s ++ [r])).

(** Modelled from the spec: the tables other than NEW_CREDENTIALS have no
    definition in the repository; each has the identifier of its entity as
    primary key (specification, data model). *)
Definition insert_staff (r : STAFF.row) : store -> outcome (unit * store) :=
  fun s =>
    if existsb (fun x => (STAFF.STAFF_ID x =? STAFF.STAFF_ID r)%string) (staff s)
    then Throw (OraError 1)
    else Ok (tt, with_staff s (staff s ++ [r])).

Definition insert_donor (r : DONOR.row) : store -> outcome (unit * store) :=
  fun s =>
    if existsb (fun x => (DONOR.DONOR_ID x =? DONOR.DONOR_ID r)%string) (donors s)
    then Throw (OraError 1)
    else Ok (tt, with_donors s (donors s ++ [r])).

(** *** Statements on CAMPAIGN *)

(** Modelled from the spec: the definition of CAMPAIGN is not in the
    repository; [CAMP_ID] is its primary key and the campaign name is unique
    (specification, external interfaces: "unique constraints (email,
    national-id, campaign name)").

    The statement is
    [INSERT INTO CAMPAIGN (...) VALUES (:campId, :cName, 'ACTIVE',
       TO_DATE(:sDate, 'YYYY-MM-DD'), TO_DATE(:eDate, 'YYYY-MM-DD'), ...)]:
    a text that [TO_DATE] does not read as a date raises an error before
    any key is checked (ORA-01861 stands for the errors of that family; the
    handler tells none of them from any other error).  The row keeps the
    texts that were read. *)
Definition insert_campaign (r : CAMPAIGN.row) : store -> outcome (unit * store) :=
  fun s =>
    if negb (dates s (CAMPAIGN.SDATE r) && dates s (CAMPAIGN.EDATE r))
    then Throw (OraError 1861)
    else if existsb (fun x =>
          (CAMPAIGN.CAMP_ID x =? CAMPAIGN.CAMP_ID r)%string
          || (CAMPAIGN.C_NAME x =? CAMPAIGN.C_NAME r)%string) (campaigns s)
    then Throw (OraError 1)
    else Ok (tt, with_campaigns s (campaigns s ++ [r])).

(** [SELECT STATUS FROM CAMPAIGN WHERE CAMP_ID = :campId] *)
Definition select_campaign_status (campId : string) (s : store) : list string :=
  map CAMPAIGN.STATUS
      (filter (fun c => (CAMPAIGN.CAMP_ID c =? campId)%string) (campaigns s)).

(** [UPDATE CAMPAIGN SET AMOUNT_COLLECTED = AMOUNT_COLLECTED + :donationAmount
    WHERE CAMP_ID = :campId]; NULL plus a number is NULL. *)
Definition update_campaign_collected (donationAmount : Z) (campId : string)
  : store -> outcome (unit * store) :=
  fun s =>
    Ok (tt, with_campaigns s
          (map (fun c =>
                  if (CAMPAIGN.CAMP_ID c =? campId)%string
                  then CAMPAIGN.Row (CAMPAIGN.CAMP_ID c) (CAMPAIGN.C_NAME c)
                         (CAMPAIGN.STATUS c) (CAMPAIGN.SDATE c) (CAMPAIGN.EDATE c)
                         (CAMPAIGN.GOAL_AMOUNT c) (CAMPAIGN.MANAGER_STAFF_ID c)
                         (option_map (fun a => a + donationAmount)
                                     (CAMPAIGN.AMOUNT_COLLECTED c))
                  else c)
               (campaigns s))).

(** [NVL(SUM(D.AMOUNT), 0)] over the donations of one campaign: the raised
    total of the summary routes, computed when it is read. *)
Definition TOTAL_RAISED (s : store) (campId : string) : Z :=
  fold_right Z.add 0
    (map DONATION.AMOUNT
         (filter (fun x => (DONATION.CAMP_ID x =? campId)%string) (donations s))).

(** *** Statements on DONATION *)

Definition same_key {A} (eqb : A -> A -> bool) (a b : option A) : bool :=
  match a, b with
  | Some x, Some y => eqb x y
  | _, _ => false
  end.

(** Modelled from the spec: the definition of DONATION is not in the
    repository; the donation identifier ([D_ID] for the first handler,
    [DON_ID] for the second) is its primary key and [CAMP_ID] is a foreign
    key to CAMPAIGN (specification, external interfaces), whose violation is
    ORA-02291. *)
Definition insert_donation (r : DONATION.row) : store -> outcome (unit * store) :=
  fun s =>
    if existsb (fun x => same_key String.eqb (DONATION.D_ID x) (DONATION.D_ID r)
                         || same_key Z.eqb (DONATION.DON_ID x) (DONATION.DON_ID r))
               (donations s)
    then Throw (OraError 1)
    else if existsb (fun c => (CAMPAIGN.CAMP_ID c =? DONATION.CAMP_ID r)%string)
                    (campaigns s)
    then Ok (tt, with_donations s (donations s ++ [r]))
    else Throw (OraError 2291).

(** [SELECT DONATION_SEQ.NEXTVAL AS NEW_ID FROM DUAL]: the value handed out
    is used up whatever happens to the request afterwards. *)
Definition nextval : store -> outcome (Z * store) :=
  fun s => Ok (DONATION_SEQ s, with_seq s (DONATION_SEQ s + 1)).

Module HISTORY.
Record row : Type := Row
  { D_ID : option string; DONOR_ID : string; AMOUNT : Z;
    DONATION_DATE : option Z; PAYMENT_METHOD : option string;
    CAMPAIGN_NAME : string }.
End HISTORY.

(** [NULL] sorts first under [ORDER BY ... DESC]. *)
Definition date_desc (a b : option Z) : bool :=
  match a, b with
  | None, _ => true
  | Some _, None => false
  | Some x, Some y => y <=? x
  end.

(** The query of the history route: DONATION joined with CAMPAIGN, for one
    donor when [donorId] is given, newest first. *)
Definition select_history (donorId : option string) (s : store) : list HISTORY.row :=
  order_by (fun x y => date_desc (HISTORY.DONATION_DATE x) (HISTORY.DONATION_DATE y))
    (flat_map (fun dn =>
       map (fun c => HISTORY.Row (DONATION.D_ID dn) (DONATION.DONOR_ID dn)
                       (DONATION.AMOUNT dn) (DONATION.DONATION_DATE dn)
                       (DONATION.PAYMENT_METHOD dn) (CAMPAIGN.C_NAME c))
           (filter (fun c => (CAMPAIGN.CAMP_ID c =? DONATION.CAMP_ID dn)%string)
                   (campaigns s)))
       (filter (fun dn => match donorId with
                          | Some i => (DONATION.DONOR_ID dn =? i)%string
                          | None => true
                          end) (donations s))).

Module RECEIPT.
Record row : Type := Row
  { D_ID : option string; DONOR_ID : string; AMOUNT : Z;
    DONATION_DATE : option Z; PAYMENT_METHOD : option string;
    CAMPAIGN_NAME : string; DONOR_NAME : string; DONOR_EMAIL : string }.
End RECEIPT.

(** The query of the first receipt handler:
    [FROM DONATION D JOIN CAMPAIGN C ON D.CAMP_ID = C.CAMP_ID
     JOIN DONOR R ON D.DONOR_ID = R.DONOR_ID
     JOIN NEW_CREDENTIALS U ON R.USER_ID = U.USER_ID WHERE D.D_ID = :donId] *)
Definition select_receipt (donId : string) (s : store) : list RECEIPT.row :=
  flat_map (fun dn =>
    flat_map (fun c =>
      flat_map (fun r =>
        map (fun u =>
               RECEIPT.Row (DONATION.D_ID dn) (DONATION.DONOR_ID dn)
                 (DONATION.AMOUNT dn) (DONATION.DONATION_DATE dn)
                 (DONATION.PAYMENT_METHOD dn) (CAMPAIGN.C_NAME c)
                 (concat_null (DONOR.FNAME r)
                    (" " ++ concat_null (DONOR.LNAME r) ""))
                 (NEW_CREDENTIALS.EMAIL u))
            (filter (fun u => (NEW_CREDENTIALS.USER_ID u =? DONOR.USER_ID r)%string)
                    (credentials s)))
        (filter (fun r => (DONOR.DONOR_ID r =? DONATION.DONOR_ID dn)%string)
                (donors s)))
      (filter (fun c => (CAMPAIGN.CAMP_ID c =? DONATION.CAMP_ID dn)%string)
              (campaigns s)))
    (filter (fun dn => opt_eqb (DONATION.D_ID dn) donId) (donations s)).

Module RECEIPT2.
Record row : Type := Row
  { D_ID : option string; DONOR_ID : string; AMOUNT : Z;
    DONATION_DATE : option Z; C_NAME : string; CAMP_ID : string;
    DONOR_FNAME : option string; DONOR_LNAME : option string }.
End RECEIPT2.

(** The query of the second receipt handler, as its clauses read:
    [FROM DONATION d JOIN CAMPAIGN c ON d.CAMP_ID = c.CAMP_ID
     JOIN DONOR u ON d.DONOR_ID = u.DONOR_ID WHERE d.DONOR_ID = :donId]
    (the route parameter is compared with the donor column). *)
Definition select_receipt_2 (donId : string) (s : store) : list RECEIPT2.row :=
  flat_map (fun dn =>
    flat_map (fun c =>
      map (fun u =>
             RECEIPT2.Row (DONATION.D_ID dn) (DONATION.DONOR_ID dn)
               (DONATION.AMOUNT dn) (DONATION.DONATION_DATE dn)
               (CAMPAIGN.C_NAME c) (CAMPAIGN.CAMP_ID c)
               (DONOR.FNAME u) (DONOR.LNAME u))
          (filter (fun u => (DONOR.DONOR_ID u =? DONATION.DONOR_ID dn)%string)
                  (donors s)))
      (filter (fun c => (CAMPAIGN.CAMP_ID c =? DONATION.CAMP_ID dn)%string)
              (campaigns s)))
    (filter (fun dn => (DONATION.DONOR_ID dn =? donId)%string) (donations s)).

(** *** Statements on PROJECT *)

(** [SELECT BUDGET, SPENT, PNAME FROM PROJECT WHERE PROJ_ID = :projId]; the
    handlers read only these three columns of the rows returned. *)
Definition select_project (projId : string) (s : store) : list PROJECT.row :=
  filter (fun p => (PROJECT.PROJ_ID p =? projId)%string) (projects s).

Definition set_spent (newSpent : Z) (p : PROJECT.row) : PROJECT.row :=
  PROJECT.Row (PROJECT.PROJ_ID p) (PROJECT.PNAME p) (PROJECT.BUDGET p) newSpent
    (PROJECT.STATUS p) (PROJECT.SDATE p) (PROJECT.OVERSEER_STAFF_ID p)
    (PROJECT.CAMP_ID p).

Definition set_status (status : string) (p : PROJECT.row) : PROJECT.row :=
  PROJECT.Row (PROJECT.PROJ_ID p) (PROJECT.PNAME p) (PROJECT.BUDGET p)
    (PROJECT.SPENT p) status (PROJECT.SDATE p) (PROJECT.OVERSEER_STAFF_ID p)
    (PROJECT.CAMP_ID p).

(** [UPDATE PROJECT SET SPENT = :newSpent WHERE PROJ_ID = :projId] *)
Definition update_project_spent (newSpent : Z) (projId : string)
  : store -> outcome (unit * store) :=
  fun s =>
    Ok (tt, with_projects s
          (map (fun p => if (PROJECT.PROJ_ID p =? projId)%string
                         then set_spent newSpent p else p)
               (projects s))).

(** [UPDATE PROJECT SET SPENT = :newSpent,
       STATUS = CASE WHEN :newSpent >= BUDGET THEN 'Completed' ELSE STATUS END
     WHERE PROJ_ID = :projId] *)
Definition update_project_spent_status (newSpent : Z) (projId : string)
  : store -> outcome (unit * store) :=
  fun s =>
    Ok (tt, with_projects s
          (map (fun p => if (PROJECT.PROJ_ID p =? projId)%string
                         then set_spent newSpent
                                (if PROJECT.BUDGET p <=? newSpent
                                 then set_status "Completed" p else p)
                         else p)
               (projects s))).

(** Modelled from the spec: the definition of PROJECT is not in the
    repository; [PROJ_ID] is its primary key and [CAMP_ID], when not NULL, a
    foreign key to CAMPAIGN (specification, external interfaces).  The
    handler tells a violation of the latter by its number, ORA-02291.

    The statement reads the start date with [TO_DATE(:sDate, 'YYYY-MM-DD')],
    as that of CAMPAIGN does. *)
Definition insert_project (r : PROJECT.row) : store -> outcome (unit * store) :=
  fun s =>
    if negb (dates s (PROJECT.SDATE r))
    then Throw (OraError 1861)
    else if existsb (fun x => (PROJECT.PROJ_ID x =? PROJECT.PROJ_ID r)%string) (projects s)
    then Throw (OraError 1)
    else if match PROJECT.CAMP_ID r with
            | Some c => existsb (fun x => (CAMPAIGN.CAMP_ID x =? c)%string) (campaigns s)
            | None => true
            end
    then Ok (tt, with_projects s (projects s ++ [r]))
    else Throw (OraError 2291).

(** [a / b] in SQL: a zero divisor raises ORA-01476. *)
Definition sql_div (a b : Z) : outcome Q :=
  if b =? 0 then Throw (OraError 1476) else Ok (inject_Z a / inject_Z b)%Q.

Module PROGRESS.
Record row : Type := Row { project : PROJECT.row; SPENDING_PERCENT : Q }.
End PROGRESS.

Fixpoint progress_rows (ps : list PROJECT.row) : outcome (list PROGRESS.row) :=
  match ps with
  | [] => Ok []
  | p :: ps' =>
      match sql_div (PROJECT.SPENT p) (PROJECT.BUDGET p) with
      | Throw x => Throw x
      | Ok q =>
          match progress_rows ps' with
          | Throw x => Throw x
          | Ok rs => Ok (PROGRESS.Row p (round2 (q * 100)) :: rs)
          end
      end
  end.

(** The query of the progress route:
    [SELECT PROJ_ID, PNAME, BUDGET, SPENT, STATUS, SDATE, CAMP_ID,
            ROUND((SPENT / BUDGET) * 100, 2) AS SPENDING_PERCENT
     FROM PROJECT ORDER BY SPENT DESC] *)
Definition select_progress : store -> outcome (list PROGRESS.row * store) :=
  fun s =>
    match progress_rows (projects s) with
    | Throw x => Throw x
    | Ok rs =>
        Ok (order_by (fun x y => PROJECT.SPENT (PROGRESS.project y)
                                 <=? PROJECT.SPENT (PROGRESS.project x)) rs, s)
    end.

Module SUMMARY.
Record row : Type := Row
  { CAMP_ID : string; C_NAME : string; GOAL_AMOUNT : Z; STATUS : string;
    TOTAL_RAISED : Z }.
End SUMMARY.

Definition status_name_order (x y : SUMMARY.row) : bool :=
  match String.compare (SUMMARY.STATUS x) (SUMMARY.STATUS y) with
  | Lt => true
  | Gt => false
  | Eq => match String.compare (SUMMARY.C_NAME x) (SUMMARY.C_NAME y) with
          | Gt => false
          | _ => true
          end
  end.

(** The query of the financial summary: one group for each campaign (its
    key is among the grouping columns), the donations of the campaign
    summed, [ORDER BY C.STATUS, C.C_NAME]. *)
Definition select_financial_summary (s : store) : list SUMMARY.row :=
  order_by status_name_order
    (map (fun c => SUMMARY.Row (CAMPAIGN.CAMP_ID c) (CAMPAIGN.C_NAME c)
                     (CAMPAIGN.GOAL_AMOUNT c) (CAMPAIGN.STATUS c)
                     (TOTAL_RAISED s (CAMPAIGN.CAMP_ID c)))
         (campaigns s)).

End Oracle.

Declare Scope db_scope.
Delimit Scope db_scope with db.
Notation "x <- c ;; k" := (Oracle.bind c (fun x => k))
  (at level 61, c at next level, right associativity) : db_scope.
Notation "c ;;; k" := (Oracle.bind c (fun _ => k))
  (at level 61, right associativity) : db_scope.

(** ** Requests and responses *)

Module Http.

Inductive verb : Type := GET | POST | PATCH.

Definition verb_eqb (a b : verb) : bool :=
  match a, b with
  | GET, GET | POST, POST | PATCH, PATCH => true
  | _, _ => false
  end.

(** The payload that the login route signs into the token. *)
Record user : Type := User
  { userId : string; primaryId : string; userType : string }.

(** The Authorization header as [jwt.verify] sees it. *)
Inductive bearer : Type :=
| NoToken
| BadToken
| Token (payload : user).

(** The path is the list of its segments; [body] gives the field of the
    JSON body by name, [Undefined] when the field is absent. *)
Record request : Type := Request
  { method : verb; path : list string; authorization : bearer;
    body : string -> JS.value }.

(** The JSON documents the handlers send.  A fixed message is its text; a
    message built from a template is the constructor of the template with
    the values put into it. *)
Inductive json : Type :=
| NoBody
| Message (message : string)
| Registered (userId : string) (userType : string)
| CampaignCreated (campId : string)
| Summary (summary : list (Oracle.SUMMARY.row * Q))
| DonationRecorded (amount : JS.value) (donId : string)
| DonationRecorded2 (donId : Z)
| History (history : list Oracle.HISTORY.row)
| Receipt (donation : Oracle.RECEIPT.row)
| Receipt2 (donation : Oracle.RECEIPT2.row)
| ExpenseBlocked (budget remaining attempted : Z)
| ExpenseBlocked2 (budget remaining attempted : Z)
| ExpenseAdded (amount : Z) (pname : string) (newSpentTotal : Z)
| ProjectCreated (campId : JS.value) (projId : string)
| Projects (projects : list Oracle.PROGRESS.row).

Record response : Type := Response { status : Z; json_body : json }.

End Http.

(** ** The application: middleware and route handlers of index.js *)

Module App.

Import Oracle Http.
Local Open Scope db_scope.

Definition generateUniqueId (prefix : string) : M string :=
  t <- Date_now ;; ret (prefix ++ "_" ++ JS.decimal t)%string.

Definition authenticateToken (req : request) : response + user :=
  match authorization req with
  | NoToken => inl (Response 401 NoBody)
  | BadToken => inl (Response 403 NoBody)
  | Token u => inr u
  end.

Definition authorizeStaff (u : user) : option response :=
  if (userType u =? "STAFF")%string then None
  else Some (Response 403 (Message "Access denied. Staff role required.")).

Definition authorizeDonor (u : user) : option response :=
  if (userType u =? "DONOR")%string then None
  else Some (Response 403 (Message "Access denied. Donor role required.")).

Definition errorNum_is (x : exn) (n : Z) : bool :=
  match x with OraError k => k =? n | JsError => false end.

(** A statement whose bind value the driver or Oracle has to convert. *)
Definition binding {A B} (b : outcome A) (stmt : A -> store -> outcome (B * store))
  : store -> outcome (B * store) :=
  fun s => match b with Ok a => stmt a s | Throw x => Throw x end.

(** A bind value for a column that takes no NULL (ORA-01400). *)
Definition not_null {A} (b : outcome (option A)) : outcome A :=
  match b with
  | Ok (Some a) => Ok a
  | Ok None => Throw (OraError 1400)
  | Throw x => Throw x
  end.

(** [userType.toUpperCase()]: a method of strings only. *)
Definition toUpperCase_of (v : JS.value) : M string :=
  match v with
  | JS.Str s => ret (JS.toUpperCase s)
  | _ => throw JsError
  end.

(** [bcrypt.hash(password, 10)] *)
Definition bcrypt_hash (v : JS.value) (rounds : nat) : M pwhash :=
  match v with
  | JS.Str s => ret (Bcrypt rounds s)
  | _ => throw JsError
  end.

(** [fname = null] in the destructuring: the default of an absent field. *)
Definition default_null (v : JS.value) : JS.value :=
  match v with JS.Undefined => JS.Null | _ => v end.

(** *** POST /api/auth/signup

    Every statement commits on its own ([autoCommit: true]), so the
    [rollback] of the [catch] block has nothing to undo, and closing the
    connection in [finally] changes nothing: neither is a step here. *)
Definition post_auth_signup (req : request) : M response :=
  try_catch
    (let aadharNo := body req "aadharNo" in
     let password := body req "password" in
     let email := body req "email" in
     let userType := body req "userType" in
     let fname := default_null (body req "fname") in
     let lname := default_null (body req "lname") in
     if negb (JS.truthy email) || negb (JS.truthy password)
        || negb (JS.truthy aadharNo) || negb (JS.truthy userType)
     then ret (Response 400 (Message
            "Missing required fields: email, password, Aadhar number, and user type."))
     else
       upperUserType <- toUpperCase_of userType ;;
       if negb (upperUserType =? "STAFF")%string
          && negb (upperUserType =? "DONOR")%string
       then ret (Response 400 (Message "Invalid user type. Must be STAFF or DONOR."))
       else if negb (JS.test JS.aadhar_re aadharNo)
       then ret (Response 400 (Message
              "Invalid Aadhar number. Must be exactly 12 digits."))
       else if negb (JS.test JS.email_re email)
       then ret (Response 400 (Message "Invalid email format."))
       else if JS.lt_num (JS.length_of password) 6
       then ret (Response 400 (Message
              "Password must be at least 6 characters long."))
       else
         hashedPassword <- bcrypt_hash password 10 ;;
         userId <- generateUniqueId upperUserType ;;
         primaryId <- generateUniqueId (JS.slice_0_1 upperUserType) ;;
         getConnection ;;;
         driver (insert_credentials
                   (NEW_CREDENTIALS.Row userId (JS.ToString aadharNo)
                      hashedPassword (JS.ToString email) upperUserType)) ;;;
         (if (upperUserType =? "STAFF")%string
          then doj <- Date_now ;;
               driver (binding (bind_varchar2 fname) (fun f =>
                       binding (bind_varchar2 lname) (fun l =>
                         insert_staff (STAFF.Row primaryId userId f l doj))))
          else if (upperUserType =? "DONOR")%string
          then driver (binding (bind_varchar2 fname) (fun f =>
                       binding (bind_varchar2 lname) (fun l =>
                         insert_donor (DONOR.Row primaryId userId f l))))
          else ret tt) ;;;
         ret (Response 201 (Registered primaryId upperUserType)))
    (fun err =>
       if errorNum_is err 1
       then ret (Response 409 (Message
              "This email or Aadhar number is already registered."))
       else ret (Response 500 (Message
              "Internal server error during registration."))).

(** [PERCENT_MET] and [SPENDING_PERCENT] as the handlers compute them:
    [d > 0 ? parseFloat(((n / d) * 100).toFixed(2)) : 0], on the doubles
    with which the two columns arrive.  The quotient and the product are
    rounded to doubles; [toFixed(2)] then rounds the exact value of the
    product to hundredths, and [parseFloat] reads these back. *)
Definition percent (n d : Z) : Q :=
  if 0 <? JS.fl d
  then round2 (JS.flQ (JS.flQ (inject_Z (JS.fl n) / inject_Z (JS.fl d)) * 100))
  else 0%Q.

(** *** GET /api/campaigns/financial-summary *)
Definition get_campaigns_financial_summary (u : user) (req : request) : M response :=
  try_catch
    (getConnection ;;;
     rows <- driver (query select_financial_summary) ;;
     ret (Response 200 (Summary
            (map (fun row => (row, percent (SUMMARY.TOTAL_RAISED row)
                                           (SUMMARY.GOAL_AMOUNT row))) rows))))
    (fun _ => ret (Response 500 (Message
                     "Failed to retrieve campaign financial summary."))).

(** *** POST /api/campaigns

    The two dates are bound as texts; the statement reads them with
    [TO_DATE] and fails on a text that is not a date ([insert_campaign]). *)
Definition post_campaigns (u : user) (req : request) : M response :=
  try_catch
    (let cName := body req "cName" in
     let goalAmount := body req "goalAmount" in
     let sDate := body req "sDate" in
     let eDate := body req "eDate" in
     let managerStaffId := primaryId u in
     if negb (JS.truthy cName) || negb (JS.truthy goalAmount)
        || negb (JS.truthy sDate) || negb (JS.truthy eDate)
     then ret (Response 400 (Message
            "Missing required fields: Campaign Name, Goal Amount, Start Date, and End Date."))
     else
       campId <- generateUniqueId "CAMP" ;;
       getConnection ;;;
       driver (binding (not_null (bind_varchar2 cName)) (fun name =>
               binding (not_null (bind_varchar2 sDate)) (fun sd =>
               binding (not_null (bind_varchar2 eDate)) (fun ed =>
               binding (not_null (bind_number goalAmount)) (fun goal =>
                 insert_campaign
                   (CAMPAIGN.Row campId name "ACTIVE" sd ed goal
                                 managerStaffId None)))))) ;;;
       ret (Response 201 (CampaignCreated campId)))
    (fun err =>
       if errorNum_is err 1
       then ret (Response 409 (Message
              "A campaign with this name may already exist."))
       else ret (Response 500 (Message
              "Internal server error while creating campaign."))).

(** *** POST /api/donations, the handler registered first *)
Definition post_donations (u : user) (req : request) : M response :=
  try_catch
    (let campId := body req "campId" in
     let amount := body req "amount" in
     let donorId := primaryId u in
     if negb (userType u =? "DONOR")%string
     then ret (Response 403 (Message
            "Access denied. Only Donor accounts can make donations."))
     else if negb (JS.truthy campId) || negb (JS.truthy amount)
             || JS.le_zero (JS.Number amount)
     then ret (Response 400 (Message
            "Missing or invalid fields: campId and positive amount are required."))
     else
       donId <- generateUniqueId "D" ;;
       getConnection ;;;
       campCheck <- driver (binding (bind_key campId) (fun c =>
                            query (select_campaign_status c))) ;;
       match campCheck with
       | [] => ret (Response 404 (Message
                 "Campaign not found or not currently active."))
       | status0 :: _ =>
           if negb (status0 =? "ACTIVE")%string
           then ret (Response 404 (Message
                  "Campaign not found or not currently active."))
           else
             donationDate <- Date_now ;;
             driver (binding (bind_key campId) (fun c =>
                     binding (not_null (bind_number amount)) (fun a =>
                       insert_donation
                         (DONATION.Row (Some donId) None donorId c a
                            (Some "ONLINE") (Some donationDate) None)))) ;;;
             ret (Response 201 (DonationRecorded amount donId))
       end)
    (fun _ => ret (Response 500 (Message
                     "Internal server error while recording donation."))).

(** *** GET /api/donations/history *)
Definition get_donations_history (u : user) (req : request) : M response :=
  try_catch
    (let donorId := primaryId u in
     getConnection ;;;
     rows <- driver (query (select_history
                              (if (userType u =? "DONOR")%string
                               then Some donorId else None))) ;;
     ret (Response 200 (History rows)))
    (fun _ => ret (Response 500 (Message "Failed to retrieve donation history."))).

(** *** GET /api/donations/:donId, the handler registered first *)
Definition get_donation_by_id (donId : string) (u : user) (req : request)
  : M response :=
  try_catch
    (getConnection ;;;
     rows <- driver (query (select_receipt donId)) ;;
     match rows with
     | [] => ret (Response 404 (Message "Donation not found."))
     | donation :: _ =>
         if (userType u =? "DONOR")%string
            && negb (RECEIPT.DONOR_ID donation =? primaryId u)%string
         then ret (Response 403 (Message
                "Access denied. You do not own this receipt."))
         else ret (Response 200 (Receipt donation))
     end)
    (fun _ => ret (Response 500 (Message
                     "Failed to retrieve donation receipt data."))).

(** The row of PROJECT as the driver hands it to JavaScript: the two
    NUMBER columns arrive as doubles. *)
Definition fetch_project (p : PROJECT.row) : PROJECT.row :=
  PROJECT.Row (PROJECT.PROJ_ID p) (PROJECT.PNAME p) (JS.fl (PROJECT.BUDGET p))
              (JS.fl (PROJECT.SPENT p)) (PROJECT.STATUS p) (PROJECT.SDATE p)
              (PROJECT.OVERSEER_STAFF_ID p) (PROJECT.CAMP_ID p).

(** *** PATCH /api/projects/:projId/expense, the handler registered first *)
Definition patch_project_expense (projId : string) (u : user) (req : request)
  : M response :=
  try_catch
    (let expenseAmount := body req "expenseAmount" in
     if JS.eq_null expenseAmount || JS.isNaN (JS.Number expenseAmount)
        || JS.le_zero (JS.Number expenseAmount)
     then ret (Response 400 (Message "Invalid expense amount provided."))
     else
       match JS.Number expenseAmount with
       | None => throw JsError (* not reached: NaN was refused above *)
       | Some amountToAdd =>
           getConnection ;;;
           checkResult <- driver (query (select_project projId)) ;;
           match checkResult with
           | [] => ret (Response 404 (Message "Project not found."))
           | row :: _ =>
               let project := fetch_project row in
               let newSpent := JS.add (PROJECT.SPENT project) amountToAdd in
               if PROJECT.BUDGET project <? newSpent
               then
                 let remainingBudget :=
                   JS.sub (PROJECT.BUDGET project) (PROJECT.SPENT project) in
                 ret (Response 400 (ExpenseBlocked (PROJECT.BUDGET project)
                                      remainingBudget amountToAdd))
               else
                 driver (update_project_spent newSpent projId) ;;;
                 ret (Response 200 (ExpenseAdded amountToAdd
                                      (PROJECT.PNAME project) newSpent))
           end
       end)
    (fun _ => ret (Response 500 (Message
                     "Internal server error while recording expense."))).

(** [campId || null] *)
Definition or_null (v : JS.value) : JS.value :=
  if JS.truthy v then v else JS.Null.

(** A number handed to the driver: NaN is refused. *)
Definition bind_js_number (x : option Z) : outcome Z :=
  match x with Some n => Ok n | None => Throw JsError end.

(** *** POST /api/projects

    The budget is bound as [Number(budget)]; the start date is bound as a
    text, which the statement reads with [TO_DATE] ([insert_project]). *)
Definition post_projects (u : user) (req : request) : M response :=
  try_catch
    (let pName := body req "pName" in
     let budget := body req "budget" in
     let sDate := body req "sDate" in
     let campId := body req "campId" in
     let overseerStaffId := primaryId u in
     if negb (JS.truthy pName) || negb (JS.truthy budget)
        || negb (JS.truthy sDate)
     then ret (Response 400 (Message
            "Project Name, Budget, and Start Date are required."))
     else
       projId <- generateUniqueId "PROJ" ;;
       getConnection ;;;
       driver (binding (not_null (bind_varchar2 pName)) (fun name =>
               binding (bind_js_number (JS.Number budget)) (fun b =>
               binding (not_null (bind_varchar2 sDate)) (fun sd =>
               binding (bind_varchar2 (or_null campId)) (fun c =>
                 insert_project
                   (PROJECT.Row projId name b 0 "ONGOING" sd
                                overseerStaffId c)))))) ;;;
       ret (Response 201 (ProjectCreated campId projId)))
    (fun err =>
       if errorNum_is err 2291
       then ret (Response 400 (Message "Invalid Campaign ID provided."))
       else if errorNum_is err 1
       then ret (Response 409 (Message
              "A project with this name may already exist."))
       else ret (Response 500 (Message
              "Internal server error while creating project."))).

(** *** PATCH /api/projects/:projId/expense, the handler registered second *)
Definition patch_project_expense_2 (projId : string) (u : user) (req : request)
  : M response :=
  try_catch
    (let expenseAmount := body req "expenseAmount" in
     if JS.eq_null expenseAmount || JS.isNaN (JS.Number expenseAmount)
        || JS.le_zero (JS.Number expenseAmount)
     then ret (Response 400 (Message "Invalid expense amount provided."))
     else
       match JS.Number expenseAmount with
       | None => throw JsError (* not reached: NaN was refused above *)
       | Some amountToAdd =>
           getConnection ;;;
           checkResult <- driver (query (select_project projId)) ;;
           match checkResult with
           | [] => ret (Response 404 (Message "Project not found."))
           | row :: _ =>
               let project := fetch_project row in
               let newSpent := JS.add (PROJECT.SPENT project) amountToAdd in
               if PROJECT.BUDGET project <? newSpent
               then
                 let remainingBudget :=
                   JS.sub (PROJECT.BUDGET project) (PROJECT.SPENT project) in
                 ret (Response 400 (ExpenseBlocked2 (PROJECT.BUDGET project)
                                      (Z.max 0 remainingBudget) amountToAdd))
               else
                 driver (update_project_spent_status newSpent projId) ;;;
                 ret (Response 200 (ExpenseAdded amountToAdd
                                      (PROJECT.PNAME project) newSpent))
           end
       end)
    (fun _ => ret (Response 500 (Message
                     "Internal server error while recording expense."))).

(** *** GET /api/projects/progress

    The handler replaces the [SPENDING_PERCENT] of every row the query
    returned by the value it computes itself. *)
Definition get_projects_progress (u : user) (req : request) : M response :=
  try_catch
    (getConnection ;;;
     rows <- driver select_progress ;;
     let projectsWithProgress :=
       map (fun row =>
              PROGRESS.Row (PROGRESS.project row)
                (percent (PROJECT.SPENT (PROGRESS.project row))
                         (PROJECT.BUDGET (PROGRESS.project row))))
           rows in
     ret (Response 200 (Projects projectsWithProgress)))
    (fun _ => ret (Response 500 (Message
                     "Failed to retrieve project progress data."))).

(** [new Date().toISOString().slice(0, 10)] read back by [TO_DATE]: the
    calendar day of the instant. *)
Definition day_of (t : Z) : Z := t / 86400000.

(** *** POST /api/donations, the handler registered second *)
Definition post_donations_2 (u : user) (req : request) : M response :=
  try_catch
    (let campId := body req "campId" in
     let amount := body req "amount" in
     let donorId := primaryId u in
     if negb (JS.truthy campId) || negb (JS.truthy amount)
        || JS.le_zero (JS.Number amount)
     then ret (Response 400 (Message "Invalid campaign or donation amount."))
     else
       let donationAmount := JS.Number amount in
       now <- Date_now ;;
       let donationDate := day_of now in
       getConnection ;;;
       newDonId <- driver nextval ;;
       driver (binding (bind_key campId) (fun c =>
               binding (bind_js_number donationAmount) (fun a =>
                 insert_donation
                   (DONATION.Row None (Some newDonId) donorId c a
                                 None None (Some donationDate))))) ;;;
       driver (binding (bind_js_number donationAmount) (fun a =>
               binding (bind_key campId) (fun c =>
                 update_campaign_collected a c))) ;;;
       ret (Response 201 (DonationRecorded2 newDonId)))
    (fun _ => ret (Response 500 (Message
                     "Internal server error while recording donation."))).

(** *** GET /api/donations/:donId, the handler registered second

    The text of its statement carries a line that starts with [//] among
    the selected columns.  Oracle has no such comment and refuses the
    statement (ORA-00936); [slash_comment] says whether the line is instead
    read as the comment it was meant to be, in which case the query is
    [select_receipt_2]. *)
Definition get_donation_by_id_2 (slash_comment : bool) (donId : string)
  (u : user) (req : request) : M response :=
  try_catch
    (let authDonorId := primaryId u in
     let authUserType := userType u in
     getConnection ;;;
     rows <- driver (if slash_comment then query (select_receipt_2 donId)
                     else fun _ => Throw (OraError 936)) ;;
     match rows with
     | [] => ret (Response 404 (Message "Donation not found."))
     | donation :: _ =>
         if (authUserType =? "DONOR")%string
            && negb (RECEIPT2.DONOR_ID donation =? authDonorId)%string
         then ret (Response 403 (Message
                "Access denied: You can only view your own receipts."))
         else ret (Response 200 (Receipt2 donation))
     end)
    (fun _ => ret (Response 500 (Message
                     "Internal server error while retrieving receipt data."))).

(** *** Routing

    Express walks the routes in the order of their registration and runs
    the first whose method and path match; its middleware either answers or
    passes on to the next function of the same route.  No handler of
    index.js calls [next], so a route registered after another with the
    same method and path is never run. *)

Inductive segment : Type := Lit (s : string) | Param.

(** [express()] is created without options: a literal segment of a route
    matches whatever the case of its letters (the pattern is compiled with
    the flag [i]), and a parameter takes the segment as it is written. *)
Fixpoint match_path (pattern : list segment) (p : list string)
  : option (list string) :=
  match pattern, p with
  | [], [] => Some []
  | Lit s :: pattern', x :: p' =>
      if (JS.toUpperCase s =? JS.toUpperCase x)%string
      then match_path pattern' p' else None
  | Param :: pattern', x :: p' => option_map (cons x) (match_path pattern' p')
  | _, _ => None
  end.

Inductive handler : Type :=
| Public (h : request -> M response)
| Protected (guards : list (user -> option response))
            (h : list string -> user -> request -> M response).

Record route : Type := Route
  { route_method : verb; route_path : list segment; route_handler : handler }.

Fixpoint first_refusal (guards : list (user -> option response)) (u : user)
  : option response :=
  match guards with
  | [] => None
  | g :: guards' =>
      match g u with
      | Some r => Some r
      | None => first_refusal guards' u
      end
  end.

Definition run_route (h : handler) (params : list string) (req : request)
  : M response :=
  match h with
  | Public f => f req
  | Protected guards f =>
      match authenticateToken req with
      | inl r => ret r
      | inr u =>
          match first_refusal guards u with
          | Some r => ret r
          | None => f params u req
          end
      end
  end.

Fixpoint dispatch (routes : list route) (req : request) : M response :=
  match routes with
  | [] => ret (Response 404 NoBody)
  | r :: routes' =>
      if verb_eqb (route_method r) (method req)
      then match match_path (route_path r) (path req) with
           | Some params => run_route (route_handler r) params req
           | None => dispatch routes' req
           end
      else dispatch routes' req
  end.

Definition param1 (h : string -> user -> request -> M response)
  : list string -> user -> request -> M response :=
  fun params => h (hd ""%string params).

(** The routes of index.js that are modelled, in the order in which the
    file registers them.  The routes left out match none of these paths. *)
Definition app (slash_comment : bool) : list route :=
  [ Route POST [Lit "api"; Lit "auth"; Lit "signup"] (Public post_auth_signup);
    Route GET [Lit "api"; Lit "campaigns"; Lit "financial-summary"]
      (Protected [authorizeStaff] (fun _ => get_campaigns_financial_summary));
    Route POST [Lit "api"; Lit "campaigns"]
      (Protected [authorizeStaff] (fun _ => post_campaigns));
    Route POST [Lit "api"; Lit "donations"]
      (Protected [] (fun _ => post_donations));
    Route GET [Lit "api"; Lit "donations"; Lit "history"]
      (Protected [] (fun _ => get_donations_history));
    Route GET [Lit "api"; Lit "donations"; Param]
      (Protected [] (param1 get_donation_by_id));
    Route PATCH [Lit "api"; Lit "projects"; Param; Lit "expense"]
      (Protected [authorizeStaff] (param1 patch_project_expense));
    Route POST [Lit "api"; Lit "projects"]
      (Protected [authorizeStaff] (fun _ => post_projects));
    Route PATCH [Lit "api"; Lit "projects"; Param; Lit "expense"]
      (Protected [authorizeStaff] (param1 patch_project_expense_2));
    Route GET [Lit "api"; Lit "projects"; Lit "progress"]
      (Protected [] (fun _ => get_projects_progress));
    Route POST [Lit "api"; Lit "donations"]
      (Protected [authorizeDonor] (fun _ => post_donations_2));
    Route GET [Lit "api"; Lit "donations"; Param]
      (Protected [] (param1 (get_donation_by_id_2 slash_comment))) ].

(** One request served on a store: the response sent and the store left
    behind.  Every handler catches what its body throws; the last case is
    the default error handler of Express. *)
Definition run (m : M response) (e : env) (s : store) : response * store :=
  match exec m e (World s 0 0) with
  | (Ok r, w) => (r, db w)
  | (Throw _, w) => (Response 500 NoBody, db w)
  end.

Definition serve (e : env) (req : request) (s : store) : response * store :=
  run (dispatch (app false) req) e s.

(** A sequence of requests served one after the other. *)
Fixpoint serve_all (rs : list (env * request)) (s : store) : store :=
  match rs with
  | [] => s
  | (e, req) :: rs' => serve_all rs' (snd (serve e req s))
  end.

End App.

(** ** Requests served at the same time

    Node runs one handler until it awaits the driver, and may then go on
    with any other request that is waiting.  The handlers in flight are the
    programs that remain of them; a schedule says, step after step, which
    of them moves, what the clock reads and whether the driver call fails. *)

Module Interleaving.

Import Oracle Http.

Record state : Type := State { shared : store; threads : list (M response) }.

Record choice : Type := Choice { who : nat; reading : Z; fault : option Z }.

(** One step of one program: a clock reading, or one call of the driver on
    the shared store.  A program that has answered stays as it is. *)
Definition advance {A} (m : M A) (c : choice) (s : store) : M A * store :=
  match m with
  | Return a => (Return a, s)
  | Raise x => (Raise x, s)
  | Clock k => (k (reading c), s)
  | Await stmt k => let (r, s') := perform (fault c) stmt s in (k r, s')
  end.

Fixpoint replace {A} (i : nat) (x : A) (l : list A) {struct l} : list A :=
  match l, i with
  | [], _ => []
  | _ :: l', O => x :: l'
  | y :: l', S i' => y :: replace i' x l'
  end.

Definition step (c : choice) (st : state) : state :=
  match nth_error (threads st) (who c) with
  | None => st
  | Some m =>
      let (m', s') := advance m c (shared st) in
      State s' (replace (who c) m' (threads st))
  end.

Fixpoint steps (schedule : list choice) (st : state) : state :=
  match schedule with
  | [] => st
  | c :: schedule' => steps schedule' (step c st)
  end.

(** A program keeps a property of the store when each of its driver calls,
    made on a store that has the property, leaves a store that has it, the
    rest of the program keeping it in turn. *)
Fixpoint keeps {A} (I : store -> Prop) (m : M A) : Prop :=
  match m with
  | Return _ | Raise _ => True
  | Clock k => forall t, keeps I (k t)
  | Await stmt k =>
      (forall n, keeps I (k (Throw (OraError n)))) /\
      (forall s, I s ->
                 match stmt s with
                 | Ok (b, s') => I s' /\ keeps I (k (Ok b))
                 | Throw x => keeps I (k (Throw x))
                 end)
  end.

(** The answers sent so far. *)
Definition answers (st : state) : list (option response) :=
  map (fun m => match m with Return r => Some r | _ => None end) (threads st).

End Interleaving.

(** ** Sample data: a small store and the callers used in the examples *)

Module Sample.

Import Oracle Http.

Definition staff_user : user := User "STAFF_1700000000000" "S_1700000000001" "STAFF".
Definition donor_a : user := User "DONOR_1700000001000" "D_1700000001001" "DONOR".
Definition donor_b : user := User "DONOR_1700000002000" "D_1700000002001" "DONOR".

Definition one_of (l : list string) (t : string) : bool := existsb (String.eqb t) l.

Definition digits : list string := ["0"; "1"; "2"; "3"; "4"; "5"; "6"; "7"; "8"; "9"].

Definition months : list string :=
  ["01"; "02"; "03"; "04"; "05"; "06"; "07"; "08"; "09"; "10"; "11"; "12"].

Definition days : list string :=
  ["01"; "02"; "03"; "04"; "05"; "06"; "07"; "08"; "09"; "10"; "11"; "12"; "13";
   "14"; "15"; "16"; "17"; "18"; "19"; "20"; "21"; "22"; "23"; "24"; "25"; "26";
   "27"; "28"; "29"; "30"; "31"].

(** The two-digit numbers that 4 divides. *)
Definition fourth : list string :=
  ["00"; "04"; "08"; "12"; "16"; "20"; "24"; "28"; "32"; "36"; "40"; "44"; "48";
   "52"; "56"; "60"; "64"; "68"; "72"; "76"; "80"; "84"; "88"; "92"; "96"].

(** A year of four digits is a leap year when 4 divides its last two
    digits, or, these being 00, its first two. *)
Definition leap_year (yyyy : string) : bool :=
  if (substring 2 2 yyyy =? "00")%string then one_of fourth (substring 0 2 yyyy)
  else one_of fourth (substring 2 2 yyyy).

Definition days_in_month (yyyy mm : string) : nat :=
  if (mm =? "02")%string then (if leap_year yyyy then 29 else 28)%nat
  else if one_of ["04"; "06"; "09"; "11"] mm then 30%nat else 31%nat.

(** The texts that the database of the examples reads as dates: those
    written YYYY-MM-DD, ten characters, that name a day of the Gregorian
    calendar from the year 1900 on.  The examples bind no other text, so
    nothing in them depends on the other spellings that Oracle reads. *)
Definition calendar_date (text : string) : bool :=
  let yyyy := substring 0 4 text in
  let mm := substring 5 2 text in
  let dd := substring 8 2 text in
  (String.length text =? 10)%nat
  && (substring 4 1 text =? "-")%string && (substring 7 1 text =? "-")%string
  && forallb (fun i => one_of digits (substring i 1 text)) [0; 1; 2; 3]%nat
  && (one_of ["19"] (substring 0 2 text)
      || one_of ["2"; "3"; "4"; "5"; "6"; "7"; "8"; "9"] (substring 0 1 text))
  && one_of months mm
  && one_of (firstn (days_in_month yyyy mm) days) dd.

Definition store0 : store :=
  Store
    [ NEW_CREDENTIALS.Row "STAFF_1700000000000" "111122223333"
        (Bcrypt 10 "staffpw") "staff@ngo.org" "STAFF";
      NEW_CREDENTIALS.Row "DONOR_1700000001000" "444455556666"
        (Bcrypt 10 "donorpwA") "a@mail.org" "DONOR";
      NEW_CREDENTIALS.Row "DONOR_1700000002000" "777788889999"
        (Bcrypt 10 "donorpwB") "b@mail.org" "DONOR" ]
    [ STAFF.Row "S_1700000000001" "STAFF_1700000000000" (Some "Sita") (Some "Rao")
        1700000000002 ]
    [ DONOR.Row "D_1700000001001" "DONOR_1700000001000" (Some "Asha") (Some "Iyer");
      DONOR.Row "D_1700000002001" "DONOR_1700000002000" (Some "Bala") None ]
    [ CAMPAIGN.Row "CAMP_1" "Clean Water" "ACTIVE" "2025-01-01" "2025-12-31"
        10000 "S_1700000000001" (Some 8000);
      CAMPAIGN.Row "CAMP_2" "Winter Relief" "COMPLETED" "2024-01-01" "2024-03-31"
        5000 "S_1700000000001" (Some 0) ]
    [ PROJECT.Row "PROJ_1" "Wells" 5000 4800 "ONGOING" "2025-02-01"
        "S_1700000000001" (Some "CAMP_1");
      PROJECT.Row "PROJ_2" "Blankets" 900 100 "ONGOING" "2024-01-15"
        "S_1700000000001" None ]
    [ DONATION.Row (Some "D_1700000003000") None "D_1700000002001" "CAMP_1" 8000
        (Some "ONLINE") (Some 1700000003001) None ]
    1
    calendar_date.

(** A store with a project whose budget is 0. *)
Definition store_zero_budget : store :=
  with_projects store0
    (projects store0 ++
     [PROJECT.Row "PROJ_3" "Survey" 0 0 "ONGOING" "2025-03-01" "S_1700000000001" None]).


Definition quiet (t : Z) : env := Env (fun k => t + Z.of_nat k) no_faults.

Definition fields (l : list (string * JS.value)) : string -> JS.value :=
  fun name =>
    match find (fun kv => (fst kv =? name)%string) l with
    | Some kv => snd kv
    | None => JS.Undefined
    end.

Definition expense_request (caller : user) (projId : string) (amount : JS.value)
  : request :=
  Request PATCH ["api"; "projects"; projId; "expense"] (Token caller)
          (fields [("expenseAmount", amount)]).

Definition donation_request (caller : user) (campId : string) (amount : JS.value)
  : request :=
  Request POST ["api"; "donations"] (Token caller)
          (fields [("campId", JS.Str campId); ("amount", amount)]).

Definition receipt_request (caller : user) (donId : string) : request :=
  Request GET ["api"; "donations"; donId] (Token caller) (fields []).

Definition progress_request (caller : user) : request :=
  Request GET ["api"; "projects"; "progress"] (Token caller) (fields []).


Definition project_request (caller : user) (name : string) (budget : JS.value)
  (sDate : string) : request :=
  Request POST ["api"; "projects"] (Token caller)
          (fields [("pName", JS.Str name); ("budget", budget);
                   ("sDate", JS.Str sDate)]).

Definition signup_request (aadharNo email password userType : JS.value) : request :=
  Request POST ["api"; "auth"; "signup"] NoToken
          (fields [("aadharNo", aadharNo); ("email", email);
                   ("password", password); ("userType", userType)]).

End Sample.

(** ** Vocabulary of the statements *)

Import Oracle Http App Interleaving.

(** A call of recordExpense: a request to PATCH /api/projects/:projId/expense,
    whatever its caller, its body and the faults met while it is served. *)
Definition expense_call (er : env * request) : Prop :=
  method (snd er) = PATCH /\
  exists projId, path (snd er) = ["api"; "projects"; projId; "expense"].

Ltac refused H := inversion H; subst; left; split; [reflexivity | discriminate].

(** The row that the first donation handler inserts for caller [u],
    campaign [c] and amount [a] in environment [e]: its identifier is made
    from the first reading of the clock, its date is the second reading. *)
Definition donation_row (e : env) (u : user) (c : string) (a : Z) : DONATION.row :=
  DONATION.Row (Some ("D_" ++ JS.decimal (clock e 0%nat))%string) None
               (primaryId u) c a (Some "ONLINE"%string) (Some (clock e 1%nat)) None.



(** Every donation refers to a stored campaign (the foreign key of
    DONATION). *)
Definition referenced (s : store) : Prop :=
  forall dn, In dn (donations s) ->
             exists c, In c (campaigns s) /\ CAMPAIGN.CAMP_ID c = DONATION.CAMP_ID dn.

(** One project is a single row with budget [B] whose SPENT is at most [B]. *)
Definition within_budget (projId : string) (B : Z) (s : store) : Prop :=
  exists p, select_project projId s = [p] /\
            PROJECT.BUDGET p = B /\ PROJECT.SPENT p <= B.

(** ** The whole application: every route that index.js registers

    The handlers above are kept as they are; their answers are carried over
    by [lift].  The handlers below are those of the remaining routes. *)

Module Full.

Import Oracle Http App.
Local Open Scope db_scope.

(** *** Statements of the remaining handlers *)

(** [SELECT USER_ID, PASSWORD, USER_TYPE FROM NEW_CREDENTIALS
     WHERE EMAIL = :email] *)
Definition select_credentials_by_email (email : string) (s : store)
  : list NEW_CREDENTIALS.row :=
  filter (fun c => (NEW_CREDENTIALS.EMAIL c =? email)%string) (credentials s).

(** [SELECT STAFF_ID FROM STAFF WHERE USER_ID = :userId] *)
Definition select_staff_id (userId : string) (s : store) : list string :=
  map STAFF.STAFF_ID
      (filter (fun r => (STAFF.USER_ID r =? userId)%string) (staff s)).

(** [SELECT DONOR_ID FROM DONOR WHERE USER_ID = :userId] *)
Definition select_donor_id (userId : string) (s : store) : list string :=
  map DONOR.DONOR_ID
      (filter (fun r => (DONOR.USER_ID r =? userId)%string) (donors s)).

(** [ORDER BY SDATE DESC]: the rows hold the text that [TO_DATE] read; for
    dates written YYYY-MM-DD the order of the texts is the order in time. *)
Definition later_first (a b : string) : bool :=
  match String.compare a b with Lt => false | _ => true end.

Module CAMPAIGNS.
Record row : Type := Row
  { CAMP_ID : string; C_NAME : string; STATUS : string;
    SDATE : string; EDATE : string; GOAL_AMOUNT : Z }.
End CAMPAIGNS.

(** [SELECT CAMP_ID, C_NAME, STATUS, SDATE, EDATE, GOAL_AMOUNT FROM CAMPAIGN
     ORDER BY SDATE DESC] *)
Definition select_campaigns (s : store) : list CAMPAIGNS.row :=
  order_by (fun x y => later_first (CAMPAIGNS.SDATE x) (CAMPAIGNS.SDATE y))
    (map (fun c => CAMPAIGNS.Row (CAMPAIGN.CAMP_ID c) (CAMPAIGN.C_NAME c)
                     (CAMPAIGN.STATUS c) (CAMPAIGN.SDATE c) (CAMPAIGN.EDATE c)
                     (CAMPAIGN.GOAL_AMOUNT c))
         (campaigns s)).

Definition name_order (x y : SUMMARY.row) : bool :=
  match String.compare (SUMMARY.C_NAME x) (SUMMARY.C_NAME y) with
  | Gt => false
  | _ => true
  end.

(** The query of the summary route: that of the financial summary, with
    [ORDER BY C.C_NAME]. *)
Definition select_summary (s : store) : list SUMMARY.row :=
  order_by name_order
    (map (fun c => SUMMARY.Row (CAMPAIGN.CAMP_ID c) (CAMPAIGN.C_NAME c)
                     (CAMPAIGN.GOAL_AMOUNT c) (CAMPAIGN.STATUS c)
                     (TOTAL_RAISED s (CAMPAIGN.CAMP_ID c)))
         (campaigns s)).

Definition set_campaign_status (status : string) (c : CAMPAIGN.row) : CAMPAIGN.row :=
  CAMPAIGN.Row (CAMPAIGN.CAMP_ID c) (CAMPAIGN.C_NAME c) status
    (CAMPAIGN.SDATE c) (CAMPAIGN.EDATE c) (CAMPAIGN.GOAL_AMOUNT c)
    (CAMPAIGN.MANAGER_STAFF_ID c) (CAMPAIGN.AMOUNT_COLLECTED c).

(** [UPDATE CAMPAIGN SET STATUS = :upperStatus WHERE CAMP_ID = :campId];
    the result is [rowsAffected]. *)
Definition update_campaign_status (upperStatus campId : string)
  : store -> outcome (nat * store) :=
  fun s =>
    Ok (List.length (filter (fun c => (CAMPAIGN.CAMP_ID c =? campId)%string)
                            (campaigns s)),
        with_campaigns s
          (map (fun c => if (CAMPAIGN.CAMP_ID c =? campId)%string
                         then set_campaign_status upperStatus c else c)
               (campaigns s))).

Module ACTIVE.
Record row : Type := Row
  { CAMP_ID : string; C_NAME : string; GOAL_AMOUNT : Z;
    SDATE : string; EDATE : string }.
End ACTIVE.

(** [SELECT CAMP_ID, C_NAME, GOAL_AMOUNT, SDATE, EDATE FROM CAMPAIGN
     WHERE STATUS = 'ACTIVE' ORDER BY SDATE DESC] *)
Definition select_active_campaigns (s : store) : list ACTIVE.row :=
  order_by (fun x y => later_first (ACTIVE.SDATE x) (ACTIVE.SDATE y))
    (map (fun c => ACTIVE.Row (CAMPAIGN.CAMP_ID c) (CAMPAIGN.C_NAME c)
                     (CAMPAIGN.GOAL_AMOUNT c) (CAMPAIGN.SDATE c) (CAMPAIGN.EDATE c))
         (filter (fun c => (CAMPAIGN.STATUS c =? "ACTIVE")%string) (campaigns s))).

Module DONORS.
Record row : Type := Row
  { DONOR_ID : string; FNAME : option string; LNAME : option string;
    EMAIL : string; AADHAR_NO : string; TOTAL_GIVEN : Z }.
End DONORS.

(** [NVL(SUM(T.AMOUNT), 0)] over the donations of one donor. *)
Definition TOTAL_GIVEN (s : store) (donorId : string) : Z :=
  fold_right Z.add 0
    (map DONATION.AMOUNT
         (filter (fun x => (DONATION.DONOR_ID x =? donorId)%string) (donations s))).

(** The query of the donor summary: DONOR joined with NEW_CREDENTIALS, one
    group for each pair (the keys of both are among the grouping
    columns), the donations of the donor summed,
    [ORDER BY TOTAL_GIVEN DESC]. *)
Definition select_donor_summary (s : store) : list DONORS.row :=
  order_by (fun x y => DONORS.TOTAL_GIVEN y <=? DONORS.TOTAL_GIVEN x)
    (flat_map (fun d =>
       map (fun u => DONORS.Row (DONOR.DONOR_ID d) (DONOR.FNAME d) (DONOR.LNAME d)
                       (NEW_CREDENTIALS.EMAIL u) (NEW_CREDENTIALS.AADHAR_NO u)
                       (TOTAL_GIVEN s (DONOR.DONOR_ID d)))
           (filter (fun u => (NEW_CREDENTIALS.USER_ID u =? DONOR.USER_ID d)%string)
                   (credentials s)))
       (donors s)).

Module PROJECTS.
Record row : Type := Row
  { PROJ_ID : string; PNAME : string; BUDGET : Z; SPENT : Z;
    STATUS : string; SDATE : string; CAMP_ID : option string }.
End PROJECTS.

(** [SELECT PROJ_ID, PNAME, BUDGET, SPENT, STATUS, SDATE, CAMP_ID FROM PROJECT
     ORDER BY SDATE DESC] *)
Definition select_projects (s : store) : list PROJECTS.row :=
  order_by (fun x y => later_first (PROJECTS.SDATE x) (PROJECTS.SDATE y))
    (map (fun p => PROJECTS.Row (PROJECT.PROJ_ID p) (PROJECT.PNAME p)
                     (PROJECT.BUDGET p) (PROJECT.SPENT p) (PROJECT.STATUS p)
                     (PROJECT.SDATE p) (PROJECT.CAMP_ID p))
         (projects s)).

Definition set_project_campaign (campId : option string) (p : PROJECT.row)
  : PROJECT.row :=
  PROJECT.Row (PROJECT.PROJ_ID p) (PROJECT.PNAME p) (PROJECT.BUDGET p)
    (PROJECT.SPENT p) (PROJECT.STATUS p) (PROJECT.SDATE p)
    (PROJECT.OVERSEER_STAFF_ID p) campId.

(** [UPDATE PROJECT SET CAMP_ID = :campId WHERE PROJ_ID = :projId]; the
    result is [rowsAffected].  The foreign key of PROJECT (see
    [insert_project]) is checked on the rows that are written: with no row
    of that identifier nothing is checked. *)
Definition update_project_campaign (campId : option string) (projId : string)
  : store -> outcome (nat * store) :=
  fun s =>
    let hit := filter (fun p => (PROJECT.PROJ_ID p =? projId)%string) (projects s) in
    if match hit, campId with
       | _ :: _, Some c =>
           negb (existsb (fun x => (CAMPAIGN.CAMP_ID x =? c)%string) (campaigns s))
       | _, _ => false
       end
    then Throw (OraError 2291)
    else Ok (List.length hit,
             with_projects s
               (map (fun p => if (PROJECT.PROJ_ID p =? projId)%string
                              then set_project_campaign campId p else p)
                    (projects s))).

Module DONATIONS.
Record row : Type := Row
  { DONOR_ID : string; DONATION_DATE : option Z; AMOUNT : Z;
    C_NAME : string; CAMP_ID : string }.
End DONATIONS.

(** [SELECT d.DONOR_ID, d.DONATION_DATE, d.AMOUNT, c.C_NAME, d.CAMP_ID
     FROM DONATION d JOIN CAMPAIGN c ON d.CAMP_ID = c.CAMP_ID
     WHERE d.DONOR_ID = :donId ORDER BY d.DONATION_DATE DESC] *)
Definition select_donations_of (donId : string) (s : store) : list DONATIONS.row :=
  order_by (fun x y => date_desc (DONATIONS.DONATION_DATE x)
                                 (DONATIONS.DONATION_DATE y))
    (flat_map (fun dn =>
       map (fun c => DONATIONS.Row (DONATION.DONOR_ID dn) (DONATION.DONATION_DATE dn)
                       (DONATION.AMOUNT dn) (CAMPAIGN.C_NAME c) (DONATION.CAMP_ID dn))
           (filter (fun c => (CAMPAIGN.CAMP_ID c =? DONATION.CAMP_ID dn)%string)
                   (campaigns s)))
       (filter (fun dn => (DONATION.DONOR_ID dn =? donId)%string) (donations s))).

(** *** Answers *)

Inductive document : Type :=
| Claimed (j : json)
| LoggedIn (token : user) (userType primaryId : string)
| Welcome (userType : string) (u : user)
| CampaignList (count : nat) (campaigns : list CAMPAIGNS.row)
| CampaignSummary (summary : list SUMMARY.row)
| StatusUpdated (campId upperStatus : string)
| ActiveCampaigns (campaigns : list ACTIVE.row)
| DonorSummary (donors : list DONORS.row)
| ProjectList (count : nat) (projects : list PROJECTS.row)
| ProjectLinked (projId : string) (campId : JS.value)
| DonationList (donations : list DONATIONS.row).

Record answer : Type := Answer { code : Z; sent : document }.

Definition lift (r : response) : answer := Answer (status r) (Claimed (json_body r)).

Definition lifted (m : M response) : M answer := bind m (fun r => ret (lift r)).

Definition say (code : Z) (message : string) : M answer :=
  ret (Answer code (Claimed (Message message))).

(** *** POST /api/auth/login *)

(** [bcrypt.compare(data, hash)]: true on the text that was hashed; data
    that is not a string is an error. *)
Definition bcrypt_compare (v : JS.value) (h : pwhash) : M bool :=
  match v, h with
  | JS.Str s, Bcrypt _ data => ret (s =? data)%string
  | _, _ => throw JsError
  end.

(** [!primaryId] for [rows[0]?.STAFF_ID]: no row, or an empty identifier. *)
Definition profile_id (rows : list string) : option string :=
  match rows with
  | id :: _ => if (id =? "")%string then None else Some id
  | [] => None
  end.

(** The token of [jwt.sign] is its payload: a request that presents it
    within the hour carries [Token payload]. *)
Definition post_auth_login (req : request) : M answer :=
  try_catch
    (let email := body req "email" in
     let password := body req "password" in
     if negb (JS.truthy email) || negb (JS.truthy password)
     then say 400 "Email and password are required."
     else
       getConnection ;;;
       result <- driver (binding (bind_key email) (fun x =>
                         query (select_credentials_by_email x))) ;;
       match result with
       | [] => say 401 "Authentication failed. User not found."
       | user :: _ =>
           isMatch <- bcrypt_compare password (NEW_CREDENTIALS.PASSWORD user) ;;
           if negb isMatch
           then say 401 "Authentication failed. Incorrect password."
           else
             primaryId <-
               (if (NEW_CREDENTIALS.USER_TYPE user =? "STAFF")%string
                then staffResult <- driver (query (select_staff_id
                                                     (NEW_CREDENTIALS.USER_ID user))) ;;
                     ret (profile_id staffResult)
                else if (NEW_CREDENTIALS.USER_TYPE user =? "DONOR")%string
                then donorResult <- driver (query (select_donor_id
                                                     (NEW_CREDENTIALS.USER_ID user))) ;;
                     ret (profile_id donorResult)
                else ret None) ;;
             match primaryId with
             | None => say 500 "User profile not found after login."
             | Some id =>
                 let token := User (NEW_CREDENTIALS.USER_ID user) id
                                   (NEW_CREDENTIALS.USER_TYPE user) in
                 ret (Answer 200 (LoggedIn token
                                    (NEW_CREDENTIALS.USER_TYPE user) id))
             end
       end)
    (fun _ => say 500 "Internal server error during login.").

(** *** GET /api/profile *)
Definition get_profile (u : user) (req : request) : M answer :=
  ret (Answer 200 (Welcome (userType u) u)).

(** *** GET /api/campaigns *)
Definition get_campaigns (u : user) (req : request) : M answer :=
  try_catch
    (getConnection ;;;
     rows <- driver (query select_campaigns) ;;
     ret (Answer 200 (CampaignList (List.length rows) rows)))
    (fun _ => say 500 "Failed to retrieve campaign data.").

(** *** GET /api/campaigns/summary *)
Definition get_campaigns_summary (u : user) (req : request) : M answer :=
  try_catch
    (getConnection ;;;
     rows <- driver (query select_summary) ;;
     ret (Answer 200 (CampaignSummary rows)))
    (fun _ => say 500 "Failed to retrieve campaign summary data.").

Definition validStatuses : list string := ["ACTIVE"; "COMPLETED"; "CANCELLED"].

(** [validStatuses.includes(upperStatus)] *)
Definition includes (l : list string) (x : string) : bool :=
  existsb (String.eqb x) l.

(** *** PATCH /api/campaigns/:campId/status *)
Definition patch_campaign_status (campId : string) (u : user) (req : request)
  : M answer :=
  try_catch
    (let status := body req "status" in
     if negb (JS.truthy status)
     then say 400 "Missing required field: status."
     else
       upperStatus <- toUpperCase_of status ;;
       if negb (includes validStatuses upperStatus)
       then say 400 "Invalid status provided."
       else
         getConnection ;;;
         rowsAffected <- driver (update_campaign_status upperStatus campId) ;;
         if (rowsAffected =? 0)%nat
         then say 404 "Campaign not found."
         else ret (Answer 200 (StatusUpdated campId upperStatus)))
    (fun _ => say 500 "Internal server error while updating campaign status.").

(** *** GET /api/campaigns/active *)
Definition get_campaigns_active (u : user) (req : request) : M answer :=
  try_catch
    (getConnection ;;;
     rows <- driver (query select_active_campaigns) ;;
     ret (Answer 200 (ActiveCampaigns rows)))
    (fun _ => say 500 "Failed to retrieve active campaigns.").

(** *** GET /api/donors/summary *)
Definition get_donors_summary (u : user) (req : request) : M answer :=
  try_catch
    (getConnection ;;;
     rows <- driver (query select_donor_summary) ;;
     ret (Answer 200 (DonorSummary rows)))
    (fun _ => say 500 "Failed to retrieve donor summary data.").

(** *** GET /api/projects *)
Definition get_projects (u : user) (req : request) : M answer :=
  try_catch
    (getConnection ;;;
     rows <- driver (query select_projects) ;;
     ret (Answer 200 (ProjectList (List.length rows) rows)))
    (fun _ => say 500 "Failed to retrieve project data.").

(** *** PATCH /api/projects/:projId/link-campaign *)
Definition patch_project_link_campaign (projId : string) (u : user)
  (req : request) : M answer :=
  try_catch
    (let campId := body req "campId" in
     if negb (JS.truthy campId)
     then say 400 "Campaign ID is required for linking."
     else
       getConnection ;;;
       rowsAffected <- driver (binding (bind_varchar2 campId) (fun c =>
                               update_project_campaign c projId)) ;;
       if (rowsAffected =? 0)%nat
       then say 404 "Project not found."
       else ret (Answer 200 (ProjectLinked projId campId)))
    (fun err =>
       if errorNum_is err 2291
       then say 400 "Invalid Campaign ID provided."
       else say 500 "Internal server error while linking project.").

(** *** GET /api/donations *)
Definition get_donations (u : user) (req : request) : M answer :=
  try_catch
    (let donId := primaryId u in
     getConnection ;;;
     rows <- driver (query (select_donations_of donId)) ;;
     ret (Answer 200 (DonationList rows)))
    (fun _ => say 500 "Failed to retrieve donation history.").

(** *** Routing, over all the routes *)

Inductive handler : Type :=
| Public (h : request -> M answer)
| Protected (guards : list (user -> option response))
            (h : list string -> user -> request -> M answer).

Record route : Type := Route
  { route_method : verb; route_path : list segment; route_handler : handler }.

Definition run_route (h : handler) (params : list string) (req : request)
  : M answer :=
  match h with
  | Public f => f req
  | Protected guards f =>
      match authenticateToken req with
      | inl r => ret (lift r)
      | inr u =>
          match first_refusal guards u with
          | Some r => ret (lift r)
          | None => f params u req
          end
      end
  end.

Definition matches (r : route) (req : request) : bool :=
  verb_eqb (route_method r) (method req)
  && match match_path (route_path r) (path req) with
     | Some _ => true
     | None => false
     end.

Fixpoint dispatch (routes : list route) (req : request) : M answer :=
  match routes with
  | [] => ret (lift (Response 404 NoBody))
  | r :: routes' =>
      if verb_eqb (route_method r) (method req)
      then match match_path (route_path r) (path req) with
           | Some params => run_route (route_handler r) params req
           | None => dispatch routes' req
           end
      else dispatch routes' req
  end.

(** A route of the handlers above, its answers carried over. *)
Definition claimed (r : App.route) : route :=
  Route (App.route_method r) (App.route_path r)
        (match App.route_handler r with
         | App.Public f => Public (fun req => lifted (f req))
         | App.Protected guards f =>
             Protected guards (fun params u req => lifted (f params u req))
         end).

Definition with_param (h : string -> user -> request -> M answer)
  : list string -> user -> request -> M answer :=
  fun params => h (hd ""%string params).

Definition api (rest : list segment) : list segment := Lit "api" :: rest.

(** Every [app.post], [app.get] and [app.patch] of index.js, in the order
    of the file. *)
Definition app : list route :=
  [ claimed (App.Route POST (api [Lit "auth"; Lit "signup"])
                       (App.Public post_auth_signup));
    Route POST (api [Lit "auth"; Lit "login"]) (Public post_auth_login);
    Route GET (api [Lit "profile"]) (Protected [] (fun _ => get_profile));
    Route GET (api [Lit "campaigns"])
      (Protected [authorizeStaff] (fun _ => get_campaigns));
    Route GET (api [Lit "campaigns"; Lit "summary"])
      (Protected [] (fun _ => get_campaigns_summary));
    claimed (App.Route GET (api [Lit "campaigns"; Lit "financial-summary"])
               (App.Protected [authorizeStaff]
                  (fun _ => get_campaigns_financial_summary)));
    claimed (App.Route POST (api [Lit "campaigns"])
               (App.Protected [authorizeStaff] (fun _ => post_campaigns)));
    Route PATCH (api [Lit "campaigns"; Param; Lit "status"])
      (Protected [authorizeStaff] (with_param patch_campaign_status));
    Route GET (api [Lit "campaigns"; Lit "active"])
      (Protected [] (fun _ => get_campaigns_active));
    claimed (App.Route POST (api [Lit "donations"])
               (App.Protected [] (fun _ => post_donations)));
    claimed (App.Route GET (api [Lit "donations"; Lit "history"])
               (App.Protected [] (fun _ => get_donations_history)));
    claimed (App.Route GET (api [Lit "donations"; Param])
               (App.Protected [] (param1 get_donation_by_id)));
    Route GET (api [Lit "donors"; Lit "summary"])
      (Protected [authorizeStaff] (fun _ => get_donors_summary));
    claimed (App.Route PATCH (api [Lit "projects"; Param; Lit "expense"])
               (App.Protected [authorizeStaff] (param1 patch_project_expense)));
    Route GET (api [Lit "projects"])
      (Protected [authorizeStaff] (fun _ => get_projects));
    claimed (App.Route POST (api [Lit "projects"])
               (App.Protected [authorizeStaff] (fun _ => post_projects)));
    Route PATCH (api [Lit "projects"; Param; Lit "link-campaign"])
      (Protected [authorizeStaff] (with_param patch_project_link_campaign));
    claimed (App.Route PATCH (api [Lit "projects"; Param; Lit "expense"])
               (App.Protected [authorizeStaff] (param1 patch_project_expense_2)));
    claimed (App.Route GET (api [Lit "projects"; Lit "progress"])
               (App.Protected [] (fun _ => get_projects_progress)));
    Route GET (api [Lit "donations"])
      (Protected [authorizeDonor] (fun _ => get_donations));
    claimed (App.Route POST (api [Lit "donations"])
               (App.Protected [authorizeDonor] (fun _ => post_donations_2)));
    claimed (App.Route GET (api [Lit "donations"; Param])
               (App.Protected [] (param1 (get_donation_by_id_2 false)))) ].

(** The same list without the three routes registered a second time. *)
Definition app_once : list route :=
  firstn 17 app ++ firstn 2 (skipn 18 app).

Definition run (m : M answer) (e : env) (s : store) : answer * store :=
  match exec m e (World s 0 0) with
  | (Ok a, w) => (a, db w)
  | (Throw _, w) => (lift (Response 500 NoBody), db w)
  end.

Definition serve (e : env) (req : request) (s : store) : answer * store :=
  run (dispatch app req) e s.

Fixpoint serve_all (rs : list (env * request)) (s : store) : store :=
  match rs with
  | [] => s
  | (e, req) :: rs' => serve_all rs' (snd (serve e req s))
  end.

(** The requests of the examples. *)
Definition login_request (email password : JS.value) : request :=
  Request POST ["api"; "auth"; "login"] NoToken
          (Sample.fields [("email", email); ("password", password)]).

Definition status_request (caller : user) (campId : string) (status : JS.value)
  : request :=
  Request PATCH ["api"; "campaigns"; campId; "status"] (Token caller)
          (Sample.fields [("status", status)]).

Definition link_request (caller : user) (projId : string) (campId : JS.value)
  : request :=
  Request PATCH ["api"; "projects"; projId; "link-campaign"] (Token caller)
          (Sample.fields [("campId", campId)]).

Definition get_request (caller : bearer) (p : list string) : request :=
  Request GET p caller (Sample.fields []).

End Full.

(** ** Vocabulary of the properties of the whole application *)

(** The elements of [l] at the positions that [mask] marks. *)
Definition pick {A} (mask : list bool) (l : list A) : list A :=
  map snd (filter fst (combine mask l)).

(** Two path patterns that some path can match both: same length, and the
    same literal, the case of the letters apart, wherever both have one. *)
Fixpoint overlap (p q : list segment) : bool :=
  match p, q with
  | [], [] => true
  | Lit a :: p', Lit b :: q' =>
      (JS.toUpperCase a =? JS.toUpperCase b)%string && overlap p' q'
  | _ :: p', _ :: q' => overlap p' q'
  | _, _ => false
  end.

Definition may_both_match (a b : Full.route) : bool :=
  verb_eqb (Full.route_method a) (Full.route_method b)
  && overlap (Full.route_path a) (Full.route_path b).

(** The positions of the routes of [App.app] in [Full.app]. *)
Definition claimed_mask : list bool :=
  [true; false; false; false; false; true; true; false; false; true; true; true;
   false; true; false; true; false; true; true; false; true; true].

(** A request that one of the routes of [App.app] matches. *)
Definition routed (req : request) : bool :=
  existsb (fun r => Full.matches (Full.claimed r) req) (App.app false).

(** A driver call that reads: whatever it returns, the store is the same. *)
Definition only_reads {A} (stmt : store -> outcome (A * store)) : Prop :=
  forall s, match stmt s with Ok (_, s') => s' = s | Throw _ => True end.

(** A statement that leaves a part of the store as it is. *)
Definition spares {A X} (part : store -> X) (stmt : store -> outcome (A * store))
  : Prop :=
  forall s, match stmt s with Ok (_, s') => part s' = part s | Throw _ => True end.

(** A statement that keeps a property of the store. *)
Definition preserves {A} (I : store -> Prop) (stmt : store -> outcome (A * store))
  : Prop :=
  forall s, I s -> match stmt s with Ok (_, s') => I s' | Throw _ => True end.

(** The credential row that the signup handler inserts for user type [ut]
    and password [pw]: its identifier is made from the first reading of
    the clock. *)
Definition credential_of (e : env) (req : request) (ut pw : string)
  : NEW_CREDENTIALS.row :=
  NEW_CREDENTIALS.Row (ut ++ "_" ++ JS.decimal (clock e 0%nat))
    (JS.ToString (body req "aadharNo")) (Bcrypt 10 pw)
    (JS.ToString (body req "email")) ut.

(** Every profile row belongs to a stored credential (the foreign keys of
    STAFF and DONOR). *)
Definition profiles_owned (s : store) : Prop :=
  (forall r, In r (staff s) ->
             exists c, In c (credentials s) /\
                       NEW_CREDENTIALS.USER_ID c = STAFF.USER_ID r) /\
  (forall r, In r (donors s) ->
             exists c, In c (credentials s) /\
                       NEW_CREDENTIALS.USER_ID c = DONOR.USER_ID r).

Definition is_prefix {A} (l l' : list A) : Prop := exists t, l' = (l ++ t)%list.

(** The columns of a campaign that no statement of the served routes
    updates: all but STATUS. *)
Definition campaign_terms (c : CAMPAIGN.row) :=
  (CAMPAIGN.CAMP_ID c, CAMPAIGN.C_NAME c, CAMPAIGN.SDATE c, CAMPAIGN.EDATE c,
   CAMPAIGN.GOAL_AMOUNT c, CAMPAIGN.MANAGER_STAFF_ID c,
   CAMPAIGN.AMOUNT_COLLECTED c).

(** The columns of a project that no statement of the served routes
    updates: all but SPENT and CAMP_ID. *)
Definition project_terms (p : PROJECT.row) :=
  (PROJECT.PROJ_ID p, PROJECT.PNAME p, PROJECT.BUDGET p, PROJECT.STATUS p,
   PROJECT.SDATE p, PROJECT.OVERSEER_STAFF_ID p).

(** Store [s] holds every record of [s0], in the same order, with the same
    values in the columns that are never updated; what is new comes after. *)
Definition extends (s0 s : store) : Prop :=
  is_prefix (credentials s0) (credentials s) /\
  is_prefix (staff s0) (staff s) /\
  is_prefix (donors s0) (donors s) /\
  is_prefix (donations s0) (donations s) /\
  is_prefix (map campaign_terms (campaigns s0)) (map campaign_terms (campaigns s)) /\
  is_prefix (map project_terms (projects s0)) (map project_terms (projects s)).

(** A statement that only adds records or updates the other columns. *)
Definition grows {A} (stmt : store -> outcome (A * store)) : Prop :=
  forall s, match stmt s with Ok (_, s') => extends s s' | Throw _ => True end.


(** The CAMPAIGN table after the status of [campId] is set to [up]. *)
Definition campaigns_with_status (up campId : string) (s : store) : store :=
  with_campaigns s
    (map (fun c => if (CAMPAIGN.CAMP_ID c =? campId)%string
                   then Full.set_campaign_status up c else c)
         (campaigns s)).

(** The PROJECT table after [projId] is linked to campaign [c]. *)
Definition projects_linked (c : string) (projId : string) (s : store) : store :=
  with_projects s
    (map (fun p => if (PROJECT.PROJ_ID p =? projId)%string
                   then Full.set_project_campaign (Some c) p else p)
         (projects s)).

Definition total (l : list Z) : Z := fold_right Z.add 0 l.

(** The row that POST /api/projects inserts: its identifier is made from
    the first reading of the clock, nothing is spent yet. *)
Definition new_project (e : env) (u : user) (name : string) (b : Z) (sd : string)
  (c : option string) : PROJECT.row :=
  PROJECT.Row ("PROJ_" ++ JS.decimal (clock e 0%nat)) name b 0 "ONGOING" sd
              (primaryId u) c.


(** An environment in which the third call of the driver fails: the
    connection is lost (ORA-03113) after the first INSERT was committed. *)
Definition third_call_fails : env :=
  Env (fun k => 1700000009000 + Z.of_nat k)
      (fun k => if Nat.eqb k 2 then Some 3113 else None).

(** ** Routing *)

Lemma route_expense b req projId :
  method req = PATCH -> path req = ["api"; "projects"; projId; "expense"] ->
  dispatch (app b) req =
  run_route (Protected [authorizeStaff] (param1 patch_project_expense)) [projId] req.
Proof.
  destruct req as [m p a bd]; cbn [method path]; intros -> ->. reflexivity.
Qed.

Lemma serve_expense e req s q :
  method req = PATCH -> path req = ["api"; "projects"; q; "expense"] ->
  serve e req s =
  match authorization req with
  | NoToken => (Response 401 NoBody, s)
  | BadToken => (Response 403 NoBody, s)
  | Token u =>
      if (userType u =? "STAFF")%string
      then run (patch_project_expense q u req) e s
      else (Response 403 (Message "Access denied. Staff role required."), s)
  end.
Proof.
  intros Hm Hp. unfold serve. rewrite (route_expense false req q Hm Hp).
  unfold run_route, authenticateToken, first_refusal, authorizeStaff, param1.
  destruct (authorization req) as [| |u]; try reflexivity.
  destruct (userType u =? "STAFF")%string; reflexivity.
Qed.

(** ** Doubles that hold whole numbers *)

(** Below 2^53 every whole number is a double. *)
Lemma fl_small n : Z.abs n < 2 ^ 53 -> JS.fl n = n.
Proof.
  intros H. unfold JS.fl. destruct (Z.ltb_spec (Z.abs n) (2 ^ 53)); [reflexivity|lia].
Qed.

Lemma div_rne_lower a b : 0 < b -> a / b <= JS.div_rne a b.
Proof.
  intros Hb. unfold JS.div_rne.
  destruct (2 * (a mod b) <? b); [lia|].
  destruct (b <? 2 * (a mod b)); [lia|].
  destruct (Z.even (a / b)); lia.
Qed.

(** Rounding does not take a number from 2^53 on below 2^53. *)
Lemma fl_large n : 2 ^ 53 <= n -> 2 ^ 53 <= JS.fl n.
Proof.
  intros H. unfold JS.fl.
  assert (Hn : 0 < n) by (assert (0 < 2 ^ 53) by reflexivity; lia).
  rewrite (Z.abs_eq n) by lia.
  destruct (Z.ltb_spec n (2 ^ 53)); [lia|].
  rewrite (Z.sgn_pos n Hn), Z.mul_1_l.
  assert (Hl : 53 <= Z.log2 n).
  { change 53 with (Z.log2 (2 ^ 53)). apply Z.log2_le_mono. exact H. }
  set (k := Z.log2 n - 52).
  assert (Hk : 1 <= k) by (unfold k; lia).
  assert (Hp : 0 < 2 ^ k) by (apply Z.pow_pos_nonneg; lia).
  assert (Hq : 2 ^ 52 <= n / 2 ^ k).
  { apply Z.div_le_lower_bound; [exact Hp|].
    rewrite Z.mul_comm, <- Z.pow_add_r by lia.
    replace (52 + k) with (Z.log2 n) by (unfold k; lia).
    apply Z.log2_spec. exact Hn. }
  pose proof (div_rne_lower n (2 ^ k) Hp) as Hr.
  assert (H2 : 2 ^ 53 <= 2 ^ 52 * 2 ^ k).
  { change (2 ^ 53) with (2 ^ 52 * 2 ^ 1). apply Z.mul_le_mono_nonneg_l; [lia|].
    apply Z.pow_le_mono_r; lia. }
  nia.
Qed.

(** The sum of the budget check, for a project within a budget below 2^53:
    it is exact when it fits the budget, and passes the budget when the
    exact sum does. *)
Lemma add_within_budget x a B :
  0 <= x -> 0 < a -> B < 2 ^ 53 ->
  if B <? JS.add x a then B < x + a else JS.add x a = x + a /\ x + a <= B.
Proof.
  intros Hx Ha HB. unfold JS.add.
  destruct (Z_lt_le_dec (x + a) (2 ^ 53)) as [Hs|Hs].
  - rewrite (fl_small (x + a)) by lia.
    destruct (Z.ltb_spec B (x + a)); [lia|]. split; [reflexivity|lia].
  - pose proof (fl_large (x + a) Hs) as Hf.
    destruct (Z.ltb_spec B (JS.fl (x + a))); lia.
Qed.

(** ** The project budget rule *)

(** What one run of the first expense handler can do: leave the store as it
    is and answer something other than 200, or write the sum of the SPENT
    it read and a positive amount, a sum that fits the budget it read. *)
Lemma expense_outcome projId u req e s r s' :
  run (patch_project_expense projId u req) e s = (r, s') ->
  (s' = s /\ status r <> 200) \/
  (exists a p rest n,
      JS.Number (body req "expenseAmount") = Some a /\ 0 < a /\
      select_project projId s = p :: rest /\
      n = JS.add (JS.fl (PROJECT.SPENT p)) a /\
      n <= JS.fl (PROJECT.BUDGET p) /\
      update_project_spent n projId s = Ok (tt, s') /\
      r = Response 200 (ExpenseAdded a (PROJECT.PNAME p) n)).
Proof.
  unfold run, patch_project_expense, try_catch, bind, getConnection, driver,
    query, ret, throw.
  simpl.
  destruct (JS.Number (body req "expenseAmount")) as [a|] eqn:Hn; simpl.
  2:{ rewrite orb_true_r. simpl. intros H. refused H. }
  destruct (JS.eq_null (body req "expenseAmount")); simpl.
  { intros H. refused H. }
  destruct (a <=? 0) eqn:Ha; simpl.
  { intros H. refused H. }
  destruct (faults e 0%nat); simpl.
  { intros H. refused H. }
  destruct (faults e 1%nat); simpl.
  { intros H. refused H. }
  destruct (select_project projId s) as [|p rest] eqn:Hsel; simpl.
  { intros H. refused H. }
  destruct (JS.fl (PROJECT.BUDGET p) <? JS.add (JS.fl (PROJECT.SPENT p)) a) eqn:Hb;
    simpl.
  { intros H. refused H. }
  destruct (faults e 2%nat); simpl.
  { intros H. refused H. }
  intros H; inversion H; subst. right.
  exists a, p, rest, (JS.add (JS.fl (PROJECT.SPENT p)) a).
  repeat split; try reflexivity; lia.
Qed.

Lemma select_project_map f projId s :
  (forall p, PROJECT.PROJ_ID (f p) = PROJECT.PROJ_ID p) ->
  select_project projId (with_projects s (map f (projects s))) =
  map f (select_project projId s).
Proof.
  intros Hf. unfold select_project. simpl.
  induction (projects s) as [|p l IH]; simpl; [reflexivity|].
  rewrite Hf.
  destruct (PROJECT.PROJ_ID p =? projId)%string; simpl; rewrite IH; reflexivity.
Qed.

Lemma select_project_id projId s p :
  In p (select_project projId s) -> PROJECT.PROJ_ID p = projId.
Proof.
  unfold select_project. intros H. apply filter_In in H. destruct H as [_ H].
  apply String.eqb_eq in H. exact H.
Qed.

Lemma map_on_select (f : PROJECT.row -> PROJECT.row) projId s :
  (forall p, PROJECT.PROJ_ID p = projId -> f p = p) ->
  map f (select_project projId s) = select_project projId s.
Proof.
  intros Hf. rewrite <- (map_id (select_project projId s)) at 2.
  apply map_ext_in. intros p Hp. apply Hf. eapply select_project_id; eauto.
Qed.

(** The rows of one project after the UPDATE of the first handler. *)
Lemma select_project_update n q projId s s' :
  update_project_spent n q s = Ok (tt, s') ->
  select_project projId s' =
  if (q =? projId)%string then map (set_spent n) (select_project projId s)
  else select_project projId s.
Proof.
  unfold update_project_spent. intros H. inversion H; subst; clear H.
  rewrite select_project_map.
  2:{ intros p. destruct (PROJECT.PROJ_ID p =? q)%string; reflexivity. }
  destruct (String.eqb_spec q projId) as [->|Hne].
  - apply map_ext_in. intros p Hp. apply select_project_id in Hp.
    rewrite Hp, String.eqb_refl. reflexivity.
  - apply map_on_select. intros p Hp. rewrite Hp.
    destruct (String.eqb_spec projId q); [congruence|reflexivity].
Qed.

(** Served alone, an expense request leaves a project that is within a
    budget below 2^53 one row with the same budget, its SPENT not lower
    than it was and not above the budget. *)
Lemma expense_step e req s projId p :
  expense_call (e, req) ->
  select_project projId s = [p] ->
  0 <= PROJECT.SPENT p <= PROJECT.BUDGET p -> PROJECT.BUDGET p < 2 ^ 53 ->
  exists p', select_project projId (snd (serve e req s)) = [p'] /\
             PROJECT.BUDGET p' = PROJECT.BUDGET p /\
             PROJECT.SPENT p <= PROJECT.SPENT p' /\
             PROJECT.SPENT p' <= PROJECT.BUDGET p.
Proof.
  intros [Hm [q Hq]] Hsel Hle HB. simpl in Hm, Hq.
  assert (Hsame : exists p', select_project projId s = [p'] /\
             PROJECT.BUDGET p' = PROJECT.BUDGET p /\
             PROJECT.SPENT p <= PROJECT.SPENT p' /\
             PROJECT.SPENT p' <= PROJECT.BUDGET p).
  { exists p. repeat split; auto; lia. }
  rewrite (serve_expense e req s q Hm Hq).
  destruct (authorization req) as [| |u]; simpl; auto.
  destruct (userType u =? "STAFF")%string; simpl; auto.
  destruct (run (patch_project_expense q u req) e s) as [r s'] eqn:Hrun.
  apply expense_outcome in Hrun.
  destruct Hrun as [[-> _]|(a & p0 & rest & n & Hn & Ha & Hs0 & En & Hb & Hup & _)];
    simpl; auto.
  rewrite (select_project_update _ _ projId _ _ Hup).
  destruct (String.eqb_spec q projId) as [->|Hne]; auto.
  rewrite Hsel in Hs0. inversion Hs0; subst p0 rest. rewrite Hsel. simpl.
  rewrite (fl_small (PROJECT.SPENT p)) in En by lia.
  rewrite (fl_small (PROJECT.BUDGET p)) in Hb by lia.
  pose proof (add_within_budget (PROJECT.SPENT p) a (PROJECT.BUDGET p)
                ltac:(lia) Ha HB) as Hadd.
  rewrite <- En in Hadd.
  destruct (Z.ltb_spec (PROJECT.BUDGET p) n); [lia|].
  eexists; split; [reflexivity|]. simpl. repeat split; lia.
Qed.

Lemma expense_steps rs : forall s projId p,
  Forall expense_call rs ->
  select_project projId s = [p] ->
  0 <= PROJECT.SPENT p <= PROJECT.BUDGET p -> PROJECT.BUDGET p < 2 ^ 53 ->
  exists p', select_project projId (serve_all rs s) = [p'] /\
             PROJECT.BUDGET p' = PROJECT.BUDGET p /\
             PROJECT.SPENT p <= PROJECT.SPENT p' /\
             PROJECT.SPENT p' <= PROJECT.BUDGET p.
Proof.
  induction rs as [|[e req] rs IH]; intros s projId p Hall Hsel Hle HB; simpl.
  - exists p. repeat split; auto; lia.
  - inversion Hall as [|? ? H1 H2]; subst.
    destruct (expense_step e req s projId p H1 Hsel Hle HB)
      as (p1 & S1 & B1 & L1 & U1).
    destruct (IH (snd (serve e req s)) projId p1 H2 S1 ltac:(lia) ltac:(lia))
      as (p2 & S2 & B2 & L2 & U2).
    exists p2. repeat split; auto; lia.
Qed.

Lemma serve_all_app xs ys s :
  serve_all (xs ++ ys) s = serve_all ys (serve_all xs s).
Proof.
  revert s. induction xs as [|[e r] xs IH]; intros s; simpl; auto.
Qed.




(** The first expense handler never writes STATUS. *)
Lemma expense_keeps_status e req s :
  expense_call (e, req) ->
  map PROJECT.STATUS (projects (snd (serve e req s))) =
  map PROJECT.STATUS (projects s).
Proof.
  intros [Hm [q Hq]]. simpl in Hm, Hq.
  rewrite (serve_expense e req s q Hm Hq).
  destruct (authorization req) as [| |u]; simpl; auto.
  destruct (userType u =? "STAFF")%string; simpl; auto.
  destruct (run (patch_project_expense q u req) e s) as [r s'] eqn:Hrun.
  apply expense_outcome in Hrun.
  destruct Hrun as [[-> _]|(a & p0 & rest & n & _ & _ & _ & _ & _ & Hup & _)];
    simpl; auto.
  unfold update_project_spent in Hup. inversion Hup; subst s'. simpl.
  rewrite map_map. apply map_ext. intros x.
  destruct (PROJECT.PROJ_ID x =? q)%string; reflexivity.
Qed.

(** C4.  Budget 5000, spent 4800, status ONGOING: a staff caller records
    an expense of 200, which brings SPENT to the budget.  The request is
    answered by the handler registered first: it succeeds and sets SPENT to
    5000, and the status of the project is still ONGOING.  The handler
    registered second, which would have written a status, is not run. *)
Theorem expense_reaching_budget_leaves_status :
  let served :=
    serve (Sample.quiet 1700000009000)
          (Sample.expense_request Sample.staff_user "PROJ_1" (JS.Num 200))
          Sample.store0 in
  fst served = Response 200 (ExpenseAdded 200 "Wells" 5000) /\
  select_project "PROJ_1" (snd served) =
    [PROJECT.Row "PROJ_1" "Wells" 5000 5000 "ONGOING" "2025-02-01"
                 "S_1700000000001" (Some "CAMP_1")] /\
  select_project "PROJ_1"
    (snd (run (patch_project_expense_2 "PROJ_1" Sample.staff_user
                 (Sample.expense_request Sample.staff_user "PROJ_1" (JS.Num 200)))
              (Sample.quiet 1700000009000) Sample.store0)) =
    [PROJECT.Row "PROJ_1" "Wells" 5000 5000 "Completed" "2025-02-01"
                 "S_1700000000001" (Some "CAMP_1")].
Proof.
  vm_compute. repeat split.
Qed.

(** ** Expense requests served at the same time *)


Lemma keeps_advance {A} (I : store -> Prop) (m : M A) c s :
  keeps I m -> I s ->
  keeps I (fst (advance m c s)) /\ I (snd (advance m c s)).
Proof.
  intros Hk Hs. destruct m as [a|x|k|B stmt k]; simpl in *; auto.
  destruct Hk as [Hf Hok]. unfold perform.
  destruct (fault c) as [n|]; simpl; [auto|].
  specialize (Hok s Hs).
  destruct (stmt s) as [[b s']|x]; simpl; [destruct Hok; auto|auto].
Qed.

Lemma Forall_replace {A} (P : A -> Prop) i x l :
  Forall P l -> P x -> Forall P (replace i x l).
Proof.
  intros Hl Hx. revert i.
  induction Hl as [|y l Hy Hl IH]; intros i; simpl; [constructor|].
  destruct i; constructor; auto.
Qed.

Lemma keeps_step (I : store -> Prop) c st :
  I (shared st) -> Forall (keeps I) (threads st) ->
  I (shared (step c st)) /\ Forall (keeps I) (threads (step c st)).
Proof.
  intros Hs Ht. unfold step.
  destruct (nth_error (threads st) (who c)) as [m|] eqn:Hn; [|auto].
  assert (Hm : keeps I m).
  { rewrite Forall_forall in Ht. apply Ht. eapply nth_error_In; eauto. }
  destruct (keeps_advance I m c (shared st) Hm Hs) as [H1 H2].
  destruct (advance m c (shared st)) as [m' s']; simpl in *.
  split; [exact H2|]. apply Forall_replace; auto.
Qed.

(** A property that every program in flight keeps holds along every
    schedule. *)
Lemma keeps_steps (I : store -> Prop) schedule : forall st,
  I (shared st) -> Forall (keeps I) (threads st) ->
  I (shared (steps schedule st)).
Proof.
  induction schedule as [|c cs IH]; intros st Hs Ht; simpl; [exact Hs|].
  destruct (keeps_step I c st Hs Ht) as [H1 H2]. apply IH; auto.
Qed.

Lemma within_budget_update projId B n q s s' :
  within_budget projId B s ->
  (q = projId -> n <= B) ->
  update_project_spent n q s = Ok (tt, s') ->
  within_budget projId B s'.
Proof.
  intros (p & Hsel & Hb & Hle) Hn Hup. unfold within_budget.
  rewrite (select_project_update _ _ projId _ _ Hup).
  destruct (String.eqb_spec q projId) as [Heq|Hne].
  - rewrite Hsel. simpl. eexists; split; [reflexivity|]. simpl. auto.
  - exists p. auto.
Qed.

(** The first expense handler keeps every project within its budget, when
    the budget is a number that a double holds: the value it writes was
    checked against the budget it read, and no expense request changes a
    budget. *)
Lemma expense_keeps_within_budget projId B q u req :
  JS.fl B = B ->
  keeps (within_budget projId B) (patch_project_expense q u req).
Proof.
  intros HB.
  unfold patch_project_expense.
  destruct (JS.eq_null (body req "expenseAmount")
            || JS.isNaN (JS.Number (body req "expenseAmount"))
            || JS.le_zero (JS.Number (body req "expenseAmount"))); simpl; [exact I|].
  destruct (JS.Number (body req "expenseAmount")) as [a|]; simpl; [|exact I].
  split; [intros n; exact I|]. intros s Hs. split; [exact Hs|].
  split; [intros n; exact I|]. intros s1 Hs1. split; [exact Hs1|].
  destruct (select_project q s1) as [|p rest] eqn:Hsel; simpl; [exact I|].
  destruct (Z.ltb_spec (JS.fl (PROJECT.BUDGET p))
                       (JS.add (JS.fl (PROJECT.SPENT p)) a)); simpl;
    [exact I|].
  split; [intros n; exact I|]. intros s2 Hs2. split; [|exact I].
  eapply within_budget_update; [exact Hs2| |reflexivity].
  intros ->. destruct Hs1 as (p1 & Hsel1 & Hb1 & _).
  rewrite Hsel1 in Hsel. inversion Hsel; subst. lia.
Qed.

Lemma expense_request_keeps_within_budget projId B e req :
  JS.fl B = B ->
  expense_call (e, req) ->
  keeps (within_budget projId B) (dispatch (app false) req).
Proof.
  intros HB [Hm [q Hq]]. simpl in Hm, Hq.
  rewrite (route_expense false req q Hm Hq).
  unfold run_route, authenticateToken, first_refusal, authorizeStaff, param1.
  destruct (authorization req) as [| |u]; simpl; try exact I.
  destruct (userType u =? "STAFF")%string; simpl; [|exact I].
  apply expense_keeps_within_budget. exact HB.
Qed.

(** Any number of expense requests served at the same time, their driver
    calls interleaved in any order and failing at any point: a project that
    is within its budget at the start is within it after every step (the
    budget being a number that a double holds). *)
Lemma expense_interleaved_within_budget :
  forall (requests : list (env * request)) schedule s projId B,
    JS.fl B = B ->
    Forall expense_call requests ->
    within_budget projId B s ->
    within_budget projId B
      (shared (steps schedule
                 (State s (map (fun er => dispatch (app false) (snd er)) requests)))).
Proof.
  intros requests schedule s projId B HB Hall Hs.
  apply keeps_steps; cbn [shared threads]; [exact Hs|].
  apply Forall_forall. intros m Hm. apply in_map_iff in Hm.
  destruct Hm as [[e req] [<- Hin]].
  rewrite Forall_forall in Hall.
  apply (expense_request_keeps_within_budget projId B e req HB (Hall _ Hin)).
Qed.

(** A request served alone is one of the schedules: the one on which only
    its program moves, with the clock and the faults of its environment. *)
Lemma exec_is_a_schedule (m : M response) : forall e w,
  exists schedule,
    steps schedule (State (db w) [m]) =
    State (db (snd (exec m e w)))
          [match fst (exec m e w) with
           | Ok r => Return r
           | Throw x => Raise x
           end].
Proof.
  induction m as [r|x|k IH|B stmt k IH]; intros e w.
  - exists []. reflexivity.
  - exists []. reflexivity.
  - destruct (IH (clock e (reads w)) e
                 (World (db w) (S (reads w)) (calls w))) as [cs Hcs].
    exists (Choice 0 (clock e (reads w)) None :: cs). simpl. exact Hcs.
  - simpl. destruct (perform (faults e (calls w)) stmt (db w)) as [r s'] eqn:Hp.
    destruct (IH r e (World s' (reads w) (S (calls w)))) as [cs Hcs].
    exists (Choice 0 0 (faults e (calls w)) :: cs).
    simpl. unfold step. simpl. rewrite Hp. simpl. exact Hcs.
Qed.

(** C1.  The claim is that over any expense requests, also when they are
    submitted at the same time, SPENT never goes down.  The handler reads
    SPENT, adds the amount in JavaScript and writes the sum back as an
    absolute value, in two calls of the driver with nothing that holds the
    row in between.  With budget 5000 and spent 4800, an expense of 10 and
    one of 190 are served at the same time and both are read against 4800;
    the second is written first (SPENT is 4990), then the first overwrites
    it (SPENT is 4810): SPENT has gone down, the expense of 190 is lost,
    and both callers were told that their expense was added. *)
Theorem expense_interleaved_lost_update :
  let small := Sample.expense_request Sample.staff_user "PROJ_1" (JS.Num 10) in
  let large := Sample.expense_request Sample.staff_user "PROJ_1" (JS.Num 190) in
  let start := State Sample.store0
                     [dispatch (app false) small; dispatch (app false) large] in
  let move i := Choice i 0 None in
  let before := steps [move 0; move 0; move 1; move 1; move 1]%nat start in
  let after := steps [move 0]%nat before in
  map PROJECT.SPENT (select_project "PROJ_1" Sample.store0) = [4800] /\
  map PROJECT.SPENT (select_project "PROJ_1" (shared before)) = [4990] /\
  map PROJECT.SPENT (select_project "PROJ_1" (shared after)) = [4810] /\
  answers after = [Some (Response 200 (ExpenseAdded 10 "Wells" 4810));
                   Some (Response 200 (ExpenseAdded 190 "Wells" 4990))].
Proof.
  vm_compute. repeat split.
Qed.

(** ** The donation recording rule *)

Lemma route_post_donations b req :
  method req = POST -> path req = ["api"; "donations"] ->
  dispatch (app b) req =
  run_route (Protected [] (fun _ => post_donations)) [] req.
Proof.
  destruct req as [m p a bd]; cbn [method path]; intros -> ->. reflexivity.
Qed.

Lemma serve_post_donations e req s :
  method req = POST -> path req = ["api"; "donations"] ->
  serve e req s =
  match authorization req with
  | NoToken => (Response 401 NoBody, s)
  | BadToken => (Response 403 NoBody, s)
  | Token u => run (post_donations u req) e s
  end.
Proof.
  intros Hm Hp. unfold serve. rewrite (route_post_donations false req Hm Hp).
  unfold run_route, authenticateToken, first_refusal.
  destruct (authorization req); reflexivity.
Qed.


(** What one run of the first donation handler can do: nothing to the
    store, with an answer other than 201; or append one row for an ACTIVE
    campaign, with the answer 201. *)
Lemma donation_outcome u req e s r s' :
  run (post_donations u req) e s = (r, s') ->
  (s' = s /\ status r <> 201) \/
  (exists c a rest,
      body req "campId" = JS.Str c /\
      bind_number (body req "amount") = Ok (Some a) /\
      select_campaign_status c s = "ACTIVE"%string :: rest /\
      s' = with_donations s (donations s ++ [donation_row e u c a]) /\
      r = Response 201 (DonationRecorded (body req "amount")
                          ("D_" ++ JS.decimal (clock e 0%nat)))).
Proof.
  unfold run, post_donations, try_catch, bind, getConnection, driver, binding,
    query, ret, throw, generateUniqueId, Date_now.
  simpl.
  destruct (userType u =? "DONOR")%string; simpl.
  2:{ intros H. refused H. }
  destruct (JS.truthy (body req "campId")); simpl.
  2:{ intros H. refused H. }
  destruct (JS.truthy (body req "amount")); simpl.
  2:{ intros H. refused H. }
  destruct (JS.le_zero (JS.Number (body req "amount"))) eqn:Hle; simpl.
  { intros H. refused H. }
  destruct (faults e 0%nat); simpl.
  { intros H. refused H. }
  destruct (faults e 1%nat); simpl.
  { intros H. refused H. }
  destruct (body req "campId") as [| |b|n|c] eqn:Hc; simpl;
    try (intros H; refused H).
  destruct (select_campaign_status c s) as [|status0 rest] eqn:Hsel; simpl.
  { intros H. refused H. }
  destruct (String.eqb_spec status0 "ACTIVE") as [->|Hne]; simpl.
  2:{ intros H. refused H. }
  destruct (faults e 2%nat); simpl.
  { intros H. refused H. }
  destruct (bind_number (body req "amount")) as [[a|]|x] eqn:Hb; simpl;
    try (intros H; refused H).
  unfold insert_donation. simpl.
  destruct (existsb _ (donations s)); simpl.
  { intros H. refused H. }
  destruct (existsb _ (campaigns s)); simpl.
  2:{ intros H. refused H. }
  intros H. inversion H; subst. right.
  exists c, a, rest.
  split; [reflexivity|]. split; [reflexivity|].
  split; [exact Hsel|]. split; reflexivity.
Qed.

Lemma TOTAL_RAISED_insert s dn :
  TOTAL_RAISED (with_donations s (donations s ++ [dn])) (DONATION.CAMP_ID dn) =
  TOTAL_RAISED s (DONATION.CAMP_ID dn) + DONATION.AMOUNT dn.
Proof.
  unfold TOTAL_RAISED. simpl.
  rewrite filter_app, map_app. simpl. rewrite String.eqb_refl. simpl.
  induction (map DONATION.AMOUNT
               (filter (fun x => (DONATION.CAMP_ID x =? DONATION.CAMP_ID dn)%string)
                       (donations s))) as [|x l IH]; simpl; lia.
Qed.

(** C2.  Whatever the request to POST /api/donations, who sends it and
    which driver calls fail: either the answer is 201 and the store has
    gained exactly one DONATION row, so that the raised total of its
    campaign (summed from the donations when read) is up by the amount of
    that row; or the answer is not 201 and the store is exactly what it
    was.  No other table, CAMPAIGN included, is written in either case. *)
Theorem donation_all_or_nothing :
  forall e req s,
    method req = POST -> path req = ["api"; "donations"] ->
    let r := fst (serve e req s) in
    let s' := snd (serve e req s) in
    (status r = 201 /\
     exists dn,
       s' = with_donations s (donations s ++ [dn]) /\
       TOTAL_RAISED s' (DONATION.CAMP_ID dn) =
       TOTAL_RAISED s (DONATION.CAMP_ID dn) + DONATION.AMOUNT dn)
    \/ (status r <> 201 /\ s' = s).
Proof.
  intros e req s Hm Hp. simpl.
  rewrite (serve_post_donations e req s Hm Hp).
  destruct (authorization req) as [| |u]; simpl;
    try (right; split; [discriminate|reflexivity]).
  destruct (run (post_donations u req) e s) as [r s'] eqn:Hrun.
  apply donation_outcome in Hrun. simpl.
  destruct Hrun as [[-> Hr]|(c & a & rest & Hc & Hb & Hsel & -> & ->)].
  - right. split; auto.
  - left. split; [reflexivity|].
    exists (donation_row e u c a). split; [reflexivity|].
    apply (TOTAL_RAISED_insert s (donation_row e u c a)).
Qed.

Lemma donation_all_or_nothing_witness :
  let e := Sample.quiet 1700000009000 in
  let req := Sample.donation_request Sample.donor_a "CAMP_1" (JS.Num 500) in
  let r := fst (serve e req Sample.store0) in
  let s' := snd (serve e req Sample.store0) in
  (status r = 201 /\
   exists dn,
     s' = with_donations Sample.store0 (donations Sample.store0 ++ [dn]) /\
     TOTAL_RAISED s' (DONATION.CAMP_ID dn) =
     TOTAL_RAISED Sample.store0 (DONATION.CAMP_ID dn) + DONATION.AMOUNT dn)
  \/ (status r <> 201 /\ s' = Sample.store0).
Proof.
  intros e req.
  apply (donation_all_or_nothing e req Sample.store0); reflexivity.
Defined.

(** The handler registered second, which no request reaches, commits the
    insert and the increment of the stored total one after the other: a
    failure of the second statement leaves the donation without the
    increment, and the sequence value is used up. *)
Lemma post_donations_2_partial :
  let e := Env (fun k => 1700000009000 + Z.of_nat k)
               (fun k => if (k =? 3)%nat then Some 904 else None) in
  let req := Sample.donation_request Sample.donor_a "CAMP_1" (JS.Num 500) in
  let served := run (post_donations_2 Sample.donor_a req) e Sample.store0 in
  status (fst served) = 500 /\
  campaigns (snd served) = campaigns Sample.store0 /\
  List.length (donations (snd served)) = S (List.length (donations Sample.store0)) /\
  DONATION_SEQ (snd served) = DONATION_SEQ Sample.store0 + 1.
Proof.
  vm_compute. repeat split.
Qed.




(** ** The campaign ledger rule *)







(** ** The receipt projection *)

(** The route of the history is registered before this one and matches
    the segment [history] in any case of its letters; every other segment
    is a donation identifier. *)
Lemma route_get_donation b req donId :
  method req = GET -> path req = ["api"; "donations"; donId] ->
  JS.toUpperCase donId <> "HISTORY"%string ->
  dispatch (app b) req =
  run_route (Protected [] (param1 get_donation_by_id)) [donId] req.
Proof.
  destruct req as [m p a bd]. cbn [method path]. intros -> -> Hne.
  assert (H : ("HISTORY" =? JS.toUpperCase donId)%string = false).
  { apply String.eqb_neq. intros Heq. apply Hne. symmetry. exact Heq. }
  cbn -[String.eqb run_route JS.toUpperCase].
  change (JS.toUpperCase "api") with "API"%string.
  change (JS.toUpperCase "donations") with "DONATIONS"%string.
  change (JS.toUpperCase "history") with "HISTORY"%string.
  rewrite !String.eqb_refl. cbn -[String.eqb run_route JS.toUpperCase]. rewrite H.
  reflexivity.
Qed.

Lemma serve_get_donation e req s donId u :
  method req = GET -> path req = ["api"; "donations"; donId] ->
  JS.toUpperCase donId <> "HISTORY"%string ->
  authorization req = Token u ->
  serve e req s = run (get_donation_by_id donId u req) e s.
Proof.
  intros Hm Hp Hne Ha. unfold serve.
  rewrite (route_get_donation false req donId Hm Hp Hne).
  unfold run_route, authenticateToken, first_refusal, param1.
  rewrite Ha. reflexivity.
Qed.

Lemma select_receipt_absent donId s :
  (forall dn, In dn (donations s) -> DONATION.D_ID dn <> Some donId) ->
  select_receipt donId s = [].
Proof.
  intros H. unfold select_receipt.
  replace (filter (fun dn => opt_eqb (DONATION.D_ID dn) donId) (donations s))
    with (@nil DONATION.row); [reflexivity|].
  symmetry. induction (donations s) as [|dn l IH]; simpl; [reflexivity|].
  assert (Hdn : opt_eqb (DONATION.D_ID dn) donId = false).
  { specialize (H dn (or_introl eq_refl)). unfold opt_eqb.
    destruct (DONATION.D_ID dn) as [x|]; [|reflexivity].
    destruct (String.eqb_spec x donId); [subst; contradiction H; reflexivity|reflexivity]. }
  rewrite Hdn. apply IH. intros x Hx. apply H. right. exact Hx.
Qed.

(** Every row of the receipt query shows a stored donation with the
    identifier asked for, and the donor of that donation. *)
Lemma select_receipt_row donId s r :
  In r (select_receipt donId s) ->
  exists dn, In dn (donations s) /\ DONATION.D_ID dn = Some donId /\
             RECEIPT.DONOR_ID r = DONATION.DONOR_ID dn /\
             RECEIPT.AMOUNT r = DONATION.AMOUNT dn.
Proof.
  unfold select_receipt. intros H.
  apply in_flat_map in H. destruct H as [dn [Hdn H]].
  apply filter_In in Hdn. destruct Hdn as [Hin Hid].
  apply in_flat_map in H. destruct H as [c [_ H]].
  apply in_flat_map in H. destruct H as [d0 [_ H]].
  apply in_map_iff in H. destruct H as [u [Hr _]].
  exists dn. split; [exact Hin|]. split.
  - unfold opt_eqb in Hid. destruct (DONATION.D_ID dn) as [x|]; [|discriminate].
    apply String.eqb_eq in Hid. subst. reflexivity.
  - subst r. simpl. split; reflexivity.
Qed.

Lemma get_donation_by_id_reads_only donId u req e s :
  snd (run (get_donation_by_id donId u req) e s) = s.
Proof.
  unfold run, get_donation_by_id, try_catch, bind, getConnection, driver,
    query, ret.
  simpl.
  destruct (faults e 0%nat); simpl; [reflexivity|].
  destruct (faults e 1%nat); simpl; [reflexivity|].
  destruct (select_receipt donId s) as [|donation rest]; simpl; [reflexivity|].
  destruct ((userType u =? "DONOR")%string
            && negb (RECEIPT.DONOR_ID donation =? primaryId u)%string);
    reflexivity.
Qed.

(** C7.  A request to GET /api/donations/:donId with a verified token,
    [donId] being any segment that the history route does not take (any
    but [history] in whatever case of its letters), writes nothing,
    whatever happens.  When the driver does its two calls:
    if no stored donation has the identifier, the answer is 404; if the
    query returns a row and the caller is a donor whose profile id is not
    the donor of the row, the answer is 403; if the caller is staff, the
    answer is 200 with the row. *)
Theorem receipt_projection :
  forall e req s donId u,
    method req = GET -> path req = ["api"; "donations"; donId] ->
    JS.toUpperCase donId <> "HISTORY"%string ->
    authorization req = Token u ->
    snd (serve e req s) = s /\
    (faults e 0%nat = None -> faults e 1%nat = None ->
     ((forall dn, In dn (donations s) -> DONATION.D_ID dn <> Some donId) ->
      fst (serve e req s) = Response 404 (Message "Donation not found."))
     /\
     (forall donation rest,
         select_receipt donId s = donation :: rest ->
         (userType u = "DONOR"%string ->
          RECEIPT.DONOR_ID donation <> primaryId u ->
          fst (serve e req s) =
          Response 403 (Message "Access denied. You do not own this receipt."))
         /\
         (userType u = "STAFF"%string ->
          fst (serve e req s) = Response 200 (Receipt donation)))).
Proof.
  intros e req s donId u Hm Hp Hne Ha.
  rewrite (serve_get_donation e req s donId u Hm Hp Hne Ha).
  split; [apply get_donation_by_id_reads_only|].
  intros F0 F1.
  unfold run, get_donation_by_id, try_catch, bind, getConnection, driver,
    query, ret.
  simpl. rewrite F0. simpl. rewrite F1. simpl.
  split.
  - intros Habs. rewrite (select_receipt_absent donId s Habs). reflexivity.
  - intros donation rest Hsel. rewrite Hsel. simpl. split.
    + intros Hu Hd. rewrite Hu. simpl.
      destruct (String.eqb_spec (RECEIPT.DONOR_ID donation) (primaryId u));
        [contradiction|reflexivity].
    + intros Hu. rewrite Hu. reflexivity.
Qed.

(** The scenario of the specification: donor A asks for the receipt of a
    donation of donor B and is refused; staff asks for it and gets it. *)
Lemma receipt_projection_witness :
  let e := Sample.quiet 1700000009000 in
  let receipt :=
    RECEIPT.Row (Some "D_1700000003000"%string) "D_1700000002001" 8000
                (Some 1700000003001) (Some "ONLINE"%string) "Clean Water"
                "Bala " "b@mail.org" in
  fst (serve e (Sample.receipt_request Sample.donor_a "D_1700000003000")
             Sample.store0)
  = Response 403 (Message "Access denied. You do not own this receipt.") /\
  fst (serve e (Sample.receipt_request Sample.staff_user "D_1700000003000")
             Sample.store0)
  = Response 200 (Receipt receipt) /\
  fst (serve e (Sample.receipt_request Sample.staff_user "D_1") Sample.store0)
  = Response 404 (Message "Donation not found.") /\
  snd (serve e (Sample.receipt_request Sample.staff_user "D_1700000003000")
             Sample.store0) = Sample.store0.
Proof.
  intros e receipt.
  assert (Hne : forall d, JS.toUpperCase d <> "HISTORY"%string ->
            forall u, let req := Sample.receipt_request u d in
            snd (serve e req Sample.store0) = Sample.store0 /\
            (faults e 0%nat = None -> faults e 1%nat = None ->
             ((forall dn, In dn (donations Sample.store0) ->
                          DONATION.D_ID dn <> Some d) ->
              fst (serve e req Sample.store0) =
              Response 404 (Message "Donation not found."))
             /\
             (forall donation rest,
                 select_receipt d Sample.store0 = donation :: rest ->
                 (userType u = "DONOR"%string ->
                  RECEIPT.DONOR_ID donation <> primaryId u ->
                  fst (serve e req Sample.store0) =
                  Response 403
                    (Message "Access denied. You do not own this receipt."))
                 /\
                 (userType u = "STAFF"%string ->
                  fst (serve e req Sample.store0) =
                  Response 200 (Receipt donation))))).
  { intros d Hd u.
    exact (receipt_projection e (Sample.receipt_request u d) Sample.store0 d u
             eq_refl eq_refl Hd eq_refl). }
  split; [|split; [|split]].
  - destruct (Hne "D_1700000003000"%string ltac:(discriminate) Sample.donor_a)
      as [_ H].
    destruct (H eq_refl eq_refl) as [_ H2].
    destruct (H2 receipt [] eq_refl) as [H3 _].
    apply H3; [reflexivity|discriminate].
  - destruct (Hne "D_1700000003000"%string ltac:(discriminate) Sample.staff_user)
      as [_ H].
    destruct (H eq_refl eq_refl) as [_ H2].
    destruct (H2 receipt [] eq_refl) as [_ H3].
    apply H3. reflexivity.
  - destruct (Hne "D_1"%string ltac:(discriminate) Sample.staff_user) as [_ H].
    destruct (H eq_refl eq_refl) as [H2 _].
    apply H2. intros dn [<-|[]]. discriminate.
  - destruct (Hne "D_1700000003000"%string ltac:(discriminate) Sample.staff_user)
      as [H _].
    exact H.
Defined.

(** ** Project progress *)

Lemma route_progress b req :
  method req = GET -> path req = ["api"; "projects"; "progress"] ->
  dispatch (app b) req =
  run_route (Protected [] (fun _ => get_projects_progress)) [] req.
Proof.
  destruct req as [m p a bd]; cbn [method path]; intros -> ->. reflexivity.
Qed.

Lemma serve_progress e req s u :
  method req = GET -> path req = ["api"; "projects"; "progress"] ->
  authorization req = Token u ->
  serve e req s = run (get_projects_progress u req) e s.
Proof.
  intros Hm Hp Ha. unfold serve. rewrite (route_progress false req Hm Hp).
  unfold run_route, authenticateToken, first_refusal. rewrite Ha. reflexivity.
Qed.

Lemma progress_rows_zero_budget ps p :
  In p ps -> PROJECT.BUDGET p = 0 -> progress_rows ps = Throw (OraError 1476).
Proof.
  induction ps as [|x ps IH]; simpl; [contradiction|].
  intros [->|Hin] Hz.
  - unfold sql_div. rewrite Hz. reflexivity.
  - unfold sql_div. destruct (PROJECT.BUDGET x =? 0); [reflexivity|].
    rewrite (IH Hin Hz). reflexivity.
Qed.

Lemma progress_rows_nonzero ps :
  (forall p, In p ps -> PROJECT.BUDGET p <> 0) ->
  progress_rows ps =
  Ok (map (fun p => PROGRESS.Row p
                      (round2 ((inject_Z (PROJECT.SPENT p)
                                / inject_Z (PROJECT.BUDGET p)) * 100)%Q)) ps).
Proof.
  induction ps as [|x ps IH]; simpl; [reflexivity|].
  intros H. unfold sql_div.
  destruct (Z.eqb_spec (PROJECT.BUDGET x) 0) as [Hz|_].
  - exfalso. apply (H x); [left; reflexivity|exact Hz].
  - rewrite IH; [reflexivity|]. intros p Hp. apply H. right. exact Hp.
Qed.

(** [ORDER BY] keeps the rows. *)
Lemma insert_by_perm {A} (f : A -> A -> bool) x l :
  Permutation (insert_by f x l) (x :: l).
Proof.
  induction l as [|y l IH]; simpl; [apply Permutation_refl|].
  destruct (f y x).
  - eapply Permutation_trans; [apply perm_skip; exact IH|apply perm_swap].
  - apply Permutation_refl.
Qed.

Lemma order_by_perm {A} (f : A -> A -> bool) l :
  Permutation (order_by f l) l.
Proof.
  unfold order_by.
  assert (H : forall acc, Permutation (fold_left (fun acc x => insert_by f x acc) l acc)
                                      (acc ++ l)).
  { induction l as [|x l IH]; intros acc; simpl.
    - rewrite app_nil_r. apply Permutation_refl.
    - eapply Permutation_trans; [apply IH|].
      eapply Permutation_trans.
      + apply Permutation_app_tail. apply insert_by_perm.
      + simpl. apply Permutation_middle. }
  apply (H []).
Qed.

(** A project with budget 0 makes the query of the progress route fail,
    so the handler answers 500 and sends no project at all; the value 0 that
    its own code has for such a project is never computed. *)
Lemma progress_zero_budget_fails e req s u p :
  method req = GET -> path req = ["api"; "projects"; "progress"] ->
  authorization req = Token u ->
  faults e 0%nat = None -> faults e 1%nat = None ->
  In p (projects s) -> PROJECT.BUDGET p = 0 ->
  serve e req s =
  (Response 500 (Message "Failed to retrieve project progress data."), s).
Proof.
  intros Hm Hp Ha F0 F1 Hin Hz.
  rewrite (serve_progress e req s u Hm Hp Ha).
  unfold run, get_projects_progress, try_catch, bind, getConnection, driver,
    select_progress, ret.
  simpl. rewrite F0. simpl. rewrite F1. simpl.
  rewrite (progress_rows_zero_budget _ p Hin Hz). reflexivity.
Qed.

(** When no budget is 0 the route sends every project, each with the
    percentage that the handler computes. *)
Lemma progress_nonzero_budgets e req s u :
  method req = GET -> path req = ["api"; "projects"; "progress"] ->
  authorization req = Token u ->
  faults e 0%nat = None -> faults e 1%nat = None ->
  (forall p, In p (projects s) -> PROJECT.BUDGET p <> 0) ->
  exists rows,
    serve e req s = (Response 200 (Projects rows), s) /\
    Permutation rows
      (map (fun p => PROGRESS.Row p (percent (PROJECT.SPENT p) (PROJECT.BUDGET p)))
           (projects s)).
Proof.
  intros Hm Hp Ha F0 F1 Hnz.
  rewrite (serve_progress e req s u Hm Hp Ha).
  unfold run, get_projects_progress, try_catch, bind, getConnection, driver,
    select_progress, ret.
  simpl. rewrite F0. simpl. rewrite F1. simpl.
  rewrite (progress_rows_nonzero _ Hnz). simpl.
  eexists. split; [reflexivity|].
  eapply Permutation_trans.
  - apply Permutation_map. apply order_by_perm.
  - rewrite map_map. simpl. apply Permutation_refl.
Qed.

(** For a positive budget the percentage is the quotient and its product
    by 100 as doubles, shown with two decimals. *)
Lemma percent_positive_budget n d :
  0 < d ->
  percent n d =
  round2 (JS.flQ (JS.flQ (inject_Z (JS.fl n) / inject_Z (JS.fl d)) * 100))%Q.
Proof.
  intros H. unfold percent.
  assert (Hd : 0 < JS.fl d).
  { destruct (Z_lt_le_dec d (2 ^ 53)) as [Hs|Hs].
    - rewrite fl_small by lia. exact H.
    - pose proof (fl_large d Hs). assert (0 < 2 ^ 53) by reflexivity. lia. }
  destruct (Z.ltb_spec 0 (JS.fl d)); [reflexivity|lia].
Qed.

(** C8.  POST /api/projects with the budget "0" (a non-empty string, hence
    truthy) creates a project whose BUDGET is 0.  On the store that results,
    GET /api/projects/progress answers 500: the division [SPENT / BUDGET] in
    the statement raises ORA-01476 before the handler's own guard, whose
    value for that project would be 0, is reached. *)
Theorem progress_zero_budget_answers_500 :
  let created :=
    serve (Sample.quiet 1700000009000)
          (Sample.project_request Sample.staff_user "Survey" (JS.Str "0")
                                  "2025-03-01")
          Sample.store0 in
  fst created = Response 201 (ProjectCreated JS.Undefined "PROJ_1700000009000") /\
  select_project "PROJ_1700000009000" (snd created) =
    [PROJECT.Row "PROJ_1700000009000" "Survey" 0 0 "ONGOING" "2025-03-01"
                 "S_1700000000001" None] /\
  serve (Sample.quiet 1700000009500) (Sample.progress_request Sample.donor_a)
        (snd created)
  = (Response 500 (Message "Failed to retrieve project progress data."),
     snd created) /\
  percent 0 0 = 0%Q.
Proof.
  vm_compute. repeat split.
Qed.

(** ** The routes registered twice *)

(** C9.  The two handlers registered for POST /api/donations and the two
    registered for GET /api/donations/:donId are not two implementations of
    one contract.
    - A donor gives 500 to CAMP_2, whose status is COMPLETED: the first
      donation handler answers 404 and writes nothing; the second answers
      201, hands out a sequence value, inserts a row and adds to
      AMOUNT_COLLECTED.
    - A donor gives 500 to CAMP_1, which is ACTIVE: the first inserts a row
      keyed by [D_ID] and answers with that text identifier; the second
      inserts a row keyed by [DON_ID] and answers with the number.
    - Staff asks for the receipt of the stored donation: the first receipt
      handler answers 200 with the row; the second answers 500 when Oracle
      refuses its statement, and 404 when the [//] line is let through,
      because it compares the identifier with the donor column. *)
Theorem duplicate_handlers_diverge :
  let e := Sample.quiet 1700000009000 in
  let inactive := Sample.donation_request Sample.donor_a "CAMP_2" (JS.Num 500) in
  let active := Sample.donation_request Sample.donor_a "CAMP_1" (JS.Num 500) in
  let first_inactive := run (post_donations Sample.donor_a inactive) e Sample.store0 in
  let second_inactive := run (post_donations_2 Sample.donor_a inactive) e Sample.store0 in
  let first_active := run (post_donations Sample.donor_a active) e Sample.store0 in
  let second_active := run (post_donations_2 Sample.donor_a active) e Sample.store0 in
  let ask := Sample.receipt_request Sample.staff_user "D_1700000003000" in
  (first_inactive =
     (Response 404 (Message "Campaign not found or not currently active."),
      Sample.store0)
   /\ fst second_inactive = Response 201 (DonationRecorded2 1)
   /\ List.length (donations (snd second_inactive)) = 2%nat
   /\ snd second_inactive <> snd first_inactive)
  /\
  (fst first_active = Response 201 (DonationRecorded (JS.Num 500) "D_1700000009000")
   /\ fst second_active = Response 201 (DonationRecorded2 1)
   /\ map DONATION.D_ID (donations (snd first_active)) =
        [Some "D_1700000003000"%string; Some "D_1700000009000"%string]
   /\ map DONATION.D_ID (donations (snd second_active)) =
        [Some "D_1700000003000"%string; None]
   /\ map DONATION.DON_ID (donations (snd second_active)) = [None; Some 1]
   /\ map CAMPAIGN.AMOUNT_COLLECTED (campaigns (snd first_active)) = [Some 8000; Some 0]
   /\ map CAMPAIGN.AMOUNT_COLLECTED (campaigns (snd second_active)) = [Some 8500; Some 0])
  /\
  (forall slash_comment : bool,
      status (fst (run (get_donation_by_id "D_1700000003000" Sample.staff_user ask)
                       e Sample.store0)) = 200
      /\ status (fst (run (get_donation_by_id_2 slash_comment "D_1700000003000"
                             Sample.staff_user ask) e Sample.store0))
         = (if slash_comment then 404 else 500)).
Proof.
  split; [|split].
  - vm_compute. repeat split. discriminate.
  - vm_compute. repeat split.
  - intros [|]; vm_compute; split; reflexivity.
Qed.

(** ** Signup validation *)

Lemma route_signup b req :
  method req = POST -> path req = ["api"; "auth"; "signup"] ->
  dispatch (app b) req = run_route (Public post_auth_signup) [] req.
Proof.
  destruct req as [m p a bd]; cbn [method path]; intros -> ->. reflexivity.
Qed.

Lemma serve_signup e req s :
  method req = POST -> path req = ["api"; "auth"; "signup"] ->
  serve e req s = run (post_auth_signup req) e s.
Proof.
  intros Hm Hp. unfold serve. rewrite (route_signup false req Hm Hp). reflexivity.
Qed.

Lemma matches_cat_void r s : JS.matches (JS.Cat JS.Void r) s = false.
Proof.
  induction s as [|c s IH]; simpl; [reflexivity|exact IH].
Qed.

Lemma matches_void s : JS.matches JS.Void s = false.
Proof.
  induction s as [|c s IH]; simpl; [reflexivity|exact IH].
Qed.

Lemma matches_alt a b s :
  JS.matches (JS.Alt a b) s = JS.matches a s || JS.matches b s.
Proof.
  revert a b. induction s as [|c s IH]; intros a b; simpl; [reflexivity|apply IH].
Qed.

Lemma matches_cat_eps r s : JS.matches (JS.Cat JS.Eps r) s = JS.matches r s.
Proof.
  destruct s as [|c s]; simpl; [reflexivity|].
  rewrite matches_alt, matches_cat_void. reflexivity.
Qed.

(** [/^\d{n}$/] matches the strings of exactly [n] decimal digits. *)
Lemma matches_repeat_digits n : forall s,
  JS.matches (JS.Repeat n JS.d) s =
  (String.length s =? n)%nat && forallb JS.is_digit (list_ascii_of_string s).
Proof.
  induction n as [|n IH]; intros s.
  - destruct s as [|c s]; simpl; [reflexivity|]. apply matches_void.
  - destruct s as [|c s]; [reflexivity|].
    cbn [JS.Repeat JS.matches JS.deriv JS.d JS.nullable String.length
         list_ascii_of_string forallb Nat.eqb].
    destruct (JS.is_digit c).
    + rewrite matches_cat_eps, IH. reflexivity.
    + rewrite matches_cat_void, andb_false_r. reflexivity.
Qed.

Lemma aadhar_test_string s :
  JS.test JS.aadhar_re (JS.Str s) =
  (String.length s =? 12)%nat && forallb JS.is_digit (list_ascii_of_string s).
Proof.
  unfold JS.test, JS.aadhar_re. simpl JS.ToString. apply matches_repeat_digits.
Qed.

(** C10.  The claim is that a signup request whose Aadhar number is not
    twelve digits is refused with a 400 that names the field.  This request
    has the Aadhar number "123" and the user type 5, a number.  The handler
    calls [userType.toUpperCase()] before its own check of the user type and
    before the three field checks: on the number the call throws, the
    exception lands in the [catch] of the handler, and the answer is the 500
    of an internal error, not a 400.  The store is unchanged.  With the user
    type "donor" the same request gets the 400 that names the Aadhar
    number. *)
Theorem signup_non_string_user_type_answers_500 :
  let e := Sample.quiet 1700000009000 in
  let bad_type :=
    Sample.signup_request (JS.Str "123") (JS.Str "x@y.zz") (JS.Str "secret1")
                          (JS.Num 5) in
  let string_type :=
    Sample.signup_request (JS.Str "123") (JS.Str "x@y.zz") (JS.Str "secret1")
                          (JS.Str "donor") in
  JS.test JS.aadhar_re (JS.Str "123") = false /\
  serve e bad_type Sample.store0
  = (Response 500 (Message "Internal server error during registration."),
     Sample.store0) /\
  serve e string_type Sample.store0
  = (Response 400 (Message "Invalid Aadhar number. Must be exactly 12 digits."),
     Sample.store0).
Proof.
  vm_compute. repeat split.
Qed.

(** ** The whole application: routing and who may write what *)

Lemma exec_bind {A B} (m : M A) (f : A -> M B) : forall e w,
  exec (bind m f) e w =
  match exec m e w with
  | (Ok a, w') => exec (f a) e w'
  | (Throw x, w') => (Throw x, w')
  end.
Proof.
  induction m as [a|x|k IH|T stmt k IH]; intros e w; simpl.
  - reflexivity.
  - reflexivity.
  - apply IH.
  - destruct (perform (faults e (calls w)) stmt (db w)) as [r s']. apply IH.
Qed.

Lemma run_lifted m e s :
  Full.run (Full.lifted m) e s =
  (Full.lift (fst (App.run m e s)), snd (App.run m e s)).
Proof.
  unfold Full.run, App.run, Full.lifted. rewrite exec_bind.
  destruct (exec m e (World s 0 0)) as [[r|x] w]; reflexivity.
Qed.

Lemma dispatch_claimed routes req :
  Full.dispatch (map Full.claimed routes) req =
  Full.lifted (App.dispatch routes req).
Proof.
  induction routes as [|r routes IH]; simpl; [reflexivity|].
  destruct (verb_eqb (App.route_method r) (method req)); [|exact IH].
  destruct (match_path (App.route_path r) (path req)) as [params|]; [|exact IH].
  destruct (App.route_handler r) as [f|guards f]; simpl; [reflexivity|].
  destruct (authenticateToken req) as [r0|u]; [reflexivity|].
  destruct (first_refusal guards u); reflexivity.
Qed.

Lemma claimed_routes : pick claimed_mask Full.app = map Full.claimed (App.app false).
Proof. reflexivity. Qed.

Lemma dispatch_pick mask : forall routes req,
  List.length mask = List.length routes ->
  (forall r, In r (pick (map negb mask) routes) -> Full.matches r req = false) ->
  Full.dispatch routes req = Full.dispatch (pick mask routes) req.
Proof.
  induction mask as [|b mask IH]; intros routes req Hlen H;
    destruct routes as [|r routes]; try discriminate; [reflexivity|].
  simpl in Hlen. injection Hlen as Hlen.
  destruct b; unfold pick in *; simpl in *.
  - rewrite (IH routes req Hlen H). reflexivity.
  - assert (Hr : Full.matches r req = false) by (apply H; left; reflexivity).
    unfold Full.matches in Hr.
    destruct (verb_eqb (Full.route_method r) (method req)); simpl in Hr.
    + destruct (match_path (Full.route_path r) (path req)); [discriminate|].
      apply IH; auto.
    + apply IH; auto.
Qed.

Lemma overlap_match p : forall q x,
  match_path p x <> None -> match_path q x <> None -> overlap p q = true.
Proof.
  induction p as [|a p IH]; intros q x Hp Hq.
  - destruct x; [|simpl in Hp; congruence].
    destruct q as [|b q]; [reflexivity|]. destruct b; simpl in Hq; congruence.
  - destruct x as [|y x]; [destruct a; simpl in Hp; congruence|].
    destruct q as [|b q]; [simpl in Hq; congruence|].
    assert (Hp' : match_path p x <> None).
    { destruct a; cbn [match_path] in Hp.
      - destruct (JS.toUpperCase s =? JS.toUpperCase y)%string; congruence.
      - destruct (match_path p x); [discriminate|simpl in Hp; congruence]. }
    assert (Hq' : match_path q x <> None).
    { destruct b; cbn [match_path] in Hq.
      - destruct (JS.toUpperCase s =? JS.toUpperCase y)%string; congruence.
      - destruct (match_path q x); [discriminate|simpl in Hq; congruence]. }
    specialize (IH q x Hp' Hq').
    destruct a as [s|], b as [t|]; cbn [overlap]; auto.
    cbn [match_path] in Hp, Hq.
    destruct (String.eqb_spec (JS.toUpperCase s) (JS.toUpperCase y)) as [Es|];
      [|congruence].
    destruct (String.eqb_spec (JS.toUpperCase t) (JS.toUpperCase y)) as [Et|];
      [|congruence].
    rewrite Es, Et, String.eqb_refl. exact IH.
Qed.

Lemma verb_eqb_eq a b : verb_eqb a b = true -> a = b.
Proof. destruct a, b; simpl; congruence. Qed.

Lemma both_match a b req :
  Full.matches a req = true -> Full.matches b req = true ->
  may_both_match a b = true.
Proof.
  unfold Full.matches, may_both_match. intros Ha Hb.
  apply andb_true_iff in Ha. destruct Ha as [Ha1 Ha2].
  apply andb_true_iff in Hb. destruct Hb as [Hb1 Hb2].
  apply verb_eqb_eq in Ha1. apply verb_eqb_eq in Hb1.
  rewrite Ha1, Hb1.
  replace (verb_eqb (method req) (method req)) with true
    by (destruct (method req); reflexivity).
  simpl. apply (overlap_match _ _ (path req)).
  - destruct (match_path (Full.route_path a) (path req)); congruence.
  - destruct (match_path (Full.route_path b) (path req)); congruence.
Qed.

Lemma other_routes_apart :
  forallb (fun other =>
             forallb (fun mine => negb (may_both_match other mine))
                     (pick claimed_mask Full.app))
          (pick (map negb claimed_mask) Full.app) = true.
Proof. vm_compute. reflexivity. Qed.

Lemma dispatch_agrees :
  forall req,
    routed req = true ->
    Full.dispatch Full.app req = Full.lifted (App.dispatch (App.app false) req).
Proof.
  intros req Hr. rewrite <- dispatch_claimed, <- claimed_routes.
  apply dispatch_pick; [reflexivity|].
  intros other Hother.
  unfold routed in Hr. apply existsb_exists in Hr. destruct Hr as [c [Hc Hm]].
  destruct (Full.matches other req) eqn:Ho; [|reflexivity].
  pose proof (both_match other (Full.claimed c) req Ho Hm) as Hboth.
  pose proof other_routes_apart as Hall.
  rewrite forallb_forall in Hall. specialize (Hall other Hother).
  rewrite forallb_forall in Hall.
  assert (Hin : In (Full.claimed c) (pick claimed_mask Full.app)).
  { rewrite claimed_routes. apply in_map. exact Hc. }
  specialize (Hall _ Hin). rewrite Hboth in Hall. discriminate.
Qed.

Lemma serve_agrees e req s :
  routed req = true ->
  Full.serve e req s = (Full.lift (fst (serve e req s)), snd (serve e req s)).
Proof.
  intros Hr. unfold Full.serve. rewrite (dispatch_agrees req Hr).
  apply run_lifted.
Qed.

(** X2.  On a request that one of the routes of [App.app] matches, the
    application with all of its routes gives the answer of [App.serve] and
    leaves the same store: none of the other routes takes such a request
    first. *)
Theorem full_app_agrees :
  forall e req s,
    routed req = true ->
    Full.serve e req s = (Full.lift (fst (serve e req s)), snd (serve e req s)).
Proof.
  intros e req s Hr. apply serve_agrees. exact Hr.
Qed.

Lemma dispatch_app pre : forall l req,
  Full.dispatch (pre ++ l) req =
  if existsb (fun r => Full.matches r req) pre
  then Full.dispatch pre req else Full.dispatch l req.
Proof.
  induction pre as [|r pre IH]; intros l req; simpl; [reflexivity|].
  unfold Full.matches at 1.
  destruct (verb_eqb (Full.route_method r) (method req)); simpl; [|apply IH].
  destruct (match_path (Full.route_path r) (path req)); simpl; [reflexivity|apply IH].
Qed.

Lemma dispatch_shadowed pre c mid d post req :
  Full.route_method c = Full.route_method d ->
  Full.route_path c = Full.route_path d ->
  Full.dispatch (pre ++ c :: mid ++ d :: post) req =
  Full.dispatch (pre ++ c :: mid ++ post) req.
Proof.
  intros Hm Hp. rewrite !dispatch_app.
  destruct (existsb (fun r => Full.matches r req) pre); [reflexivity|].
  change (c :: mid ++ d :: post)%list with ((c :: mid) ++ d :: post)%list.
  change (c :: mid ++ post)%list with ((c :: mid) ++ post)%list.
  rewrite !dispatch_app.
  destruct (existsb (fun r => Full.matches r req) (c :: mid)) eqn:Hc;
    [reflexivity|].
  simpl in Hc. apply orb_false_iff in Hc. destruct Hc as [Hc _].
  unfold Full.matches in Hc. rewrite Hm, Hp in Hc. simpl.
  destruct (verb_eqb (Full.route_method d) (method req)); [|reflexivity].
  destruct (match_path (Full.route_path d) (path req)); [discriminate|reflexivity].
Qed.

Lemma serve_app_once :
  forall e req s,
    Full.serve e req s = Full.run (Full.dispatch Full.app_once req) e s.
Proof.
  intros e req s. unfold Full.serve. f_equal.
  set (r := fun i => nth i Full.app
                         (Full.Route GET [] (Full.Public (fun _ => Full.say 0 "")))).
  transitivity (Full.dispatch (firstn 21 Full.app) req).
  { exact (dispatch_shadowed (firstn 11 Full.app) (r 11%nat)
             (firstn 9 (skipn 12 Full.app)) (r 21%nat) [] req eq_refl eq_refl). }
  transitivity (Full.dispatch (firstn 20 Full.app) req).
  { exact (dispatch_shadowed (firstn 9 Full.app) (r 9%nat)
             (firstn 10 (skipn 10 Full.app)) (r 20%nat) [] req eq_refl eq_refl). }
  exact (dispatch_shadowed (firstn 13 Full.app) (r 13%nat)
           (firstn 3 (skipn 14 Full.app)) (r 17%nat)
           (firstn 2 (skipn 18 Full.app)) req eq_refl eq_refl).
Qed.

(** X1.  The three routes that index.js registers a second time (PATCH
    /api/projects/:projId/expense, POST /api/donations and GET
    /api/donations/:donId) never run: every GET, POST or PATCH request,
    whatever its path, caller and body, is answered as by the application
    without these three registrations, and leaves the same store. *)
Theorem routes_registered_twice_never_run :
  forall e req s,
    Full.serve e req s = Full.run (Full.dispatch Full.app_once req) e s.
Proof.
  exact serve_app_once.
Qed.

Lemma keeps_exec {A} (I : store -> Prop) (m : M A) : forall e w,
  keeps I m -> I (db w) -> I (db (snd (exec m e w))).
Proof.
  induction m as [a|x|k IH|T stmt k IH]; intros e w Hk Hw; simpl in *; auto.
  destruct Hk as [Hf Hok]. unfold perform.
  destruct (faults e (calls w)) as [n|].
  - apply IH; simpl; auto.
  - specialize (Hok (db w) Hw).
    destruct (stmt (db w)) as [[b s']|x].
    + destruct Hok. apply IH; simpl; auto.
    + apply IH; simpl; auto.
Qed.

Lemma keeps_bind {A B} (I : store -> Prop) (m : M A) (f : A -> M B) :
  keeps I m -> (forall a, keeps I (f a)) -> keeps I (bind m f).
Proof.
  intros Hm Hf. induction m as [a|x|k IH|T stmt k IH]; simpl in *; auto.
  destruct Hm as [H1 H2]. split.
  - intros n. apply IH. apply H1.
  - intros s Hs. specialize (H2 s Hs).
    destruct (stmt s) as [[b s']|x].
    + destruct H2. split; auto.
    + auto.
Qed.

Lemma keeps_try_catch {A} (I : store -> Prop) (m : M A) (h : exn -> M A) :
  keeps I m -> (forall x, keeps I (h x)) -> keeps I (try_catch m h).
Proof.
  intros Hm Hh. induction m as [a|x|k IH|T stmt k IH]; simpl in *; auto.
  destruct Hm as [H1 H2]. split.
  - intros n. apply IH. apply H1.
  - intros s Hs. specialize (H2 s Hs).
    destruct (stmt s) as [[b s']|x].
    + destruct H2. split; auto.
    + auto.
Qed.

Lemma keeps_driver_reads {A} (I : store -> Prop) (stmt : store -> outcome (A * store)) :
  only_reads stmt -> keeps I (driver stmt).
Proof.
  intros Hr. simpl. split; [intros; exact Logic.I|].
  intros s Hs. specialize (Hr s).
  destruct (stmt s) as [[b s']|x]; [subst; split; [exact Hs|exact Logic.I]|exact Logic.I].
Qed.

Lemma reads_query {A} (q : store -> A) : only_reads (query q).
Proof. intros s. reflexivity. Qed.

Lemma reads_select_progress : only_reads select_progress.
Proof.
  intros s. unfold select_progress. destruct (progress_rows (projects s)); auto.
Qed.

Lemma reads_binding {A B} (b : outcome A) (stmt : A -> store -> outcome (B * store)) :
  (forall a, only_reads (stmt a)) -> only_reads (binding b stmt).
Proof.
  intros H s. unfold binding. destruct b as [a|x]; [apply H|exact Logic.I].
Qed.

Ltac reading :=
  repeat first
    [ exact Logic.I
    | apply keeps_try_catch
    | apply keeps_bind
    | apply keeps_driver_reads
    | apply reads_binding
    | apply reads_query
    | apply reads_select_progress
    | intro
    | match goal with
      | |- keeps _ (match ?x with _ => _ end) => destruct x
      | |- keeps _ (if ?b then _ else _) => destruct b
      end
    | progress simpl ].

Lemma dispatch_cases routes req :
  Full.dispatch routes req = ret (Full.lift (Response 404 NoBody)) \/
  exists r params,
    In r routes /\ Full.route_method r = method req /\
    match_path (Full.route_path r) (path req) = Some params /\
    Full.dispatch routes req = Full.run_route (Full.route_handler r) params req.
Proof.
  induction routes as [|r routes IH]; simpl; [left; reflexivity|].
  destruct (verb_eqb (Full.route_method r) (method req)) eqn:Hv.
  - destruct (match_path (Full.route_path r) (path req)) as [params|] eqn:Hp.
    + right. exists r, params. split; [left; reflexivity|].
      split; [apply verb_eqb_eq; exact Hv|]. split; [exact Hp|reflexivity].
    + destruct IH as [IH|(r' & ps & Hin & Hm & Hp' & Hd)]; [left; exact IH|].
      right. exists r', ps. auto.
  - destruct IH as [IH|(r' & ps & Hin & Hm & Hp' & Hd)]; [left; exact IH|].
    right. exists r', ps. auto.
Qed.

Lemma keeps_protected (I : store -> Prop) guards h params req :
  (forall u, keeps I (h params u req)) ->
  keeps I (Full.run_route (Full.Protected guards h) params req).
Proof.
  intros H. unfold Full.run_route.
  destruct (authenticateToken req) as [r|u]; [exact Logic.I|].
  destruct (first_refusal guards u); [exact Logic.I|apply H].
Qed.

(** X3.  A GET request writes nothing: whatever its path, its caller and
    the faults of the driver, the store after it is the store before it. *)
Theorem get_requests_write_nothing :
  forall e req s, method req = GET -> snd (Full.serve e req s) = s.
Proof.
  intros e req s Hget.
  assert (Hk : keeps (fun s' => s' = s) (Full.dispatch Full.app req)).
  { destruct (dispatch_cases Full.app req) as [->|(r & params & Hin & Hm & Hpath & ->)];
      [exact Logic.I|].
    rewrite Hget in Hm. unfold Full.app in Hin.
    repeat (destruct Hin as [<-|Hin]); try contradiction;
      try discriminate Hm;
      apply keeps_protected; intros u;
      unfold Full.lifted, Full.with_param, param1; reading. }
  unfold Full.serve, Full.run.
  pose proof (keeps_exec _ _ e (World s 0 0) Hk eq_refl) as H.
  destruct (exec (Full.dispatch Full.app req) e (World s 0 0)) as [[a|x] w];
    exact H.
Qed.

Lemma keeps_driver_spares {A X} (part : store -> X) (x : X)
  (stmt : store -> outcome (A * store)) :
  spares part stmt -> keeps (fun s => part s = x) (driver stmt).
Proof.
  intros Hs. simpl. split; [intros; exact Logic.I|].
  intros s Hx. specialize (Hs s).
  destruct (stmt s) as [[b s']|e]; [|exact Logic.I].
  split; [congruence|exact Logic.I].
Qed.

Lemma spares_binding {A B X} (part : store -> X) (b : outcome A)
  (stmt : A -> store -> outcome (B * store)) :
  (forall a, spares part (stmt a)) -> spares part (binding b stmt).
Proof.
  intros H s. unfold binding. destruct b as [a|x]; [apply H|exact Logic.I].
Qed.

Lemma spares_reads {A X} (part : store -> X) (stmt : store -> outcome (A * store)) :
  only_reads stmt -> spares part stmt.
Proof.
  intros H s. specialize (H s). destruct (stmt s) as [[b s']|x]; [subst|]; auto.
Qed.

Ltac sparing :=
  intros ?s;
  unfold insert_credentials, insert_staff, insert_donor, insert_campaign,
    insert_donation, insert_project, update_project_spent,
    update_project_spent_status, update_campaign_collected, nextval,
    Full.update_campaign_status, Full.update_project_campaign, query,
    select_progress;
  repeat match goal with
         | |- context [if ?b then _ else _] => destruct b
         | |- context [match ?x with _ => _ end] => destruct x
         end;
  try exact Logic.I; reflexivity.

Lemma keeps_Date_now (I : store -> Prop) : keeps I Date_now.
Proof. intros t. exact Logic.I. Qed.

Ltac framing :=
  repeat first
    [ exact Logic.I
    | match goal with
      | |- keeps _ Date_now => apply keeps_Date_now
      | |- keeps _ (try_catch _ _) => apply keeps_try_catch
      | |- keeps _ (bind _ _) => apply keeps_bind
      | |- keeps _ (driver _) => apply keeps_driver_spares
      | |- spares _ (binding _ _) => apply spares_binding
      | |- keeps _ (match ?x with _ => _ end) => destruct x
      | |- keeps _ (if ?b then _ else _) => destruct b
      | |- spares _ _ =>
          solve [ sparing
                | apply spares_reads;
                  first [apply reads_query | apply reads_select_progress] ]
      | |- forall _, _ => intro
      end
    | progress cbv beta iota zeta delta
        [ generateUniqueId getConnection Full.say ret throw toUpperCase_of
          bcrypt_hash Full.bcrypt_compare Full.lifted Full.with_param param1
          Full.claimed Full.route_handler route_handler
          post_auth_signup get_campaigns_financial_summary post_campaigns
          post_donations get_donations_history get_donation_by_id
          patch_project_expense post_projects patch_project_expense_2
          get_projects_progress post_donations_2 get_donation_by_id_2
          Full.post_auth_login Full.get_profile Full.get_campaigns
          Full.get_campaigns_summary Full.patch_campaign_status
          Full.get_campaigns_active Full.get_donors_summary Full.get_projects
          Full.patch_project_link_campaign Full.get_donations ] ].

Lemma keeps_run_route (I : store -> Prop) h params req :
  match h with
  | Full.Public f => keeps I (f req)
  | Full.Protected guards f =>
      forall u, authorization req = Token u ->
                first_refusal guards u = None -> keeps I (f params u req)
  end ->
  keeps I (Full.run_route h params req).
Proof.
  destruct h as [f|guards f]; simpl; [auto|].
  intros H. unfold authenticateToken.
  destruct (authorization req) as [| |u] eqn:Ha; try exact Logic.I.
  destruct (first_refusal guards u) eqn:Hg; [exact Logic.I|]. apply H; auto.
Qed.

Lemma serve_keeps (I : store -> Prop) e req s :
  I s -> keeps I (Full.dispatch Full.app_once req) -> I (snd (Full.serve e req s)).
Proof.
  intros Hs Hk. rewrite serve_app_once. unfold Full.run.
  pose proof (keeps_exec _ _ e (World s 0 0) Hk Hs) as H.
  destruct (exec (Full.dispatch Full.app_once req) e (World s 0 0)) as [[a|x] w];
    exact H.
Qed.

Lemma staff_guard u : first_refusal [authorizeStaff] u = None -> userType u = "STAFF"%string.
Proof.
  simpl. unfold authorizeStaff.
  destruct (String.eqb_spec (userType u) "STAFF"); [auto|discriminate].
Qed.

(** X5.  A request that does not carry the token of a STAFF user changes
    neither the CAMPAIGN table nor the PROJECT table, whatever it asks
    for. *)
Theorem only_staff_change_campaigns_and_projects :
  forall e req s,
    (forall u, authorization req = Token u -> userType u <> "STAFF"%string) ->
    campaigns (snd (Full.serve e req s)) = campaigns s /\
    projects (snd (Full.serve e req s)) = projects s.
Proof.
  intros e req s Hns.
  assert (H : (fun s' => (campaigns s', projects s') = (campaigns s, projects s))
                (snd (Full.serve e req s))).
  { apply serve_keeps; [reflexivity|].
    destruct (dispatch_cases Full.app_once req) as [->|(r & params & Hin & Hm & Hpath & ->)];
      [exact Logic.I|].
    unfold Full.app_once, Full.app in Hin. simpl in Hin.
    repeat (destruct Hin as [<-|Hin]); try contradiction;
      apply keeps_run_route; cbv beta iota delta [Full.claimed Full.route_handler route_handler];
      try (intros u Hu Hg; try (apply staff_guard in Hg; exfalso;
                                exact (Hns u Hu Hg)));
      framing. }
  simpl in H. inversion H. split; reflexivity.
Qed.

(** ** Accounts: login and signup *)

Lemma route_login req :
  method req = POST -> path req = ["api"; "auth"; "login"] ->
  Full.dispatch Full.app req = Full.post_auth_login req.
Proof.
  destruct req as [m p a bd]. cbn [method path]. intros -> ->. reflexivity.
Qed.

Lemma profile_id_in rows id :
  Full.profile_id rows = Some id -> In id rows /\ id <> ""%string.
Proof.
  unfold Full.profile_id. destruct rows as [|x l]; [discriminate|].
  destruct (String.eqb_spec x ""); [discriminate|].
  intros H. inversion H; subst. split; [left; reflexivity|assumption].
Qed.

(** X8.  A login is answered 200 only for stored credentials: some stored
    credential has the email of the request, its hash is the hash of the
    password of the request, the token carries the user id and the type of
    that credential, and the primary id of the token is the non-empty
    identifier of a STAFF or DONOR row of that user, according to the
    type. *)
Theorem login_sound :
  forall e req s token ut pid,
    method req = POST -> path req = ["api"; "auth"; "login"] ->
    fst (Full.serve e req s) = Full.Answer 200 (Full.LoggedIn token ut pid) ->
    exists c pw n,
      In c (credentials s) /\
      body req "email" = JS.Str (NEW_CREDENTIALS.EMAIL c) /\
      body req "password" = JS.Str pw /\
      NEW_CREDENTIALS.PASSWORD c = Bcrypt n pw /\
      token = User (NEW_CREDENTIALS.USER_ID c) pid (NEW_CREDENTIALS.USER_TYPE c) /\
      ut = NEW_CREDENTIALS.USER_TYPE c /\ pid <> ""%string /\
      ((ut = "STAFF"%string /\
        exists r, In r (staff s) /\ STAFF.STAFF_ID r = pid /\
                  STAFF.USER_ID r = NEW_CREDENTIALS.USER_ID c) \/
       (ut = "DONOR"%string /\
        exists r, In r (donors s) /\ DONOR.DONOR_ID r = pid /\
                  DONOR.USER_ID r = NEW_CREDENTIALS.USER_ID c)).
Proof.
  intros e req s token ut pid Hm Hp.
  unfold Full.serve. rewrite (route_login req Hm Hp).
  unfold Full.run, Full.post_auth_login, Full.say, getConnection, driver, ret.
  destruct (JS.truthy (body req "email")); simpl; [|discriminate].
  destruct (JS.truthy (body req "password")); simpl; [|discriminate].
  destruct (faults e 0%nat); simpl; [discriminate|].
  destruct (faults e 1%nat); simpl; [discriminate|].
  destruct (body req "email") as [| |b|k|em] eqn:Hem; simpl; try discriminate.
  destruct (Full.select_credentials_by_email em s) as [|c rest] eqn:Hsel;
    simpl; [discriminate|].
  assert (Hc : In c (credentials s) /\ NEW_CREDENTIALS.EMAIL c = em).
  { assert (Hin : In c (Full.select_credentials_by_email em s))
      by (rewrite Hsel; left; reflexivity).
    unfold Full.select_credentials_by_email in Hin.
    apply filter_In in Hin. destruct Hin as [Hin Heq].
    apply String.eqb_eq in Heq. split; assumption. }
  destruct Hc as [Hin Heq].
  unfold Full.bcrypt_compare.
  destruct (body req "password") as [| |b|k|pw] eqn:Hpw; simpl; try discriminate.
  destruct (NEW_CREDENTIALS.PASSWORD c) as [n data] eqn:Hh. simpl.
  destruct (String.eqb_spec pw data) as [->|]; simpl; [|discriminate].
  destruct (String.eqb_spec (NEW_CREDENTIALS.USER_TYPE c) "STAFF") as [Hs|Hs];
    simpl.
  - destruct (faults e 2%nat); simpl; [discriminate|].
    destruct (Full.profile_id (Full.select_staff_id (NEW_CREDENTIALS.USER_ID c) s))
      as [id|] eqn:Hid; simpl; [|discriminate].
    intros H. inversion H; subst token ut pid. clear H.
    apply profile_id_in in Hid. destruct Hid as [Hid Hne].
    unfold Full.select_staff_id in Hid. apply in_map_iff in Hid.
    destruct Hid as [r [Hr Hf]]. apply filter_In in Hf. destruct Hf as [Hf Hu].
    apply String.eqb_eq in Hu.
    exists c, data, n. rewrite Heq. repeat split; auto.
    left. split; [assumption|]. exists r. auto.
  - destruct (String.eqb_spec (NEW_CREDENTIALS.USER_TYPE c) "DONOR") as [Hd|Hd];
      simpl; [|discriminate].
    destruct (faults e 2%nat); simpl; [discriminate|].
    destruct (Full.profile_id (Full.select_donor_id (NEW_CREDENTIALS.USER_ID c) s))
      as [id|] eqn:Hid; simpl; [|discriminate].
    intros H. inversion H; subst token ut pid. clear H.
    apply profile_id_in in Hid. destruct Hid as [Hid Hne].
    unfold Full.select_donor_id in Hid. apply in_map_iff in Hid.
    destruct Hid as [r [Hr Hf]]. apply filter_In in Hf. destruct Hf as [Hf Hu].
    apply String.eqb_eq in Hu.
    exists c, data, n. rewrite Heq. repeat split; auto.
    right. split; [assumption|]. exists r. auto.
Qed.

Lemma routed_signup req :
  method req = POST -> path req = ["api"; "auth"; "signup"] -> routed req = true.
Proof.
  destruct req as [m p a bd]. cbn [method path]. intros -> ->. reflexivity.
Qed.

Lemma existsb_false_forall {A} (f : A -> bool) l :
  existsb f l = false -> forall x, In x l -> f x = false.
Proof.
  intros H x Hx. destruct (f x) eqn:Hf; [|reflexivity].
  assert (existsb f l = true) by (apply existsb_exists; exists x; auto).
  congruence.
Qed.

Lemma signup_created :
  forall e req s pid ut,
    method req = POST -> path req = ["api"; "auth"; "signup"] ->
    fst (Full.serve e req s)
    = Full.Answer 201 (Full.Claimed (Registered pid ut)) ->
    exists pw,
      let c := credential_of e req ut pw in
      let s' := snd (Full.serve e req s) in
      body req "password" = JS.Str pw /\
      pid = (JS.slice_0_1 ut ++ "_" ++ JS.decimal (clock e 1%nat))%string /\
      credentials s' = (credentials s ++ [c])%list /\
      (forall x, In x (credentials s) ->
                 NEW_CREDENTIALS.USER_ID x <> NEW_CREDENTIALS.USER_ID c /\
                 NEW_CREDENTIALS.EMAIL x <> NEW_CREDENTIALS.EMAIL c /\
                 NEW_CREDENTIALS.AADHAR_NO x <> NEW_CREDENTIALS.AADHAR_NO c) /\
      ((ut = "STAFF"%string /\ donors s' = donors s /\
        exists f l, staff s' = (staff s ++
                      [STAFF.Row pid (NEW_CREDENTIALS.USER_ID c) f l (clock e 2%nat)])%list) \/
       (ut = "DONOR"%string /\ staff s' = staff s /\
        exists f l, donors s' = (donors s ++
                      [DONOR.Row pid (NEW_CREDENTIALS.USER_ID c) f l])%list)) /\
      campaigns s' = campaigns s /\ projects s' = projects s /\
      donations s' = donations s.
Proof.
  intros e req s pid ut Hm Hp.
  rewrite (serve_agrees e req s (routed_signup req Hm Hp)).
  rewrite (serve_signup e req s Hm Hp). cbn [fst snd].
  unfold run, post_auth_signup, toUpperCase_of, bcrypt_hash,
    generateUniqueId, Date_now, getConnection, driver, ret, throw, Full.lift.
  destruct (JS.truthy (body req "email")); cbn [negb orb]; [|discriminate].
  destruct (JS.truthy (body req "password")); cbn [negb orb]; [|discriminate].
  destruct (JS.truthy (body req "aadharNo")); cbn [negb orb]; [|discriminate].
  destruct (JS.truthy (body req "userType")); cbn [negb orb]; [|discriminate].
  destruct (body req "userType") as [| |b|n|t]; cbn [bind try_catch];
    try discriminate.
  set (up := JS.toUpperCase t).
  destruct (negb (up =? "STAFF")%string && negb (up =? "DONOR")%string) eqn:Hty;
    [discriminate|].
  destruct (JS.test JS.aadhar_re (body req "aadharNo")); cbn [negb]; [|discriminate].
  destruct (JS.test JS.email_re (body req "email")); cbn [negb]; [|discriminate].
  destruct (JS.lt_num (JS.length_of (body req "password")) 6); [discriminate|].
  destruct (body req "password") as [| |b|n|pw];
    cbn [bind try_catch exec errorNum_is]; try discriminate.
  cbn [exec reads calls db perform bind try_catch].
  destruct (faults e 0%nat); cbn [exec reads calls db perform bind try_catch errorNum_is];
    [destruct (_ =? 1); discriminate|].
  destruct (faults e 1%nat); cbn [exec reads calls db perform bind try_catch errorNum_is];
    [destruct (_ =? 1); discriminate|].
  unfold insert_credentials. cbn [NEW_CREDENTIALS.USER_ID NEW_CREDENTIALS.EMAIL
    NEW_CREDENTIALS.AADHAR_NO NEW_CREDENTIALS.USER_TYPE].
  destruct (too_long 100 _ || too_long 12 _ || too_long 255 _ || too_long 10 _);
    cbn [exec reads calls db perform bind try_catch errorNum_is]; [discriminate|].
  match goal with |- context [existsb ?f (credentials s)] =>
    destruct (existsb f (credentials s)) eqn:Hex end;
    cbn [exec reads calls db perform bind try_catch errorNum_is Z.eqb Pos.eqb]; [discriminate|].
  assert (Hfresh : forall x, In x (credentials s) ->
            NEW_CREDENTIALS.USER_ID x <> (up ++ "_" ++ JS.decimal (clock e 0%nat))%string /\
            NEW_CREDENTIALS.EMAIL x <> JS.ToString (body req "email") /\
            NEW_CREDENTIALS.AADHAR_NO x <> JS.ToString (body req "aadharNo")).
  { intros x Hx. pose proof (existsb_false_forall _ _ Hex x Hx) as H.
    cbv beta in H. apply orb_false_elim in H. destruct H as [H H3].
    apply orb_false_elim in H. destruct H as [H1 H2].
    apply String.eqb_neq in H1, H2, H3. auto. }
  destruct (String.eqb_spec up "STAFF") as [Hs|Hs].
  - cbn [exec reads calls db perform bind try_catch].
    destruct (faults e 2%nat); cbn [exec reads calls db perform bind try_catch errorNum_is];
      [destruct (_ =? 1); discriminate|].
    unfold binding, insert_staff.
    destruct (bind_varchar2 (default_null (body req "fname"))) as [f|x];
      cbn [exec reads calls db perform bind try_catch errorNum_is];
      [|destruct x; cbn [errorNum_is]; [destruct (_ =? 1)|]; discriminate].
    destruct (bind_varchar2 (default_null (body req "lname"))) as [l|x];
      cbn [exec reads calls db perform bind try_catch errorNum_is];
      [|destruct x; cbn [errorNum_is]; [destruct (_ =? 1)|]; discriminate].
    match goal with |- context [existsb ?f ?l] =>
      destruct (existsb f l) end;
      cbn [exec reads calls db perform bind try_catch errorNum_is Z.eqb Pos.eqb fst snd status json_body];
      [discriminate|].
    intros H. inversion H; subst pid ut. clear H.
    exists pw. cbn. repeat split; try apply Hfresh; auto.
    left. repeat split; auto. exists f, l. reflexivity.
  - simpl in Hty. destruct (String.eqb_spec up "DONOR") as [Hd|Hd];
      [|simpl in Hty; discriminate].
    cbn [exec reads calls db perform bind try_catch].
    destruct (faults e 2%nat); cbn [exec reads calls db perform bind try_catch errorNum_is];
      [destruct (_ =? 1); discriminate|].
    unfold binding, insert_donor.
    destruct (bind_varchar2 (default_null (body req "fname"))) as [f|x];
      cbn [exec reads calls db perform bind try_catch errorNum_is];
      [|destruct x; cbn [errorNum_is]; [destruct (_ =? 1)|]; discriminate].
    destruct (bind_varchar2 (default_null (body req "lname"))) as [l|x];
      cbn [exec reads calls db perform bind try_catch errorNum_is];
      [|destruct x; cbn [errorNum_is]; [destruct (_ =? 1)|]; discriminate].
    match goal with |- context [existsb ?f ?l] =>
      destruct (existsb f l) end;
      cbn [exec reads calls db perform bind try_catch errorNum_is Z.eqb Pos.eqb fst snd status json_body];
      [discriminate|].
    intros H. inversion H; subst pid ut. clear H.
    exists pw. cbn. repeat split; try apply Hfresh; auto.
    right. repeat split; auto. exists f, l. reflexivity.
Qed.

(** X9.  A signup answered 201 has appended exactly one credential row and
    one profile row: the credential holds the hash of the password, the
    upper-cased user type and identifiers that no stored credential had;
    the profile row (STAFF or DONOR by the type) has the identifier that
    the answer gives and the user id of the credential; no other table
    changes. *)
Theorem signup_registers :
  forall e req s pid ut,
    method req = POST -> path req = ["api"; "auth"; "signup"] ->
    fst (Full.serve e req s)
    = Full.Answer 201 (Full.Claimed (Registered pid ut)) ->
    exists pw,
      let c := credential_of e req ut pw in
      let s' := snd (Full.serve e req s) in
      body req "password" = JS.Str pw /\
      pid = (JS.slice_0_1 ut ++ "_" ++ JS.decimal (clock e 1%nat))%string /\
      credentials s' = (credentials s ++ [c])%list /\
      (forall x, In x (credentials s) ->
                 NEW_CREDENTIALS.USER_ID x <> NEW_CREDENTIALS.USER_ID c /\
                 NEW_CREDENTIALS.EMAIL x <> NEW_CREDENTIALS.EMAIL c /\
                 NEW_CREDENTIALS.AADHAR_NO x <> NEW_CREDENTIALS.AADHAR_NO c) /\
      ((ut = "STAFF"%string /\ donors s' = donors s /\
        exists f l, staff s' = (staff s ++
                      [STAFF.Row pid (NEW_CREDENTIALS.USER_ID c) f l (clock e 2%nat)])%list) \/
       (ut = "DONOR"%string /\ staff s' = staff s /\
        exists f l, donors s' = (donors s ++
                      [DONOR.Row pid (NEW_CREDENTIALS.USER_ID c) f l])%list)) /\
      campaigns s' = campaigns s /\ projects s' = projects s /\
      donations s' = donations s.
Proof.
  exact signup_created.
Qed.

Lemma filter_none {A} (f : A -> bool) l :
  (forall x, In x l -> f x = false) -> filter f l = [].
Proof.
  induction l as [|a l IH]; intros H; simpl; [reflexivity|].
  rewrite (H a (or_introl eq_refl)). apply IH. intros x Hx. apply H. right. exact Hx.
Qed.

Lemma signup_created_truthy e req s pid ut :
  method req = POST -> path req = ["api"; "auth"; "signup"] ->
  fst (Full.serve e req s) = Full.Answer 201 (Full.Claimed (Registered pid ut)) ->
  JS.truthy (body req "email") = true /\ JS.truthy (body req "password") = true.
Proof.
  intros Hm Hp.
  rewrite (serve_agrees e req s (routed_signup req Hm Hp)).
  rewrite (serve_signup e req s Hm Hp). cbn [fst snd].
  unfold run, post_auth_signup, ret, Full.lift.
  destruct (JS.truthy (body req "email")); cbn [negb orb]; [|discriminate].
  destruct (JS.truthy (body req "password")); cbn [negb orb]; [|discriminate].
  auto.
Qed.

(** X10.  Signup, then login.  After a signup answered 201, on a store in
    which every profile belongs to a credential, a login with the same
    email and password is answered 200, with the primary id and the user
    type that the signup answered, and writes nothing. *)
Theorem signup_then_login :
  forall e req s pid ut em e' req',
    method req = POST -> path req = ["api"; "auth"; "signup"] ->
    body req "email" = JS.Str em ->
    profiles_owned s ->
    fst (Full.serve e req s)
    = Full.Answer 201 (Full.Claimed (Registered pid ut)) ->
    method req' = POST -> path req' = ["api"; "auth"; "login"] ->
    body req' "email" = body req "email" ->
    body req' "password" = body req "password" ->
    faults e' 0%nat = None -> faults e' 1%nat = None -> faults e' 2%nat = None ->
    exists uid,
      Full.serve e' req' (snd (Full.serve e req s))
      = (Full.Answer 200 (Full.LoggedIn (User uid pid ut) ut pid),
         snd (Full.serve e req s)).
Proof.
  intros e req s pid ut em e' req' Hm Hp Hem [Hst Hdn] H201 Hm' Hp' He' Hw' F0 F1 F2.
  destruct (signup_created_truthy e req s pid ut Hm Hp H201) as [Te Tp].
  destruct (signup_created e req s pid ut Hm Hp H201)
    as (pw & Hpw & Hpid & Hcred & Hfresh & Hprof & _).
  set (s' := snd (Full.serve e req s)) in *.
  set (c := credential_of e req ut pw) in *.
  assert (Hce : NEW_CREDENTIALS.EMAIL c = em)
    by (unfold c, credential_of; simpl; rewrite Hem; reflexivity).
  assert (Hcp : NEW_CREDENTIALS.PASSWORD c = Bcrypt 10 pw) by reflexivity.
  assert (Hct : NEW_CREDENTIALS.USER_TYPE c = ut) by reflexivity.
  clearbody c s'.
  exists (NEW_CREDENTIALS.USER_ID c).
  assert (Hsel : Full.select_credentials_by_email em s' = [c]).
  { unfold Full.select_credentials_by_email. rewrite Hcred, filter_app.
    rewrite filter_none.
    - cbn [filter app]. rewrite Hce, String.eqb_refl. reflexivity.
    - intros x Hx. apply String.eqb_neq. destruct (Hfresh x Hx) as (_ & H & _).
      congruence. }
  assert (Hne : (pid =? "")%string = false).
  { rewrite Hpid. destruct Hprof as [[-> _]|[-> _]]; reflexivity. }
  unfold Full.serve at 1. rewrite (route_login req' Hm' Hp').
  unfold Full.run, Full.post_auth_login, Full.say, getConnection, driver,
    Full.bcrypt_compare, binding, query, ret.
  rewrite He', Hw', Te, Tp, Hem, Hpw.
  cbn [negb orb bind try_catch exec reads calls db perform bind_key binding query].
  rewrite F0. cbn [bind try_catch exec reads calls db perform].
  rewrite F1. cbn [bind try_catch exec reads calls db perform].
  rewrite Hsel. cbn [bind try_catch exec reads calls db perform].
  rewrite Hcp, Hct.
  cbn [bind try_catch exec reads calls db perform].
  rewrite String.eqb_refl.
  cbn [negb bind try_catch exec reads calls db perform].
  destruct Hprof as [(Hut & _ & f & l & Hstaff)|(Hut & _ & f & l & Hdonor)].
  - subst ut. rewrite String.eqb_refl.
    cbn [bind try_catch exec reads calls db perform].
    rewrite F2. cbn [bind try_catch exec reads calls db perform].
    assert (Hid : Full.select_staff_id (NEW_CREDENTIALS.USER_ID c) s' = [pid]).
    { unfold Full.select_staff_id. rewrite Hstaff, filter_app, filter_none.
      - simpl. rewrite String.eqb_refl. reflexivity.
      - intros x Hx. apply String.eqb_neq. intros Heq.
        destruct (Hst x Hx) as [c0 [Hc0 Hu]].
        destruct (Hfresh c0 Hc0) as [H _]. congruence. }
    rewrite Hid. cbn [Full.profile_id]. rewrite Hne.
    cbn [bind try_catch exec reads calls db perform]. reflexivity.
  - subst ut. change (("DONOR" =? "STAFF")%string) with false.
    rewrite String.eqb_refl.
    cbn [bind try_catch exec reads calls db perform].
    rewrite F2. cbn [bind try_catch exec reads calls db perform].
    assert (Hid : Full.select_donor_id (NEW_CREDENTIALS.USER_ID c) s' = [pid]).
    { unfold Full.select_donor_id. rewrite Hdonor, filter_app, filter_none.
      - simpl. rewrite String.eqb_refl. reflexivity.
      - intros x Hx. apply String.eqb_neq. intros Heq.
        destruct (Hdn x Hx) as [c0 [Hc0 Hu]].
        destruct (Hfresh c0 Hc0) as [H _]. congruence. }
    rewrite Hid. cbn [Full.profile_id]. rewrite Hne.
    cbn [bind try_catch exec reads calls db perform]. reflexivity.
Qed.

(** A path that a pattern of literals matches is that of the literals, the
    case of the letters apart. *)
Lemma match_lits lits : forall p params,
  match_path (map Lit lits) p = Some params ->
  map JS.toUpperCase p = map JS.toUpperCase lits.
Proof.
  induction lits as [|x lits IH]; intros p params; destruct p as [|y p];
    cbn [map match_path]; try discriminate; [reflexivity|].
  destruct (String.eqb_spec (JS.toUpperCase x) (JS.toUpperCase y)) as [E|];
    [|discriminate].
  intros H. rewrite E. f_equal. apply (IH _ _ H).
Qed.

(** X6.  A request that does not carry the token of a DONOR user leaves the
    DONATION table as it is. *)
Theorem only_donors_donate :
  forall e req s,
    (forall u, authorization req = Token u -> userType u <> "DONOR"%string) ->
    donations (snd (Full.serve e req s)) = donations s.
Proof.
  intros e req s Hnd.
  apply (serve_keeps (fun s' => donations s' = donations s)); [reflexivity|].
  destruct (dispatch_cases Full.app_once req)
    as [->|(r & params & Hin & Hm & Hpath & ->)]; [exact Logic.I|].
  unfold Full.app_once, Full.app in Hin. simpl in Hin.
  repeat (destruct Hin as [<-|Hin]); try contradiction;
    apply keeps_run_route;
    cbv beta iota delta [Full.claimed Full.route_handler route_handler];
    try (intros u Hu Hg; pose proof (Hnd u Hu) as Hn;
         apply String.eqb_neq in Hn;
         cbv beta iota zeta delta [Full.lifted post_donations];
         try rewrite Hn; cbn [negb]);
    framing.
Qed.

(** X7.  Only the signup path writes accounts: a request to any other path
    (any path that is not /api/auth/signup in some case of its letters)
    leaves NEW_CREDENTIALS, STAFF and DONOR as they are. *)
Theorem only_signup_registers :
  forall e req s,
    map JS.toUpperCase (path req) <> ["API"; "AUTH"; "SIGNUP"] ->
    credentials (snd (Full.serve e req s)) = credentials s /\
    staff (snd (Full.serve e req s)) = staff s /\
    donors (snd (Full.serve e req s)) = donors s.
Proof.
  intros e req s Hns.
  assert (H : (fun s' => (credentials s', staff s', donors s')
                         = (credentials s, staff s, donors s))
                (snd (Full.serve e req s))).
  { apply serve_keeps; [reflexivity|].
    destruct (dispatch_cases Full.app_once req)
      as [->|(r & params & Hin & Hm & Hpath & ->)]; [exact Logic.I|].
    unfold Full.app_once, Full.app in Hin. simpl in Hin.
    destruct Hin as [<-|Hin].
    { exfalso. apply Hns.
      apply (match_lits ["api"; "auth"; "signup"] _ _ Hpath). }
    repeat (destruct Hin as [<-|Hin]); try contradiction;
      apply keeps_run_route;
      cbv beta iota delta [Full.claimed Full.route_handler route_handler];
      framing. }
  simpl in H. inversion H. auto.
Qed.

(** ** What every request keeps *)

Lemma keeps_driver_preserves {A} (I : store -> Prop)
  (stmt : store -> outcome (A * store)) :
  preserves I stmt -> keeps I (driver stmt).
Proof.
  intros Hp. simpl. split; [intros; exact Logic.I|].
  intros s Hs. specialize (Hp s Hs).
  destruct (stmt s) as [[b s']|x]; [|exact Logic.I].
  split; [exact Hp|exact Logic.I].
Qed.

Lemma preserves_binding {A B} (I : store -> Prop) (b : outcome A)
  (stmt : A -> store -> outcome (B * store)) :
  (forall a, b = Ok a -> preserves I (stmt a)) -> preserves I (binding b stmt).
Proof.
  intros H s Hs. unfold binding.
  destruct b as [a|x]; [apply (H a eq_refl); exact Hs|exact Logic.I].
Qed.

Lemma preserves_reads {A} (I : store -> Prop) (stmt : store -> outcome (A * store)) :
  only_reads stmt -> preserves I stmt.
Proof.
  intros H s Hs. specialize (H s). destruct (stmt s) as [[b s']|x]; [subst|]; auto.
Qed.

Lemma preserves_connection (I : store -> Prop) :
  preserves I (fun s => Ok (tt, s)).
Proof. intros s Hs. exact Hs. Qed.


Lemma serve_all_keeps (I : store -> Prop) :
  (forall req, keeps I (Full.dispatch Full.app_once req)) ->
  forall rs s, I s -> I (Full.serve_all rs s).
Proof.
  intros H rs. induction rs as [|[e req] rs IH]; intros s Hs; simpl; [exact Hs|].
  apply IH. apply serve_keeps; [exact Hs|apply H].
Qed.

Ltac handlers :=
  cbv beta iota zeta delta
    [ generateUniqueId getConnection Full.say ret throw toUpperCase_of
      bcrypt_hash Full.bcrypt_compare Full.lifted Full.with_param param1
      Full.claimed Full.route_handler route_handler
      post_auth_signup get_campaigns_financial_summary post_campaigns
      post_donations get_donations_history get_donation_by_id
      patch_project_expense post_projects patch_project_expense_2
      get_projects_progress post_donations_2 get_donation_by_id_2
      Full.post_auth_login Full.get_profile Full.get_campaigns
      Full.get_campaigns_summary Full.patch_campaign_status
      Full.get_campaigns_active Full.get_donors_summary Full.get_projects
      Full.patch_project_link_campaign Full.get_donations ].

(** Walks a handler down to its statements; [leaf] settles a statement. *)
Ltac preserving leaf :=
  repeat first
    [ exact Logic.I
    | match goal with
      | |- keeps _ Date_now => apply keeps_Date_now
      | |- keeps _ (try_catch _ _) => apply keeps_try_catch
      | |- keeps _ (bind _ _) => apply keeps_bind
      | |- keeps _ (driver _) => apply keeps_driver_preserves
      | |- preserves _ (binding _ _) => apply preserves_binding
      | |- preserves _ (fun s => Ok (tt, s)) => apply preserves_connection
      | |- preserves _ (query _) => apply preserves_reads; apply reads_query
      | |- preserves _ select_progress =>
          apply preserves_reads; apply reads_select_progress
      | |- keeps _ (match ?x with _ => _ end) => destruct x
      | |- keeps _ (if ?b then _ else _) => destruct b
      | |- preserves _ _ => solve [leaf]
      | |- forall _, _ => intro
      end
    | progress handlers ].

(** Every route of the application, one goal for each handler. *)
Ltac each_route req :=
  let r := fresh "r" in
  let params := fresh "params" in
  let Hin := fresh "Hin" in
  let Hm := fresh "Hm" in
  let Hpath := fresh "Hpath" in
  destruct (dispatch_cases Full.app_once req)
    as [->|(r & params & Hin & Hm & Hpath & ->)]; [exact Logic.I|];
  unfold Full.app_once, Full.app in Hin; simpl in Hin;
  repeat (destruct Hin as [<-|Hin]); try contradiction;
  apply keeps_run_route;
  cbv beta iota delta [Full.claimed Full.route_handler route_handler];
  try (intros ?u ?Hu ?Hg).

Lemma is_prefix_refl {A} (l : list A) : is_prefix l l.
Proof. exists []. rewrite app_nil_r. reflexivity. Qed.

Lemma is_prefix_trans {A} (a b c : list A) :
  is_prefix a b -> is_prefix b c -> is_prefix a c.
Proof.
  intros [t ->] [t' ->]. exists (t ++ t')%list. rewrite app_assoc. reflexivity.
Qed.

Lemma is_prefix_snoc {A} (l : list A) x : is_prefix l (l ++ [x])%list.
Proof. exists [x]. reflexivity. Qed.

Lemma extends_refl s : extends s s.
Proof. repeat split; apply is_prefix_refl. Qed.

Lemma extends_trans a b c : extends a b -> extends b c -> extends a c.
Proof.
  intros (A1 & A2 & A3 & A4 & A5 & A6) (B1 & B2 & B3 & B4 & B5 & B6).
  repeat split; eapply is_prefix_trans; eassumption.
Qed.

Lemma map_terms_updated {A B} (f : A -> B) (g : A -> A) (hit : A -> bool) l :
  (forall x, f (g x) = f x) ->
  map f (map (fun x => if hit x then g x else x) l) = map f l.
Proof.
  intros H. rewrite map_map. apply map_ext. intros x.
  destruct (hit x); [apply H|reflexivity].
Qed.

Lemma extends_grows {A} s0 (stmt : store -> outcome (A * store)) :
  grows stmt -> preserves (extends s0) stmt.
Proof.
  intros H s Hs. specialize (H s). destruct (stmt s) as [[b s']|x]; [|exact Logic.I].
  apply (extends_trans _ _ _ Hs H).
Qed.

Ltac growing :=
  intros ?s;
  unfold insert_credentials, insert_staff, insert_donor, insert_campaign,
    insert_donation, insert_project, update_project_spent,
    Full.update_campaign_status, Full.update_project_campaign;
  repeat match goal with
         | |- context [if ?b then _ else _] => destruct b
         | |- context [match ?x with _ => _ end] => destruct x
         end;
  try exact Logic.I;
  unfold extends; cbn [credentials staff donors donations campaigns projects
                       with_credentials with_staff with_donors with_donations
                       with_campaigns with_projects];
  repeat split;
  first [ apply is_prefix_refl
        | apply is_prefix_snoc
        | rewrite map_app; apply is_prefix_snoc
        | rewrite map_terms_updated; [apply is_prefix_refl|reflexivity] ].

Lemma app_keeps_records s0 req :
  keeps (extends s0) (Full.dispatch Full.app_once req).
Proof.
  each_route req; preserving ltac:(apply extends_grows; growing).
Qed.

(** X13.  Nothing is ever deleted or rewritten: after any sequence of
    requests the credentials, staff, donor and donation rows of the start
    are still there, unchanged and in the same order, before the new ones;
    so are the campaigns in all their columns but STATUS, and the projects
    in all their columns but SPENT and CAMP_ID.  In particular the budget
    and the status of a project never change. *)
Theorem records_are_kept : forall rs s, extends s (Full.serve_all rs s).
Proof.
  intros rs s. apply (serve_all_keeps (extends s)); [|apply extends_refl].
  apply app_keeps_records.
Qed.








(** ** Campaign status and project links *)

Lemma route_status req campId :
  method req = PATCH -> path req = ["api"; "campaigns"; campId; "status"] ->
  Full.dispatch Full.app req =
  Full.run_route (Full.Protected [authorizeStaff]
                    (Full.with_param Full.patch_campaign_status)) [campId] req.
Proof.
  destruct req as [m p a bd]. cbn [method path]. intros -> ->. reflexivity.
Qed.

Lemma route_link req projId :
  method req = PATCH -> path req = ["api"; "projects"; projId; "link-campaign"] ->
  Full.dispatch Full.app req =
  Full.run_route (Full.Protected [authorizeStaff]
                    (Full.with_param Full.patch_project_link_campaign)) [projId] req.
Proof.
  destruct req as [m p a bd]. cbn [method path]. intros -> ->. reflexivity.
Qed.

Lemma with_campaigns_same s : with_campaigns s (campaigns s) = s.
Proof. destruct s. reflexivity. Qed.

Lemma with_projects_same s : with_projects s (projects s) = s.
Proof. destruct s. reflexivity. Qed.

Lemma map_untouched {A} (hit : A -> bool) (g : A -> A) l :
  filter hit l = [] -> map (fun x => if hit x then g x else x) l = l.
Proof.
  induction l as [|a l IH]; simpl; [reflexivity|].
  destruct (hit a); [discriminate|]. intros H. rewrite (IH H). reflexivity.
Qed.

Lemma campaign_status_outcome e req s campId :
  method req = PATCH -> path req = ["api"; "campaigns"; campId; "status"] ->
  (Full.code (fst (Full.serve e req s)) <> 200 /\ snd (Full.serve e req s) = s) \/
  (exists u st,
      authorization req = Token u /\ userType u = "STAFF"%string /\
      body req "status" = JS.Str st /\
      In (JS.toUpperCase st) Full.validStatuses /\
      (exists c, In c (campaigns s) /\ CAMPAIGN.CAMP_ID c = campId) /\
      Full.serve e req s
      = (Full.Answer 200 (Full.StatusUpdated campId (JS.toUpperCase st)),
         campaigns_with_status (JS.toUpperCase st) campId s)).
Proof.
  intros Hm Hp. unfold Full.serve. rewrite (route_status req campId Hm Hp).
  unfold Full.run_route, authenticateToken.
  destruct (authorization req) as [| |u]; try (left; split; [discriminate|reflexivity]).
  cbn [first_refusal]. unfold authorizeStaff.
  destruct (String.eqb_spec (userType u) "STAFF") as [Hu|Hu];
    [|left; split; [discriminate|reflexivity]].
  unfold Full.with_param, Full.patch_campaign_status, Full.say, toUpperCase_of,
    getConnection, driver, ret, throw, Full.run. cbn [hd].
  destruct (JS.truthy (body req "status")); cbn [negb];
    [|left; split; [discriminate|reflexivity]].
  destruct (body req "status") as [| |b|n|st];
    try (left; split; [discriminate|reflexivity]).
  cbn [bind try_catch].
  destruct (Full.includes Full.validStatuses (JS.toUpperCase st)) eqn:Hv;
    cbn [negb]; [|left; split; [discriminate|reflexivity]].
  cbn [bind try_catch exec reads calls db perform].
  destruct (faults e 0%nat); cbn [bind try_catch exec reads calls db perform];
    [left; split; [discriminate|reflexivity]|].
  destruct (faults e 1%nat); cbn [bind try_catch exec reads calls db perform];
    [left; split; [discriminate|reflexivity]|].
  unfold Full.update_campaign_status.
  cbn [bind try_catch exec reads calls db perform].
  destruct (filter (fun c => (CAMPAIGN.CAMP_ID c =? campId)%string) (campaigns s))
    as [|c rest] eqn:Hsel.
  - left. cbn. split; [discriminate|].
    rewrite (map_untouched _ _ _ Hsel). apply with_campaigns_same.
  - right. exists u, st. repeat split; auto.
    + unfold Full.includes in Hv. apply existsb_exists in Hv.
      destruct Hv as [x [Hx Heq]]. apply String.eqb_eq in Heq. subst x. exact Hx.
    + assert (Hin : In c (filter (fun c => (CAMPAIGN.CAMP_ID c =? campId)%string)
                                 (campaigns s))) by (rewrite Hsel; left; reflexivity).
      apply filter_In in Hin. destruct Hin as [Hin Hid].
      apply String.eqb_eq in Hid. exists c. auto.
Qed.

(** X17.  PATCH /api/campaigns/:campId/status: either the answer is not 200
    and the store is unchanged, or the caller is staff, the status of the
    request in upper case is one of ACTIVE, COMPLETED, CANCELLED, the
    campaign exists, the answer is 200 and the store differs only in the
    STATUS of the campaigns with that identifier, which is the upper-cased
    status. *)
Theorem campaign_status_all_or_nothing :
  forall e req s campId,
    method req = PATCH -> path req = ["api"; "campaigns"; campId; "status"] ->
    (Full.code (fst (Full.serve e req s)) <> 200 /\ snd (Full.serve e req s) = s) \/
    (exists u st,
        authorization req = Token u /\ userType u = "STAFF"%string /\
        body req "status" = JS.Str st /\
        In (JS.toUpperCase st) Full.validStatuses /\
        (exists c, In c (campaigns s) /\ CAMPAIGN.CAMP_ID c = campId) /\
        Full.serve e req s
        = (Full.Answer 200 (Full.StatusUpdated campId (JS.toUpperCase st)),
           campaigns_with_status (JS.toUpperCase st) campId s)).
Proof.
  exact campaign_status_outcome.
Qed.

Lemma routed_post_donations req :
  method req = POST -> path req = ["api"; "donations"] -> routed req = true.
Proof.
  destruct req as [m p a bd]. cbn [method path]. intros -> ->. reflexivity.
Qed.

(** What one request to POST /api/donations does, on the whole application. *)
Lemma donation_served e req s :
  method req = POST -> path req = ["api"; "donations"] ->
  (Full.code (fst (Full.serve e req s)) <> 201 /\ snd (Full.serve e req s) = s) \/
  (exists u c a rest,
      authorization req = Token u /\
      body req "campId" = JS.Str c /\
      bind_number (body req "amount") = Ok (Some a) /\
      select_campaign_status c s = "ACTIVE"%string :: rest /\
      Full.serve e req s
      = (Full.lift (Response 201 (DonationRecorded (body req "amount")
                                    ("D_" ++ JS.decimal (clock e 0%nat)))),
         with_donations s (donations s ++ [donation_row e u c a])%list)).
Proof.
  intros Hm Hp. rewrite (serve_agrees e req s (routed_post_donations req Hm Hp)).
  rewrite (serve_post_donations e req s Hm Hp). cbn [fst snd].
  destruct (authorization req) as [| |u];
    try (left; split; [discriminate|reflexivity]).
  destruct (run (post_donations u req) e s) as [r s'] eqn:Hrun.
  destruct (donation_outcome u req e s r s' Hrun)
    as [[-> Hr]|(c & a & rest & Hc & Hb & Hsel & -> & ->)].
  - left. split; [exact Hr|reflexivity].
  - right. exists u, c, a, rest. repeat split; auto.
Qed.

Lemma status_after up campId s :
  select_campaign_status campId (campaigns_with_status up campId s)
  = map (fun _ => up) (select_campaign_status campId s).
Proof.
  unfold select_campaign_status, campaigns_with_status.
  cbn [campaigns with_campaigns].
  induction (campaigns s) as [|c l IH]; [reflexivity|]. cbn [map filter].
  destruct (CAMPAIGN.CAMP_ID c =? campId)%string eqn:Hc.
  - cbn [Full.set_campaign_status CAMPAIGN.CAMP_ID]. rewrite Hc.
    cbn [map CAMPAIGN.STATUS]. rewrite IH. reflexivity.
  - rewrite Hc. exact IH.
Qed.

(** X18.  Status update, then donation.  After a status update answered 200
    with a status other than ACTIVE, a request to POST /api/donations for
    that campaign is not answered 201 and leaves the store as it is,
    whoever sends it. *)
Theorem closed_campaign_takes_no_donation :
  forall e req s campId up e' req',
    method req = PATCH -> path req = ["api"; "campaigns"; campId; "status"] ->
    fst (Full.serve e req s) = Full.Answer 200 (Full.StatusUpdated campId up) ->
    up <> "ACTIVE"%string ->
    method req' = POST -> path req' = ["api"; "donations"] ->
    body req' "campId" = JS.Str campId ->
    Full.code (fst (Full.serve e' req' (snd (Full.serve e req s)))) <> 201 /\
    snd (Full.serve e' req' (snd (Full.serve e req s))) = snd (Full.serve e req s).
Proof.
  intros e req s campId up e' req' Hm Hp H200 Hup Hm' Hp' Hc.
  destruct (campaign_status_outcome e req s campId Hm Hp)
    as [[Hn _]|(u & st & _ & _ & _ & _ & _ & Hserve)].
  { rewrite H200 in Hn. contradiction Hn. reflexivity. }
  rewrite Hserve in H200 |- *. cbn [fst snd] in H200 |- *.
  inversion H200 as [Hst]. rewrite Hst.
  destruct (donation_served e' req' (campaigns_with_status up campId s) Hm' Hp')
    as [H|(u' & c & a & rest & _ & Hc' & _ & Hsel & _)]; [exact H|].
  exfalso. rewrite Hc in Hc'. inversion Hc'; subst c.
  rewrite status_after in Hsel.
  destruct (select_campaign_status campId s) as [|x l]; [discriminate|].
  inversion Hsel. congruence.
Qed.

Lemma truthy_bound v :
  JS.truthy v = true ->
  bind_varchar2 v = Throw JsError \/ exists c, bind_varchar2 v = Ok (Some c).
Proof.
  destruct v as [| |b|n|str]; simpl; try discriminate.
  - intros _. left. reflexivity.
  - intros _. right. eexists. reflexivity.
  - destruct (str =? "")%string; [discriminate|]. intros _. right. eexists. reflexivity.
Qed.

Lemma project_link_outcome e req s projId :
  method req = PATCH -> path req = ["api"; "projects"; projId; "link-campaign"] ->
  (Full.code (fst (Full.serve e req s)) <> 200 /\ snd (Full.serve e req s) = s) \/
  (exists u c,
      authorization req = Token u /\ userType u = "STAFF"%string /\
      bind_varchar2 (body req "campId") = Ok (Some c) /\
      (exists x, In x (campaigns s) /\ CAMPAIGN.CAMP_ID x = c) /\
      (exists p, In p (projects s) /\ PROJECT.PROJ_ID p = projId) /\
      Full.serve e req s
      = (Full.Answer 200 (Full.ProjectLinked projId (body req "campId")),
         projects_linked c projId s)).
Proof.
  intros Hm Hp. unfold Full.serve. rewrite (route_link req projId Hm Hp).
  unfold Full.run_route, authenticateToken.
  destruct (authorization req) as [| |u]; try (left; split; [discriminate|reflexivity]).
  cbn [first_refusal]. unfold authorizeStaff.
  destruct (String.eqb_spec (userType u) "STAFF") as [Hu|Hu];
    [|left; split; [discriminate|reflexivity]].
  unfold Full.with_param, Full.patch_project_link_campaign, Full.say,
    getConnection, driver, ret, throw, Full.run, binding. cbn [hd].
  destruct (JS.truthy (body req "campId")) eqn:Ht; cbn [negb];
    [|left; split; [discriminate|reflexivity]].
  cbn [bind try_catch exec reads calls db perform].
  destruct (faults e 0%nat); cbn [bind try_catch exec reads calls db perform];
    [cbn [errorNum_is]; destruct (_ =? 2291); left;
     split; first [discriminate|reflexivity]|].
  destruct (faults e 1%nat); cbn [bind try_catch exec reads calls db perform];
    [cbn [errorNum_is]; destruct (_ =? 2291); left;
     split; first [discriminate|reflexivity]|].
  destruct (truthy_bound _ Ht) as [Hb|[c Hb]]; rewrite Hb;
    cbn [bind try_catch exec reads calls db perform errorNum_is];
    [left; split; [discriminate|reflexivity]|].
  unfold Full.update_project_campaign. cbv zeta.
  destruct (filter (fun p => (PROJECT.PROJ_ID p =? projId)%string) (projects s))
    as [|p rest] eqn:Hsel.
  - left. cbn. split; [discriminate|].
    rewrite (map_untouched _ _ _ Hsel). apply with_projects_same.
  - destruct (existsb (fun x => (CAMPAIGN.CAMP_ID x =? c)%string) (campaigns s))
      eqn:Hex; cbn [negb bind try_catch exec reads calls db perform errorNum_is
                    Z.eqb Pos.eqb].
    + right. exists u, c. repeat split; auto.
      * apply existsb_exists in Hex. destruct Hex as [x [Hx Heq]].
        apply String.eqb_eq in Heq. exists x. auto.
      * assert (Hin : In p (filter (fun p => (PROJECT.PROJ_ID p =? projId)%string)
                                   (projects s))) by (rewrite Hsel; left; reflexivity).
        apply filter_In in Hin. destruct Hin as [Hin Hid].
        apply String.eqb_eq in Hid. exists p. auto.
    + left. split; [discriminate|reflexivity].
Qed.

(** X24.  PATCH /api/projects/:projId/link-campaign with a campaign id that
    is a string: either the answer is not 200 and the store is unchanged
    (a campaign id that no campaign has, a project that does not exist),
    or the caller is staff, the project and the campaign exist, the answer
    is 200 and the store differs only in the CAMP_ID of the projects with
    that identifier. *)
Theorem project_link_all_or_nothing :
  forall e req s projId c,
    method req = PATCH ->
    path req = ["api"; "projects"; projId; "link-campaign"] ->
    body req "campId" = JS.Str c ->
    (Full.code (fst (Full.serve e req s)) <> 200 /\ snd (Full.serve e req s) = s) \/
    (exists u,
        authorization req = Token u /\ userType u = "STAFF"%string /\
        (exists x, In x (campaigns s) /\ CAMPAIGN.CAMP_ID x = c) /\
        (exists p, In p (projects s) /\ PROJECT.PROJ_ID p = projId) /\
        Full.serve e req s
        = (Full.Answer 200 (Full.ProjectLinked projId (JS.Str c)),
           projects_linked c projId s)).
Proof.
  intros e req s projId c Hm Hp Hc.
  destruct (project_link_outcome e req s projId Hm Hp)
    as [H|(u & c' & Ha & Hu & Hb & Hx & Hpr & Hs)]; [left; exact H|].
  right. exists u. rewrite Hc in Hb, Hs. cbn [bind_varchar2] in Hb.
  assert (c' = c) by (destruct (c =? "")%string; congruence). subst c'.
  repeat split; assumption.
Qed.

(** ** Donation history and the financial summary *)

Lemma route_history req :
  method req = GET -> path req = ["api"; "donations"; "history"] ->
  Full.dispatch Full.app req =
  Full.run_route
    (Full.Protected [] (fun _ u r => Full.lifted (get_donations_history u r)))
    [] req.
Proof.
  destruct req as [m p a bd]. cbn [method path]. intros -> ->. reflexivity.
Qed.


Lemma history_row_source who s r :
  In r (select_history who s) ->
  exists dn c, In dn (donations s) /\ In c (campaigns s) /\
               CAMPAIGN.CAMP_ID c = DONATION.CAMP_ID dn /\
               match who with
               | Some i => DONATION.DONOR_ID dn = i
               | None => True
               end /\
               r = HISTORY.Row (DONATION.D_ID dn) (DONATION.DONOR_ID dn)
                     (DONATION.AMOUNT dn) (DONATION.DONATION_DATE dn)
                     (DONATION.PAYMENT_METHOD dn) (CAMPAIGN.C_NAME c).
Proof.
  unfold select_history. intros H.
  apply (Permutation_in _ (order_by_perm _ _)) in H.
  apply in_flat_map in H. destruct H as [dn [Hdn H]].
  apply filter_In in Hdn. destruct Hdn as [Hdn Hwho].
  apply in_map_iff in H. destruct H as [c [Hr Hc]].
  apply filter_In in Hc. destruct Hc as [Hc Hid]. apply String.eqb_eq in Hid.
  exists dn, c. repeat split; auto.
  destruct who as [i|]; [apply String.eqb_eq; exact Hwho|exact Logic.I].
Qed.


(** X25.  The history that GET /api/donations/history sends to a donor holds
    only donations of that donor: every row has the profile id of the
    caller and shows a stored donation of theirs. *)
Theorem donor_history_is_own :
  forall e req s u rows,
    method req = GET -> path req = ["api"; "donations"; "history"] ->
    authorization req = Token u -> userType u = "DONOR"%string ->
    fst (Full.serve e req s) = Full.lift (Response 200 (History rows)) ->
    forall r, In r rows ->
      HISTORY.DONOR_ID r = primaryId u /\
      exists dn, In dn (donations s) /\
                 DONATION.DONOR_ID dn = primaryId u /\
                 DONATION.D_ID dn = HISTORY.D_ID r /\
                 DONATION.AMOUNT dn = HISTORY.AMOUNT r.
Proof.
  intros e req s u rows Hm Hp Ha Hu. unfold Full.serve.
  rewrite (route_history req Hm Hp).
  unfold Full.run_route, authenticateToken. rewrite Ha. cbn [first_refusal].
  unfold Full.run, Full.lifted, get_donations_history, getConnection, driver,
    query, ret. rewrite Hu. rewrite String.eqb_refl.
  cbn [bind try_catch exec reads calls db perform].
  destruct (faults e 0%nat); cbn [bind try_catch exec reads calls db perform fst];
    [discriminate|].
  destruct (faults e 1%nat); cbn [bind try_catch exec reads calls db perform fst];
    [discriminate|].
  intros H r Hr. inversion H as [Hrows]. rewrite <- Hrows in Hr.
  destruct (history_row_source _ _ _ Hr) as (dn & c & Hdn & _ & _ & Hwho & ->).
  cbn. split; [exact Hwho|]. exists dn. auto.
Qed.


Lemma route_financial_summary req :
  method req = GET -> path req = ["api"; "campaigns"; "financial-summary"] ->
  Full.dispatch Full.app req =
  Full.run_route
    (Full.Protected [authorizeStaff]
       (fun _ u r => Full.lifted (get_campaigns_financial_summary u r)))
    [] req.
Proof.
  destruct req as [m p a bd]. cbn [method path]. intros -> ->. reflexivity.
Qed.

Lemma sum_perm {A} (f : A -> Z) l l' :
  Permutation l l' -> total (map f l) = total (map f l').
Proof.
  unfold total. induction 1; simpl; lia.
Qed.

Lemma sum_indicator (cs : list CAMPAIGN.row) i a :
  NoDup (map CAMPAIGN.CAMP_ID cs) -> In i (map CAMPAIGN.CAMP_ID cs) ->
  total (map (fun c => if (i =? CAMPAIGN.CAMP_ID c)%string then a else 0) cs) = a.
Proof.
  unfold total. induction cs as [|c cs IH]; simpl; [contradiction|].
  intros Hnd Hin. inversion Hnd as [|x l Hnot Hnd']; subst.
  destruct (String.eqb_spec i (CAMPAIGN.CAMP_ID c)) as [Heq|Hne].
  - assert (Hz : fold_right Z.add 0
                   (map (fun c => if (i =? CAMPAIGN.CAMP_ID c)%string then a else 0) cs)
                 = 0).
    { clear IH Hin Hnd Hnd'. subst i.
      induction cs as [|d cs IH]; simpl; [reflexivity|].
      destruct (String.eqb_spec (CAMPAIGN.CAMP_ID c) (CAMPAIGN.CAMP_ID d)) as [E|E].
      - exfalso. apply Hnot. left. symmetry. exact E.
      - rewrite IH; [reflexivity|]. intros H. apply Hnot. right. exact H. }
    rewrite Hz. lia.
  - destruct Hin as [Hin|Hin]; [congruence|]. rewrite (IH Hnd' Hin). lia.
Qed.

Lemma raised_by_campaign ds : forall (cs : list CAMPAIGN.row),
  NoDup (map CAMPAIGN.CAMP_ID cs) ->
  (forall dn, In dn ds -> In (DONATION.CAMP_ID dn) (map CAMPAIGN.CAMP_ID cs)) ->
  total (map (fun c =>
              total (map DONATION.AMOUNT
                     (filter (fun x => (DONATION.CAMP_ID x =? CAMPAIGN.CAMP_ID c)%string)
                             ds))) cs)
  = total (map DONATION.AMOUNT ds).
Proof.
  induction ds as [|dn ds IH]; intros cs Hnd Href.
  - simpl. unfold total. clear. induction cs as [|c cs IHc]; simpl; [reflexivity|].
    rewrite IHc. reflexivity.
  - pose proof (IH cs Hnd (fun x Hx => Href x (or_intror Hx))) as H1.
    pose proof (sum_indicator cs (DONATION.CAMP_ID dn) (DONATION.AMOUNT dn) Hnd
                  (Href dn (or_introl eq_refl))) as H2.
    change (total (map DONATION.AMOUNT (dn :: ds)))
      with (DONATION.AMOUNT dn + total (map DONATION.AMOUNT ds)).
    rewrite <- H1, <- H2. clear. unfold total.
    induction cs as [|c cs IHc]; [reflexivity|].
    cbn [map fold_right]. rewrite IHc. cbn [filter].
    destruct (DONATION.CAMP_ID dn =? CAMPAIGN.CAMP_ID c)%string;
      cbn [map fold_right]; lia.
Qed.

Lemma financial_summary_total s :
  NoDup (map CAMPAIGN.CAMP_ID (campaigns s)) -> referenced s ->
  total (map SUMMARY.TOTAL_RAISED (select_financial_summary s))
  = total (map DONATION.AMOUNT (donations s)).
Proof.
  intros Hnd Href. unfold select_financial_summary.
  rewrite (sum_perm _ _ _ (order_by_perm _ _)). rewrite map_map.
  cbn [SUMMARY.TOTAL_RAISED]. unfold TOTAL_RAISED.
  apply (raised_by_campaign (donations s) (campaigns s) Hnd).
  intros dn Hdn. destruct (Href dn Hdn) as [c [Hc Hid]].
  rewrite <- Hid. apply in_map. exact Hc.
Qed.

(** X28.  On a store in which campaign identifiers are unique, every
    donation refers to a campaign, no amount is negative and the amounts
    add up to less than 2^53 (so that every total is a number that a
    double holds), the financial summary has one row for each campaign and
    the raised totals of its rows add up to the sum of all stored
    donations. *)
Theorem financial_summary_accounts_for_every_donation :
  forall e req s rows,
    method req = GET -> path req = ["api"; "campaigns"; "financial-summary"] ->
    NoDup (map CAMPAIGN.CAMP_ID (campaigns s)) -> referenced s ->
    (forall dn, In dn (donations s) -> 0 <= DONATION.AMOUNT dn) ->
    total (map DONATION.AMOUNT (donations s)) < 2 ^ 53 ->
    fst (Full.serve e req s) = Full.lift (Response 200 (Summary rows)) ->
    total (map (fun r => SUMMARY.TOTAL_RAISED (fst r)) rows)
    = total (map DONATION.AMOUNT (donations s)) /\
    List.length rows = List.length (campaigns s).
Proof.
  intros e req s rows Hm Hp Hnd Href _ _. unfold Full.serve.
  rewrite (route_financial_summary req Hm Hp).
  unfold Full.run_route, authenticateToken.
  destruct (authorization req) as [| |u];
    [intros H; cbn in H; unfold Full.lift in H; discriminate H
    |intros H; cbn in H; unfold Full.lift in H; discriminate H|].
  cbn [first_refusal]. unfold authorizeStaff.
  destruct (userType u =? "STAFF")%string;
    [|intros H; cbn in H; unfold Full.lift in H; discriminate H].
  unfold Full.run, Full.lifted, get_campaigns_financial_summary, getConnection,
    driver, query, ret.
  cbn [bind try_catch exec reads calls db perform].
  destruct (faults e 0%nat); cbn [bind try_catch exec reads calls db perform fst];
    [discriminate|].
  destruct (faults e 1%nat); cbn [bind try_catch exec reads calls db perform fst];
    [discriminate|].
  intros H. inversion H as [Hrows]. clear H. split.
  - rewrite map_map. cbn [fst]. apply financial_summary_total; assumption.
  - rewrite length_map. unfold select_financial_summary.
    rewrite (Permutation_length (order_by_perm _ _)). apply length_map.
Qed.

(** ** Failed signups; the active list *)

(** What a signup request leaves behind: nothing, or the credential row
    alone (the profile insert failed after the credential insert was
    committed), or the credential row and the profile row. *)
Lemma signup_outcome e req s :
  method req = POST -> path req = ["api"; "auth"; "signup"] ->
  (snd (Full.serve e req s) = s /\ Full.code (fst (Full.serve e req s)) <> 201) \/
  exists ut pw,
    body req "password" = JS.Str pw /\
    JS.truthy (body req "email") = true /\
    JS.truthy (body req "password") = true /\
    credentials (snd (Full.serve e req s))
    = (credentials s ++ [credential_of e req ut pw])%list /\
    (forall x, In x (credentials s) ->
               NEW_CREDENTIALS.USER_ID x
               <> NEW_CREDENTIALS.USER_ID (credential_of e req ut pw) /\
               NEW_CREDENTIALS.EMAIL x <> JS.ToString (body req "email")) /\
    (ut = "STAFF"%string \/ ut = "DONOR"%string) /\
    (Full.code (fst (Full.serve e req s)) <> 201 ->
     snd (Full.serve e req s)
     = with_credentials s (credentials s ++ [credential_of e req ut pw])%list).
Proof.
  intros Hm Hp.
  rewrite (serve_agrees e req s (routed_signup req Hm Hp)).
  rewrite (serve_signup e req s Hm Hp). cbn [fst snd].
  unfold run, post_auth_signup, toUpperCase_of, bcrypt_hash,
    generateUniqueId, Date_now, getConnection, driver, ret, throw, Full.lift.
  destruct (JS.truthy (body req "email")) eqn:Te; cbn [negb orb];
    [|left; split; [reflexivity|discriminate]].
  destruct (JS.truthy (body req "password")) eqn:Tp; cbn [negb orb];
    [|left; split; [reflexivity|discriminate]].
  destruct (JS.truthy (body req "aadharNo")); cbn [negb orb];
    [|left; split; [reflexivity|discriminate]].
  destruct (JS.truthy (body req "userType")); cbn [negb orb];
    [|left; split; [reflexivity|discriminate]].
  destruct (body req "userType") as [| |b|n|t]; cbn [bind try_catch];
    try (left; split; [reflexivity|discriminate]).
  set (up := JS.toUpperCase t).
  destruct (negb (up =? "STAFF")%string && negb (up =? "DONOR")%string) eqn:Hty;
    [left; split; [reflexivity|discriminate]|].
  assert (Hut : up = "STAFF"%string \/ up = "DONOR"%string).
  { destruct (String.eqb_spec up "STAFF"); [left; assumption|].
    destruct (String.eqb_spec up "DONOR"); [right; assumption|discriminate]. }
  clear Hty.
  destruct (JS.test JS.aadhar_re (body req "aadharNo")); cbn [negb];
    [|left; split; [reflexivity|discriminate]].
  destruct (JS.test JS.email_re (body req "email")); cbn [negb];
    [|left; split; [reflexivity|discriminate]].
  destruct (JS.lt_num (JS.length_of (body req "password")) 6);
    [left; split; [reflexivity|discriminate]|].
  destruct (body req "password") as [| |b|n|pw];
    cbn [bind try_catch exec errorNum_is];
    try (left; split; [reflexivity|discriminate]).
  cbn [exec reads calls db perform bind try_catch].
  destruct (faults e 0%nat); cbn [exec reads calls db perform bind try_catch errorNum_is];
    [destruct (_ =? 1); left; split; first [reflexivity|discriminate]|].
  destruct (faults e 1%nat); cbn [exec reads calls db perform bind try_catch errorNum_is];
    [destruct (_ =? 1); left; split; first [reflexivity|discriminate]|].
  unfold insert_credentials. cbn [NEW_CREDENTIALS.USER_ID NEW_CREDENTIALS.EMAIL
    NEW_CREDENTIALS.AADHAR_NO NEW_CREDENTIALS.USER_TYPE].
  destruct (too_long 100 _ || too_long 12 _ || too_long 255 _ || too_long 10 _);
    cbn [exec reads calls db perform bind try_catch errorNum_is];
    [left; split; [reflexivity|discriminate]|].
  match goal with |- context [existsb ?f (credentials s)] =>
    destruct (existsb f (credentials s)) eqn:Hex end;
    cbn [exec reads calls db perform bind try_catch errorNum_is Z.eqb Pos.eqb];
    [left; split; [reflexivity|discriminate]|].
  assert (Hfresh : forall x, In x (credentials s) ->
            NEW_CREDENTIALS.USER_ID x <> (up ++ "_" ++ JS.decimal (clock e 0%nat))%string /\
            NEW_CREDENTIALS.EMAIL x <> JS.ToString (body req "email")).
  { intros x Hx. pose proof (existsb_false_forall _ _ Hex x Hx) as H.
    cbv beta in H. apply orb_false_elim in H. destruct H as [H H3].
    apply orb_false_elim in H. destruct H as [H1 H2].
    apply String.eqb_neq in H1, H3. auto. }
  right. exists up, pw. split; [reflexivity|]. split; [reflexivity|].
  split; [reflexivity|]. cbn [Full.code].
  cut (forall r : response * store,
         (credentials (snd r) = (credentials s ++ [credential_of e req up pw])%list /\
          (status (fst r) <> 201 ->
           snd r = with_credentials s
                     (credentials s ++ [credential_of e req up pw])%list)) ->
         credentials (snd r) = (credentials s ++ [credential_of e req up pw])%list /\
         (forall x, In x (credentials s) ->
            NEW_CREDENTIALS.USER_ID x
            <> NEW_CREDENTIALS.USER_ID (credential_of e req up pw) /\
            NEW_CREDENTIALS.EMAIL x <> JS.ToString (body req "email")) /\
         (up = "STAFF"%string \/ up = "DONOR"%string) /\
         (status (fst r) <> 201 ->
          snd r = with_credentials s
                    (credentials s ++ [credential_of e req up pw])%list)).
  { intros Hcut.
    match goal with |- credentials (snd ?r) = _ /\ _ => apply (Hcut r) end.
    fold (credential_of e req up pw).
    destruct (String.eqb_spec up "STAFF") as [Hs|Hs];
      [|destruct (String.eqb_spec up "DONOR") as [Hd|Hd];
        [|exfalso; destruct Hut; contradiction]].
    - cbn [exec reads calls db perform bind try_catch].
      destruct (faults e 2%nat);
        cbn [exec reads calls db perform bind try_catch errorNum_is];
        [destruct (_ =? 1); split; reflexivity|].
      unfold binding, insert_staff.
      destruct (bind_varchar2 (default_null (body req "fname"))) as [f|x];
        cbn [exec reads calls db perform bind try_catch errorNum_is];
        [|destruct (errorNum_is x 1); split; reflexivity].
      destruct (bind_varchar2 (default_null (body req "lname"))) as [l|x];
        cbn [exec reads calls db perform bind try_catch errorNum_is];
        [|destruct (errorNum_is x 1); split; reflexivity].
      match goal with |- context [existsb ?f ?l] => destruct (existsb f l) end;
        cbn [exec reads calls db perform bind try_catch errorNum_is Z.eqb Pos.eqb
             fst snd status];
        [split; reflexivity|].
      split; [reflexivity|]. intros H. exfalso. apply H. reflexivity.
    - cbn [exec reads calls db perform bind try_catch].
      destruct (faults e 2%nat);
        cbn [exec reads calls db perform bind try_catch errorNum_is];
        [destruct (_ =? 1); split; reflexivity|].
      unfold binding, insert_donor.
      destruct (bind_varchar2 (default_null (body req "fname"))) as [f|x];
        cbn [exec reads calls db perform bind try_catch errorNum_is];
        [|destruct (errorNum_is x 1); split; reflexivity].
      destruct (bind_varchar2 (default_null (body req "lname"))) as [l|x];
        cbn [exec reads calls db perform bind try_catch errorNum_is];
        [|destruct (errorNum_is x 1); split; reflexivity].
      match goal with |- context [existsb ?f ?l] => destruct (existsb f l) end;
        cbn [exec reads calls db perform bind try_catch errorNum_is Z.eqb Pos.eqb
             fst snd status];
        [split; reflexivity|].
      split; [reflexivity|]. intros H. exfalso. apply H. reflexivity. }
  intros r [H1 H2]. repeat split; auto; apply Hfresh; assumption.
Qed.

(** X11.  A signup that is not answered 201 leaves the store as it was, or
    leaves one credential row more and no profile row: each INSERT is
    committed on its own, and the rollback of the catch block has nothing
    to undo. *)
Theorem failed_signup_leaves_at_most_credentials :
  forall e req s,
    method req = POST -> path req = ["api"; "auth"; "signup"] ->
    Full.code (fst (Full.serve e req s)) <> 201 ->
    snd (Full.serve e req s) = s \/
    exists c,
      snd (Full.serve e req s) = with_credentials s (credentials s ++ [c])%list /\
      NEW_CREDENTIALS.EMAIL c = JS.ToString (body req "email") /\
      (NEW_CREDENTIALS.USER_TYPE c = "STAFF"%string \/
       NEW_CREDENTIALS.USER_TYPE c = "DONOR"%string).
Proof.
  intros e req s Hm Hp Hn.
  destruct (signup_outcome e req s Hm Hp)
    as [[H _]|(ut & pw & _ & _ & _ & _ & _ & Hut & H)]; [left; exact H|].
  right. exists (credential_of e req ut pw). split; [exact (H Hn)|].
  split; [reflexivity|exact Hut].
Qed.

(** X12.  Failed signup, then login.  When a signup is not answered 201 but
    has changed the store, a login with the email and password of that
    signup is answered 500, 'User profile not found after login.': the
    credential is stored, its profile is not. *)
Theorem orphaned_credentials_block_login :
  forall e req s em e' req',
    method req = POST -> path req = ["api"; "auth"; "signup"] ->
    body req "email" = JS.Str em ->
    profiles_owned s ->
    Full.code (fst (Full.serve e req s)) <> 201 ->
    snd (Full.serve e req s) <> s ->
    method req' = POST -> path req' = ["api"; "auth"; "login"] ->
    body req' "email" = body req "email" ->
    body req' "password" = body req "password" ->
    faults e' 0%nat = None -> faults e' 1%nat = None -> faults e' 2%nat = None ->
    Full.serve e' req' (snd (Full.serve e req s))
    = (Full.Answer 500
         (Full.Claimed (Message "User profile not found after login.")),
       snd (Full.serve e req s)).
Proof.
  intros e req s em e' req' Hm Hp Hem [Hst Hdn] Hn Hchanged Hm' Hp' He' Hw' F0 F1 F2.
  destruct (signup_outcome e req s Hm Hp)
    as [[H _]|(ut & pw & Hpw & Te & Tp & _ & Hfresh & Hut & H)];
    [contradiction|].
  rewrite (H Hn). clear H Hn Hchanged.
  set (c := credential_of e req ut pw) in *.
  set (s' := with_credentials s (credentials s ++ [c])%list).
  assert (Hce : NEW_CREDENTIALS.EMAIL c = em)
    by (unfold c, credential_of; simpl; rewrite Hem; reflexivity).
  assert (Hcp : NEW_CREDENTIALS.PASSWORD c = Bcrypt 10 pw) by reflexivity.
  assert (Hct : NEW_CREDENTIALS.USER_TYPE c = ut) by reflexivity.
  rewrite Hem in Hfresh. clearbody c.
  assert (Hsel : Full.select_credentials_by_email em s' = [c]).
  { unfold Full.select_credentials_by_email, s'. cbn [credentials with_credentials].
    rewrite filter_app, filter_none.
    - cbn [filter app]. rewrite Hce, String.eqb_refl. reflexivity.
    - intros x Hx. apply String.eqb_neq. destruct (Hfresh x Hx) as [_ Hx'].
      exact Hx'. }
  assert (Hnostaff : Full.select_staff_id (NEW_CREDENTIALS.USER_ID c) s' = []).
  { unfold Full.select_staff_id, s'. cbn [staff with_credentials].
    rewrite filter_none; [reflexivity|].
    intros x Hx. apply String.eqb_neq. intros Heq.
    destruct (Hst x Hx) as [c0 [Hc0 Hu]].
    destruct (Hfresh c0 Hc0) as [Hc0' _]. congruence. }
  assert (Hnodonor : Full.select_donor_id (NEW_CREDENTIALS.USER_ID c) s' = []).
  { unfold Full.select_donor_id, s'. cbn [donors with_credentials].
    rewrite filter_none; [reflexivity|].
    intros x Hx. apply String.eqb_neq. intros Heq.
    destruct (Hdn x Hx) as [c0 [Hc0 Hu]].
    destruct (Hfresh c0 Hc0) as [Hc0' _]. congruence. }
  clearbody s'.
  unfold Full.serve. rewrite (route_login req' Hm' Hp').
  unfold Full.run, Full.post_auth_login, Full.say, getConnection, driver,
    Full.bcrypt_compare, binding, query, ret.
  rewrite He', Hw', Te, Tp, Hem, Hpw.
  cbn [negb orb bind try_catch exec reads calls db perform bind_key].
  rewrite F0. cbn [bind try_catch exec reads calls db perform].
  rewrite F1. cbn [bind try_catch exec reads calls db perform].
  rewrite Hsel. cbn [bind try_catch exec reads calls db perform].
  rewrite Hcp, Hct.
  cbn [bind try_catch exec reads calls db perform].
  rewrite String.eqb_refl.
  cbn [negb bind try_catch exec reads calls db perform].
  destruct Hut as [-> | ->].
  - rewrite String.eqb_refl.
    cbn [bind try_catch exec reads calls db perform].
    rewrite F2. cbn [bind try_catch exec reads calls db perform].
    rewrite Hnostaff. reflexivity.
  - change (("DONOR" =? "STAFF")%string) with false. rewrite String.eqb_refl.
    cbn [bind try_catch exec reads calls db perform].
    rewrite F2. cbn [bind try_catch exec reads calls db perform].
    rewrite Hnodonor. reflexivity.
Qed.

Lemma route_active req :
  method req = GET -> path req = ["api"; "campaigns"; "active"] ->
  Full.dispatch Full.app req =
  Full.run_route (Full.Protected [] (fun _ => Full.get_campaigns_active)) [] req.
Proof.
  destruct req as [m p a bd]. cbn [method path]. intros -> ->. reflexivity.
Qed.

Lemma active_listed s id :
  In id (map Full.ACTIVE.CAMP_ID (Full.select_active_campaigns s)) <->
  exists c, In c (campaigns s) /\ CAMPAIGN.CAMP_ID c = id /\
            CAMPAIGN.STATUS c = "ACTIVE"%string.
Proof.
  unfold Full.select_active_campaigns. split.
  - intros H. apply in_map_iff in H. destruct H as [r [<- Hr]].
    apply (Permutation_in _ (order_by_perm _ _)) in Hr.
    apply in_map_iff in Hr. destruct Hr as [c [<- Hc]].
    apply filter_In in Hc. destruct Hc as [Hc Hs]. apply String.eqb_eq in Hs.
    exists c. auto.
  - intros [c (Hc & <- & Hs)].
    apply in_map_iff.
    exists (Full.ACTIVE.Row (CAMPAIGN.CAMP_ID c) (CAMPAIGN.C_NAME c)
              (CAMPAIGN.GOAL_AMOUNT c) (CAMPAIGN.SDATE c) (CAMPAIGN.EDATE c)).
    split; [reflexivity|].
    apply (Permutation_in _ (Permutation_sym (order_by_perm _ _))).
    apply in_map_iff. exists c. split; [reflexivity|].
    apply filter_In. split; [exact Hc|apply String.eqb_eq; exact Hs].
Qed.

(** X19.  The list that GET /api/campaigns/active answers holds the
    identifiers of the stored campaigns whose STATUS is ACTIVE, and no
    other. *)
Theorem active_list_is_exact :
  forall e req s rows,
    method req = GET -> path req = ["api"; "campaigns"; "active"] ->
    fst (Full.serve e req s) = Full.Answer 200 (Full.ActiveCampaigns rows) ->
    forall id,
      In id (map Full.ACTIVE.CAMP_ID rows) <->
      exists c, In c (campaigns s) /\ CAMPAIGN.CAMP_ID c = id /\
                CAMPAIGN.STATUS c = "ACTIVE"%string.
Proof.
  intros e req s rows Hm Hp. unfold Full.serve. rewrite (route_active req Hm Hp).
  unfold Full.run_route, authenticateToken.
  destruct (authorization req) as [| |u];
    [intros H; cbn in H; unfold Full.lift in H; discriminate H
    |intros H; cbn in H; unfold Full.lift in H; discriminate H|].
  cbn [first_refusal].
  unfold Full.run, Full.get_campaigns_active, Full.say, getConnection, driver,
    query, ret.
  cbn [bind try_catch exec reads calls db perform].
  destruct (faults e 0%nat); cbn [bind try_catch exec reads calls db perform fst];
    [discriminate|].
  destruct (faults e 1%nat); cbn [bind try_catch exec reads calls db perform fst];
    [discriminate|].
  intros H. inversion H. apply active_listed.
Qed.

(** X20.  A campaign that a donation is accepted for (201) is one that the
    active list shows on the same store. *)
Theorem donation_taken_only_for_listed_campaign :
  forall e req s c e' req' u',
    method req = POST -> path req = ["api"; "donations"] ->
    body req "campId" = JS.Str c ->
    Full.code (fst (Full.serve e req s)) = 201 ->
    method req' = GET -> path req' = ["api"; "campaigns"; "active"] ->
    authorization req' = Token u' ->
    faults e' 0%nat = None -> faults e' 1%nat = None ->
    exists rows,
      fst (Full.serve e' req' s) = Full.Answer 200 (Full.ActiveCampaigns rows) /\
      In c (map Full.ACTIVE.CAMP_ID rows).
Proof.
  intros e req s c e' req' u' Hm Hp Hc H201 Hm' Hp' Ha' F0 F1.
  destruct (donation_served e req s Hm Hp)
    as [[Hn _]|(u0 & c0 & a & rest & _ & Hc0 & _ & Hsel & _)];
    [contradiction|].
  rewrite Hc in Hc0. inversion Hc0; subst c0. clear Hc0.
  exists (Full.select_active_campaigns s). split.
  - unfold Full.serve. rewrite (route_active req' Hm' Hp').
    unfold Full.run_route, authenticateToken. rewrite Ha'. cbn [first_refusal].
    unfold Full.run, Full.get_campaigns_active, Full.say, getConnection, driver,
      query, ret.
    cbn [bind try_catch exec reads calls db perform]. rewrite F0.
    cbn [bind try_catch exec reads calls db perform]. rewrite F1. reflexivity.
  - apply active_listed. unfold select_campaign_status in Hsel.
    destruct (filter (fun x => (CAMPAIGN.CAMP_ID x =? c)%string) (campaigns s))
      as [|x l] eqn:Hf; [discriminate|].
    assert (Hin : In x (filter (fun x => (CAMPAIGN.CAMP_ID x =? c)%string)
                               (campaigns s))) by (rewrite Hf; left; reflexivity).
    apply filter_In in Hin. destruct Hin as [Hin Hid].
    apply String.eqb_eq in Hid. exists x. cbn in Hsel. inversion Hsel. auto.
Qed.

(** ** Creating campaigns and projects *)


Ltac unchanged := left; split; first [discriminate|reflexivity].



Lemma route_post_projects req :
  method req = POST -> path req = ["api"; "projects"] ->
  Full.dispatch Full.app req =
  Full.run_route
    (Full.Protected [authorizeStaff] (fun _ u r => Full.lifted (post_projects u r)))
    [] req.
Proof.
  destruct req as [m p a bd]. cbn [method path]. intros -> ->. reflexivity.
Qed.

Lemma project_outcome e req s :
  method req = POST -> path req = ["api"; "projects"] ->
  (Full.code (fst (Full.serve e req s)) <> 201 /\ snd (Full.serve e req s) = s) \/
  (exists u name b sd c,
      authorization req = Token u /\ userType u = "STAFF"%string /\
      not_null (bind_varchar2 (body req "pName")) = Ok name /\
      JS.Number (body req "budget") = Some b /\
      not_null (bind_varchar2 (body req "sDate")) = Ok sd /\
      dates s sd = true /\
      bind_varchar2 (or_null (body req "campId")) = Ok c /\
      (forall p, In p (projects s) ->
                 PROJECT.PROJ_ID p <> ("PROJ_" ++ JS.decimal (clock e 0%nat))%string) /\
      (forall id, c = Some id ->
                  exists x, In x (campaigns s) /\ CAMPAIGN.CAMP_ID x = id) /\
      Full.serve e req s
      = (Full.lift (Response 201 (ProjectCreated (body req "campId")
                                    ("PROJ_" ++ JS.decimal (clock e 0%nat)))),
         with_projects s (projects s ++ [new_project e u name b sd c])%list)).
Proof.
  intros Hm Hp. unfold Full.serve. rewrite (route_post_projects req Hm Hp).
  unfold Full.run_route, authenticateToken.
  destruct (authorization req) as [| |u]; try unchanged.
  cbn [first_refusal]. unfold authorizeStaff.
  destruct (String.eqb_spec (userType u) "STAFF") as [Hu|Hu]; [|unchanged].
  unfold Full.run, Full.lifted, post_projects, generateUniqueId, Date_now,
    getConnection, driver, binding, ret, Full.lift.
  destruct (negb (JS.truthy (body req "pName"))
            || negb (JS.truthy (body req "budget"))
            || negb (JS.truthy (body req "sDate"))); [unchanged|].
  cbn [bind try_catch exec reads calls db perform].
  destruct (faults e 0%nat);
    cbn [bind try_catch exec reads calls db perform errorNum_is];
    [destruct (_ =? 2291); [|destruct (_ =? 1)]; unchanged|].
  destruct (faults e 1%nat);
    cbn [bind try_catch exec reads calls db perform errorNum_is];
    [destruct (_ =? 2291); [|destruct (_ =? 1)]; unchanged|].
  destruct (not_null (bind_varchar2 (body req "pName"))) as [name|x];
    cbn [bind try_catch exec reads calls db perform];
    [|destruct (errorNum_is x 2291); [|destruct (errorNum_is x 1)]; unchanged].
  unfold bind_js_number.
  destruct (JS.Number (body req "budget")) as [b|];
    cbn [bind try_catch exec reads calls db perform errorNum_is]; [|unchanged].
  destruct (not_null (bind_varchar2 (body req "sDate"))) as [sd|x];
    cbn [bind try_catch exec reads calls db perform];
    [|destruct (errorNum_is x 2291); [|destruct (errorNum_is x 1)]; unchanged].
  destruct (bind_varchar2 (or_null (body req "campId"))) as [c|x];
    cbn [bind try_catch exec reads calls db perform];
    [|destruct (errorNum_is x 2291); [|destruct (errorNum_is x 1)]; unchanged].
  unfold insert_project. cbn [PROJECT.PROJ_ID PROJECT.CAMP_ID PROJECT.SDATE].
  destruct (dates s sd) eqn:Ds;
    cbn [negb bind try_catch exec reads calls db perform errorNum_is Z.eqb Pos.eqb];
    [|unchanged].
  match goal with |- context [existsb ?f (projects s)] =>
    destruct (existsb f (projects s)) eqn:Hex end;
    cbn [bind try_catch exec reads calls db perform errorNum_is Z.eqb Pos.eqb];
    [unchanged|].
  destruct (match c with
            | Some c0 => existsb (fun x => (CAMPAIGN.CAMP_ID x =? c0)%string)
                                 (campaigns s)
            | None => true
            end) eqn:Hfk;
    cbn [bind try_catch exec reads calls db perform errorNum_is Z.eqb Pos.eqb];
    [|unchanged].
  right. exists u, name, b, sd, c. repeat split; auto.
  - intros p Hin. pose proof (existsb_false_forall _ _ Hex p Hin) as Hf.
    cbv beta in Hf. apply String.eqb_neq in Hf. exact Hf.
  - intros id ->. apply existsb_exists in Hfk. destruct Hfk as [x [Hx Heq]].
    apply String.eqb_eq in Heq. exists x. auto.
Qed.

(** X22.  POST /api/projects: either the answer is not 201 and the store is
    unchanged, or the caller is staff, no stored project had the
    identifier PROJ_<clock>, the campaign given (if any) exists, the start
    date is a text that the database reads as a date, the answer is 201
    and exactly one row is appended, with that identifier, SPENT 0 and
    STATUS ONGOING.  The row has the name and the start date of the request
    when these are strings, its budget when it is a number below 2^53, and
    its campaign id when it is a non-empty string. *)
Theorem project_creation_all_or_nothing :
  forall e req s,
    method req = POST -> path req = ["api"; "projects"] ->
    (Full.code (fst (Full.serve e req s)) <> 201 /\ snd (Full.serve e req s) = s) \/
    (exists u name b sd c,
        authorization req = Token u /\ userType u = "STAFF"%string /\
        (forall t, body req "pName" = JS.Str t -> name = t) /\
        (forall n, body req "budget" = JS.Num n -> Z.abs n < 2 ^ 53 -> b = n) /\
        (forall t, body req "sDate" = JS.Str t -> sd = t) /\
        dates s sd = true /\
        (forall id, body req "campId" = JS.Str id -> id <> ""%string ->
                    c = Some id) /\
        (forall p, In p (projects s) ->
                   PROJECT.PROJ_ID p <> ("PROJ_" ++ JS.decimal (clock e 0%nat))%string) /\
        (forall id, c = Some id ->
                    exists x, In x (campaigns s) /\ CAMPAIGN.CAMP_ID x = id) /\
        Full.serve e req s
        = (Full.lift (Response 201 (ProjectCreated (body req "campId")
                                      ("PROJ_" ++ JS.decimal (clock e 0%nat)))),
           with_projects s (projects s ++ [new_project e u name b sd c])%list)).
Proof.
  intros e req s Hm Hp.
  destruct (project_outcome e req s Hm Hp)
    as [H|(u & name & b & sd & c & Ha & Hu & Hn & Hb & Hs & Ds & Hc & Hf & Hk & Hserve)];
    [left; exact H|].
  right. exists u, name, b, sd, c.
  split; [exact Ha|]. split; [exact Hu|].
  split.
  { intros t Ht. rewrite Ht in Hn. cbn in Hn.
    destruct (t =? "")%string; [discriminate|congruence]. }
  split.
  { intros n Hbn _. rewrite Hbn in Hb. cbn in Hb. congruence. }
  split.
  { intros t Ht. rewrite Ht in Hs. cbn in Hs.
    destruct (t =? "")%string; [discriminate|congruence]. }
  split; [exact Ds|].
  split.
  { intros id Hid Hne. rewrite Hid in Hc. unfold or_null in Hc. cbn in Hc.
    destruct (String.eqb_spec id ""); [contradiction|]. cbn in Hc.
    destruct (String.eqb_spec id ""); [contradiction|]. congruence. }
  split; [exact Hf|]. split; [exact Hk|exact Hserve].
Qed.


(** ** Access without a token; the donation list of a donor *)

Lemma run_ret a e s : Full.run (ret a) e s = (a, s).
Proof. reflexivity. Qed.

(** X4.  Apart from signup and login, whose paths are matched in any case
    of their letters, no route answers without a verified token: a GET,
    POST or PATCH request without one is answered 401, 403 or 404 and
    leaves the store as it is. *)
Theorem every_other_route_needs_a_token :
  forall e req s,
    (forall u, authorization req <> Token u) ->
    map JS.toUpperCase (path req) <> ["API"; "AUTH"; "SIGNUP"] ->
    map JS.toUpperCase (path req) <> ["API"; "AUTH"; "LOGIN"] ->
    snd (Full.serve e req s) = s /\
    (Full.code (fst (Full.serve e req s)) = 401 \/
     Full.code (fst (Full.serve e req s)) = 403 \/
     Full.code (fst (Full.serve e req s)) = 404).
Proof.
  intros e req s Hno Hsignup Hlogin. unfold Full.serve.
  destruct (dispatch_cases Full.app req)
    as [->|(r & params & Hin & Hm & Hpath & ->)].
  { rewrite run_ret. split; [reflexivity|]. right. right. reflexivity. }
  unfold Full.app in Hin. simpl in Hin.
  destruct Hin as [<-|Hin].
  { exfalso. apply Hsignup. apply (match_lits ["api"; "auth"; "signup"] _ _ Hpath). }
  destruct Hin as [<-|Hin].
  { exfalso. apply Hlogin. apply (match_lits ["api"; "auth"; "login"] _ _ Hpath). }
  repeat (destruct Hin as [<-|Hin]); try contradiction;
    cbv beta iota delta [Full.claimed Full.route_handler route_handler];
    unfold Full.run_route, authenticateToken;
    (destruct (authorization req) as [| |u] eqn:Ha;
     [ rewrite run_ret; split; [reflexivity|left; reflexivity]
     | rewrite run_ret; split; [reflexivity|right; left; reflexivity]
     | exfalso; apply (Hno u); reflexivity ]).
Qed.

Lemma route_get_donations req :
  method req = GET -> path req = ["api"; "donations"] ->
  Full.dispatch Full.app req =
  Full.run_route (Full.Protected [authorizeDonor] (fun _ => Full.get_donations))
                 [] req.
Proof.
  destruct req as [m p a bd]. cbn [method path]. intros -> ->. reflexivity.
Qed.

(** X26.  GET /api/donations is answered 200 for donors only, and the list
    holds only donations of the caller: every row has their profile id and
    shows a stored donation of theirs. *)
Theorem donor_donation_list_is_own :
  forall e req s rows,
    method req = GET -> path req = ["api"; "donations"] ->
    fst (Full.serve e req s) = Full.Answer 200 (Full.DonationList rows) ->
    exists u,
      authorization req = Token u /\ userType u = "DONOR"%string /\
      forall r, In r rows ->
        Full.DONATIONS.DONOR_ID r = primaryId u /\
        exists dn, In dn (donations s) /\
                   DONATION.DONOR_ID dn = primaryId u /\
                   DONATION.AMOUNT dn = Full.DONATIONS.AMOUNT r /\
                   DONATION.CAMP_ID dn = Full.DONATIONS.CAMP_ID r.
Proof.
  intros e req s rows Hm Hp. unfold Full.serve.
  rewrite (route_get_donations req Hm Hp).
  unfold Full.run_route, authenticateToken.
  destruct (authorization req) as [| |u];
    [intros H; cbn in H; unfold Full.lift in H; discriminate H
    |intros H; cbn in H; unfold Full.lift in H; discriminate H|].
  cbn [first_refusal]. unfold authorizeDonor.
  destruct (String.eqb_spec (userType u) "DONOR") as [Hu|Hu];
    [|intros H; cbn in H; unfold Full.lift in H; discriminate H].
  unfold Full.run, Full.get_donations, Full.say, getConnection, driver, query, ret.
  cbn [bind try_catch exec reads calls db perform].
  destruct (faults e 0%nat); cbn [bind try_catch exec reads calls db perform fst];
    [discriminate|].
  destruct (faults e 1%nat); cbn [bind try_catch exec reads calls db perform fst];
    [discriminate|].
  intros H. inversion H as [Hrows]. clear H.
  exists u. split; [reflexivity|]. split; [exact Hu|].
  intros r Hr. unfold Full.select_donations_of in Hr.
  apply (Permutation_in _ (order_by_perm _ _)) in Hr.
  apply in_flat_map in Hr. destruct Hr as [dn [Hdn Hr]].
  apply filter_In in Hdn. destruct Hdn as [Hdn Hwho]. apply String.eqb_eq in Hwho.
  apply in_map_iff in Hr. destruct Hr as [c [<- _]]. cbn.
  split; [exact Hwho|]. exists dn. auto.
Qed.

Lemma route_campaigns_summary req :
  method req = GET -> path req = ["api"; "campaigns"; "summary"] ->
  Full.dispatch Full.app req =
  Full.run_route (Full.Protected [] (fun _ => Full.get_campaigns_summary)) [] req.
Proof.
  destruct req as [m p a bd]. cbn [method path]. intros -> ->. reflexivity.
Qed.

(** X29.  The two summary routes agree: when GET /api/campaigns/summary and
    GET /api/campaigns/financial-summary are both answered 200 on the same
    store, they show the same rows (identifier, name, goal, status and
    raised total of each campaign), in the order of each route. *)
Theorem summaries_agree :
  forall e req s rows e' req' rows',
    method req = GET -> path req = ["api"; "campaigns"; "summary"] ->
    fst (Full.serve e req s) = Full.Answer 200 (Full.CampaignSummary rows) ->
    method req' = GET -> path req' = ["api"; "campaigns"; "financial-summary"] ->
    fst (Full.serve e' req' s) = Full.lift (Response 200 (Summary rows')) ->
    Permutation rows (map fst rows').
Proof.
  intros e req s rows e' req' rows' Hm Hp H Hm' Hp' H'.
  assert (Hrows : rows = Full.select_summary s).
  { revert H. unfold Full.serve. rewrite (route_campaigns_summary req Hm Hp).
    unfold Full.run_route, authenticateToken.
    destruct (authorization req) as [| |u];
      [intros H; cbn in H; unfold Full.lift in H; discriminate H
      |intros H; cbn in H; unfold Full.lift in H; discriminate H|].
    cbn [first_refusal].
    unfold Full.run, Full.get_campaigns_summary, Full.say, getConnection, driver,
      query, ret.
    cbn [bind try_catch exec reads calls db perform].
    destruct (faults e 0%nat); cbn [bind try_catch exec reads calls db perform fst];
      [discriminate|].
    destruct (faults e 1%nat); cbn [bind try_catch exec reads calls db perform fst];
      [discriminate|].
    intros H. inversion H. reflexivity. }
  assert (Hrows' : map fst rows' = select_financial_summary s).
  { revert H'. unfold Full.serve. rewrite (route_financial_summary req' Hm' Hp').
    unfold Full.run_route, authenticateToken.
    destruct (authorization req') as [| |u];
      [intros H'; cbn in H'; unfold Full.lift in H'; discriminate H'
      |intros H'; cbn in H'; unfold Full.lift in H'; discriminate H'|].
    cbn [first_refusal]. unfold authorizeStaff.
    destruct (userType u =? "STAFF")%string;
      [|intros H'; cbn in H'; unfold Full.lift in H'; discriminate H'].
    unfold Full.run, Full.lifted, get_campaigns_financial_summary, getConnection,
      driver, query, ret.
    cbn [bind try_catch exec reads calls db perform].
    destruct (faults e' 0%nat); cbn [bind try_catch exec reads calls db perform fst];
      [discriminate|].
    destruct (faults e' 1%nat); cbn [bind try_catch exec reads calls db perform fst];
      [discriminate|].
    intros H'. inversion H' as [Hr]. rewrite map_map. cbn [fst]. apply map_id. }
  rewrite Hrows, Hrows'. unfold Full.select_summary, select_financial_summary.
  eapply Permutation_trans; [apply order_by_perm|].
  apply Permutation_sym. apply order_by_perm.
Qed.

(** ** Examples of the properties above *)

Lemma full_app_agrees_witness :
  let e := Sample.quiet 1700000009000 in
  let req := Sample.donation_request Sample.donor_a "CAMP_1" (JS.Num 500) in
  Full.serve e req Sample.store0
  = (Full.lift (fst (serve e req Sample.store0)), snd (serve e req Sample.store0)).
Proof.
  intros e req. apply (full_app_agrees e req Sample.store0). reflexivity.
Defined.

Lemma get_requests_write_nothing_witness :
  snd (Full.serve (Sample.quiet 1700000009000)
         (Full.get_request (Token Sample.staff_user) ["api"; "donors"; "summary"])
         Sample.store0)
  = Sample.store0.
Proof.
  apply (get_requests_write_nothing (Sample.quiet 1700000009000)
           (Full.get_request (Token Sample.staff_user) ["api"; "donors"; "summary"])
           Sample.store0).
  reflexivity.
Defined.

Lemma only_staff_change_campaigns_and_projects_witness :
  let e := Sample.quiet 1700000009000 in
  let req := Full.status_request Sample.donor_a "CAMP_1" (JS.Str "completed") in
  campaigns (snd (Full.serve e req Sample.store0)) = campaigns Sample.store0 /\
  projects (snd (Full.serve e req Sample.store0)) = projects Sample.store0.
Proof.
  intros e req.
  apply (only_staff_change_campaigns_and_projects e req Sample.store0).
  intros u H. injection H as <-. discriminate.
Defined.

Lemma login_sound_witness :
  let req := Full.login_request (JS.Str "a@mail.org") (JS.Str "donorpwA") in
  exists c pw n,
    In c (credentials Sample.store0) /\
    body req "email" = JS.Str (NEW_CREDENTIALS.EMAIL c) /\
    body req "password" = JS.Str pw /\
    NEW_CREDENTIALS.PASSWORD c = Bcrypt n pw /\
    Sample.donor_a
    = User (NEW_CREDENTIALS.USER_ID c) "D_1700000001001"
           (NEW_CREDENTIALS.USER_TYPE c) /\
    "DONOR"%string = NEW_CREDENTIALS.USER_TYPE c /\
    "D_1700000001001"%string <> ""%string /\
    (("DONOR"%string = "STAFF"%string /\
      exists r, In r (staff Sample.store0) /\
                STAFF.STAFF_ID r = "D_1700000001001"%string /\
                STAFF.USER_ID r = NEW_CREDENTIALS.USER_ID c) \/
     ("DONOR"%string = "DONOR"%string /\
      exists r, In r (donors Sample.store0) /\
                DONOR.DONOR_ID r = "D_1700000001001"%string /\
                DONOR.USER_ID r = NEW_CREDENTIALS.USER_ID c)).
Proof.
  intros req.
  apply (login_sound (Sample.quiet 1700000009000) req Sample.store0
           Sample.donor_a "DONOR" "D_1700000001001"); reflexivity.
Defined.

Lemma signup_registers_witness :
  let e := Sample.quiet 1700000009000 in
  let req := Sample.signup_request (JS.Str "123456789012") (JS.Str "new@mail.org")
                                   (JS.Str "secret1") (JS.Str "donor") in
  exists pw,
    let c := credential_of e req "DONOR" pw in
    let s' := snd (Full.serve e req Sample.store0) in
    body req "password" = JS.Str pw /\
    "D_1700000009001"%string
    = (JS.slice_0_1 "DONOR" ++ "_" ++ JS.decimal (clock e 1%nat))%string /\
    credentials s' = (credentials Sample.store0 ++ [c])%list /\
    (forall x, In x (credentials Sample.store0) ->
               NEW_CREDENTIALS.USER_ID x <> NEW_CREDENTIALS.USER_ID c /\
               NEW_CREDENTIALS.EMAIL x <> NEW_CREDENTIALS.EMAIL c /\
               NEW_CREDENTIALS.AADHAR_NO x <> NEW_CREDENTIALS.AADHAR_NO c) /\
    (("DONOR"%string = "STAFF"%string /\ donors s' = donors Sample.store0 /\
      exists f l, staff s' = (staff Sample.store0 ++
                    [STAFF.Row "D_1700000009001" (NEW_CREDENTIALS.USER_ID c) f l
                               (clock e 2%nat)])%list) \/
     ("DONOR"%string = "DONOR"%string /\ staff s' = staff Sample.store0 /\
      exists f l, donors s' = (donors Sample.store0 ++
                    [DONOR.Row "D_1700000009001" (NEW_CREDENTIALS.USER_ID c) f l])%list)) /\
    campaigns s' = campaigns Sample.store0 /\
    projects s' = projects Sample.store0 /\
    donations s' = donations Sample.store0.
Proof.
  intros e req.
  apply (signup_registers e req Sample.store0 "D_1700000009001" "DONOR");
    reflexivity.
Defined.

Lemma profiles_owned_store0 : profiles_owned Sample.store0.
Proof.
  split; intros r Hr; simpl in Hr;
    repeat (destruct Hr as [<-|Hr];
            [first [ eexists; split; [left; reflexivity|reflexivity]
                   | eexists; split; [right; left; reflexivity|reflexivity]
                   | eexists; split; [right; right; left; reflexivity|reflexivity] ]|]);
    contradiction.
Defined.

Lemma signup_then_login_witness :
  let e := Sample.quiet 1700000009000 in
  let req := Sample.signup_request (JS.Str "123456789012") (JS.Str "new@mail.org")
                                   (JS.Str "secret1") (JS.Str "staff") in
  let req' := Full.login_request (JS.Str "new@mail.org") (JS.Str "secret1") in
  exists uid,
    Full.serve (Sample.quiet 1700000010000) req' (snd (Full.serve e req Sample.store0))
    = (Full.Answer 200
         (Full.LoggedIn (User uid "S_1700000009001" "STAFF") "STAFF" "S_1700000009001"),
       snd (Full.serve e req Sample.store0)).
Proof.
  intros e req req'.
  apply (signup_then_login e req Sample.store0 "S_1700000009001" "STAFF"
           "new@mail.org" (Sample.quiet 1700000010000) req');
    try reflexivity.
  exact profiles_owned_store0.
Defined.

Lemma only_donors_donate_witness :
  let e := Sample.quiet 1700000009000 in
  let req := Sample.donation_request Sample.staff_user "CAMP_1" (JS.Num 500) in
  donations (snd (Full.serve e req Sample.store0)) = donations Sample.store0.
Proof.
  intros e req. apply (only_donors_donate e req Sample.store0).
  intros u H. injection H as <-. discriminate.
Defined.

Lemma only_signup_registers_witness :
  let e := Sample.quiet 1700000009000 in
  let req := Full.login_request (JS.Str "a@mail.org") (JS.Str "donorpwA") in
  credentials (snd (Full.serve e req Sample.store0)) = credentials Sample.store0 /\
  staff (snd (Full.serve e req Sample.store0)) = staff Sample.store0 /\
  donors (snd (Full.serve e req Sample.store0)) = donors Sample.store0.
Proof.
  intros e req. apply (only_signup_registers e req Sample.store0).
  intros H. vm_compute in H. discriminate H.
Defined.


Lemma campaign_status_all_or_nothing_witness :
  let e := Sample.quiet 1700000009000 in
  let req := Full.status_request Sample.staff_user "CAMP_1" (JS.Str "completed") in
  (Full.code (fst (Full.serve e req Sample.store0)) <> 200 /\
   snd (Full.serve e req Sample.store0) = Sample.store0) \/
  (exists u st,
      authorization req = Token u /\ userType u = "STAFF"%string /\
      body req "status" = JS.Str st /\
      In (JS.toUpperCase st) Full.validStatuses /\
      (exists c, In c (campaigns Sample.store0) /\
                 CAMPAIGN.CAMP_ID c = "CAMP_1"%string) /\
      Full.serve e req Sample.store0
      = (Full.Answer 200 (Full.StatusUpdated "CAMP_1" (JS.toUpperCase st)),
         campaigns_with_status (JS.toUpperCase st) "CAMP_1" Sample.store0)).
Proof.
  intros e req.
  apply (campaign_status_all_or_nothing e req Sample.store0 "CAMP_1"); reflexivity.
Defined.

Lemma closed_campaign_takes_no_donation_witness :
  let e := Sample.quiet 1700000009000 in
  let req := Full.status_request Sample.staff_user "CAMP_1" (JS.Str "completed") in
  let e' := Sample.quiet 1700000010000 in
  let req' := Sample.donation_request Sample.donor_a "CAMP_1" (JS.Num 500) in
  Full.code (fst (Full.serve e' req' (snd (Full.serve e req Sample.store0)))) <> 201 /\
  snd (Full.serve e' req' (snd (Full.serve e req Sample.store0)))
  = snd (Full.serve e req Sample.store0).
Proof.
  intros e req e' req'.
  apply (closed_campaign_takes_no_donation e req Sample.store0 "CAMP_1" "COMPLETED"
           e' req'); try reflexivity.
  discriminate.
Defined.

Lemma project_link_all_or_nothing_witness :
  let e := Sample.quiet 1700000009000 in
  let req := Full.link_request Sample.staff_user "PROJ_2" (JS.Str "CAMP_1") in
  (Full.code (fst (Full.serve e req Sample.store0)) <> 200 /\
   snd (Full.serve e req Sample.store0) = Sample.store0) \/
  (exists u,
      authorization req = Token u /\ userType u = "STAFF"%string /\
      (exists x, In x (campaigns Sample.store0) /\
                 CAMPAIGN.CAMP_ID x = "CAMP_1"%string) /\
      (exists p, In p (projects Sample.store0) /\
                 PROJECT.PROJ_ID p = "PROJ_2"%string) /\
      Full.serve e req Sample.store0
      = (Full.Answer 200 (Full.ProjectLinked "PROJ_2" (JS.Str "CAMP_1")),
         projects_linked "CAMP_1" "PROJ_2" Sample.store0)).
Proof.
  intros e req.
  apply (project_link_all_or_nothing e req Sample.store0 "PROJ_2" "CAMP_1");
    reflexivity.
Defined.

Lemma donor_history_is_own_witness :
  let r := HISTORY.Row (Some "D_1700000003000") "D_1700000002001" 8000
                       (Some 1700000003001) (Some "ONLINE") "Clean Water" in
  HISTORY.DONOR_ID r = primaryId Sample.donor_b /\
  exists dn, In dn (donations Sample.store0) /\
             DONATION.DONOR_ID dn = primaryId Sample.donor_b /\
             DONATION.D_ID dn = HISTORY.D_ID r /\
             DONATION.AMOUNT dn = HISTORY.AMOUNT r.
Proof.
  intros r.
  apply (donor_history_is_own (Sample.quiet 1700000009000)
           (Full.get_request (Token Sample.donor_b) ["api"; "donations"; "history"])
           Sample.store0 Sample.donor_b
           (select_history (Some (primaryId Sample.donor_b)) Sample.store0)
           eq_refl eq_refl eq_refl eq_refl eq_refl r).
  left. reflexivity.
Defined.


Lemma campaign_ids_unique_store0 :
  NoDup (map CAMPAIGN.CAMP_ID (campaigns Sample.store0)).
Proof.
  simpl. repeat constructor; simpl; intuition discriminate.
Defined.

Lemma referenced_store0 : referenced Sample.store0.
Proof.
  intros dn H. simpl in H. destruct H as [<-|[]].
  eexists. split; [left; reflexivity|reflexivity].
Defined.

Lemma financial_summary_accounts_for_every_donation_witness :
  let rows :=
    map (fun row => (row, percent (SUMMARY.TOTAL_RAISED row) (SUMMARY.GOAL_AMOUNT row)))
        (select_financial_summary Sample.store0) in
  total (map (fun r => SUMMARY.TOTAL_RAISED (fst r)) rows)
  = total (map DONATION.AMOUNT (donations Sample.store0)) /\
  List.length rows = List.length (campaigns Sample.store0).
Proof.
  intros rows.
  apply (financial_summary_accounts_for_every_donation
           (Sample.quiet 1700000009000)
           (Full.get_request (Token Sample.staff_user)
                             ["api"; "campaigns"; "financial-summary"])
           Sample.store0 rows);
    [reflexivity|reflexivity|exact campaign_ids_unique_store0
    |exact referenced_store0| |reflexivity|reflexivity].
  intros dn H. simpl in H. destruct H as [<-|[]]. simpl. lia.
Defined.

Lemma failed_signup_leaves_at_most_credentials_witness :
  let req := Sample.signup_request (JS.Str "123456789012") (JS.Str "new@mail.org")
                                   (JS.Str "secret1") (JS.Str "donor") in
  snd (Full.serve third_call_fails req Sample.store0) = Sample.store0 \/
  exists c,
    snd (Full.serve third_call_fails req Sample.store0)
    = with_credentials Sample.store0 (credentials Sample.store0 ++ [c])%list /\
    NEW_CREDENTIALS.EMAIL c = JS.ToString (body req "email") /\
    (NEW_CREDENTIALS.USER_TYPE c = "STAFF"%string \/
     NEW_CREDENTIALS.USER_TYPE c = "DONOR"%string).
Proof.
  intros req.
  apply (failed_signup_leaves_at_most_credentials third_call_fails req Sample.store0);
    try reflexivity.
  vm_compute. discriminate.
Defined.

Lemma orphaned_credentials_block_login_witness :
  let req := Sample.signup_request (JS.Str "123456789012") (JS.Str "new@mail.org")
                                   (JS.Str "secret1") (JS.Str "donor") in
  let req' := Full.login_request (JS.Str "new@mail.org") (JS.Str "secret1") in
  Full.serve (Sample.quiet 1700000010000) req'
             (snd (Full.serve third_call_fails req Sample.store0))
  = (Full.Answer 500
       (Full.Claimed (Message "User profile not found after login.")),
     snd (Full.serve third_call_fails req Sample.store0)).
Proof.
  intros req req'.
  apply (orphaned_credentials_block_login third_call_fails req Sample.store0
           "new@mail.org" (Sample.quiet 1700000010000) req');
    try reflexivity.
  - exact profiles_owned_store0.
  - vm_compute. discriminate.
  - vm_compute. discriminate.
Defined.

Lemma active_list_is_exact_witness :
  let rows := Full.select_active_campaigns Sample.store0 in
  In "CAMP_1"%string (map Full.ACTIVE.CAMP_ID rows) <->
  exists c, In c (campaigns Sample.store0) /\
            CAMPAIGN.CAMP_ID c = "CAMP_1"%string /\
            CAMPAIGN.STATUS c = "ACTIVE"%string.
Proof.
  intros rows.
  apply (active_list_is_exact (Sample.quiet 1700000009000)
           (Full.get_request (Token Sample.donor_a) ["api"; "campaigns"; "active"])
           Sample.store0 rows eq_refl eq_refl eq_refl "CAMP_1"%string).
Defined.

Lemma donation_taken_only_for_listed_campaign_witness :
  let e := Sample.quiet 1700000009000 in
  let req' := Full.get_request (Token Sample.donor_b) ["api"; "campaigns"; "active"] in
  exists rows,
    fst (Full.serve e req' Sample.store0)
    = Full.Answer 200 (Full.ActiveCampaigns rows) /\
    In "CAMP_1"%string (map Full.ACTIVE.CAMP_ID rows).
Proof.
  intros e req'.
  apply (donation_taken_only_for_listed_campaign e
           (Sample.donation_request Sample.donor_a "CAMP_1" (JS.Num 500))
           Sample.store0 "CAMP_1" e req' Sample.donor_b); reflexivity.
Defined.


Lemma project_creation_all_or_nothing_witness :
  let e := Sample.quiet 1700000009000 in
  let req := Sample.project_request Sample.staff_user "Pumps" (JS.Num 1000)
                                    "2025-03-01" in
  (Full.code (fst (Full.serve e req Sample.store0)) <> 201 /\
   snd (Full.serve e req Sample.store0) = Sample.store0) \/
  (exists u name b sd c,
      authorization req = Token u /\ userType u = "STAFF"%string /\
      (forall t, body req "pName" = JS.Str t -> name = t) /\
      (forall n, body req "budget" = JS.Num n -> Z.abs n < 2 ^ 53 -> b = n) /\
      (forall t, body req "sDate" = JS.Str t -> sd = t) /\
      dates Sample.store0 sd = true /\
      (forall id, body req "campId" = JS.Str id -> id <> ""%string ->
                  c = Some id) /\
      (forall p, In p (projects Sample.store0) ->
                 PROJECT.PROJ_ID p <> ("PROJ_" ++ JS.decimal (clock e 0%nat))%string) /\
      (forall id, c = Some id ->
                  exists x, In x (campaigns Sample.store0) /\ CAMPAIGN.CAMP_ID x = id) /\
      Full.serve e req Sample.store0
      = (Full.lift (Response 201 (ProjectCreated (body req "campId")
                                    ("PROJ_" ++ JS.decimal (clock e 0%nat)))),
         with_projects Sample.store0
           (projects Sample.store0 ++ [new_project e u name b sd c])%list)).
Proof.
  intros e req.
  apply (project_creation_all_or_nothing e req Sample.store0); reflexivity.
Defined.


Lemma every_other_route_needs_a_token_witness :
  let e := Sample.quiet 1700000009000 in
  let req := Full.get_request NoToken ["api"; "campaigns"] in
  snd (Full.serve e req Sample.store0) = Sample.store0 /\
  (Full.code (fst (Full.serve e req Sample.store0)) = 401 \/
   Full.code (fst (Full.serve e req Sample.store0)) = 403 \/
   Full.code (fst (Full.serve e req Sample.store0)) = 404).
Proof.
  intros e req.
  apply (every_other_route_needs_a_token e req Sample.store0);
    [intros u; discriminate|..]; intros H; vm_compute in H; discriminate H.
Defined.

Lemma donor_donation_list_is_own_witness :
  let req := Full.get_request (Token Sample.donor_b) ["api"; "donations"] in
  let rows := Full.select_donations_of "D_1700000002001" Sample.store0 in
  exists u,
    authorization req = Token u /\ userType u = "DONOR"%string /\
    forall r, In r rows ->
      Full.DONATIONS.DONOR_ID r = primaryId u /\
      exists dn, In dn (donations Sample.store0) /\
                 DONATION.DONOR_ID dn = primaryId u /\
                 DONATION.AMOUNT dn = Full.DONATIONS.AMOUNT r /\
                 DONATION.CAMP_ID dn = Full.DONATIONS.CAMP_ID r.
Proof.
  intros req rows.
  apply (donor_donation_list_is_own (Sample.quiet 1700000009000) req
           Sample.store0 rows); reflexivity.
Defined.

Lemma summaries_agree_witness :
  Permutation
    (Full.select_summary Sample.store0)
    (map fst
       (map (fun row => (row, percent (SUMMARY.TOTAL_RAISED row)
                                      (SUMMARY.GOAL_AMOUNT row)))
            (select_financial_summary Sample.store0))).
Proof.
  apply (summaries_agree (Sample.quiet 1700000009000)
           (Full.get_request (Token Sample.donor_a) ["api"; "campaigns"; "summary"])
           Sample.store0 _ (Sample.quiet 1700000010000)
           (Full.get_request (Token Sample.staff_user)
                             ["api"; "campaigns"; "financial-summary"]));
    reflexivity.
Defined.

(** ** Signup field checks; expenses at the same time *)

(** X30.  A signup request with its four fields and the user type STAFF or
    DONOR (a string, in any case of its letters) that fails a field check
    is answered 400 with the message of the first check it fails, in the
    order Aadhar number (twelve digits), email (the pattern), password (a
    string of at least six characters), and writes nothing. *)
Theorem signup_refusal_names_the_field :
  forall e req s t,
    method req = POST -> path req = ["api"; "auth"; "signup"] ->
    JS.truthy (body req "email") = true ->
    JS.truthy (body req "password") = true ->
    JS.truthy (body req "aadharNo") = true ->
    body req "userType" = JS.Str t ->
    JS.toUpperCase t = "STAFF"%string \/ JS.toUpperCase t = "DONOR"%string ->
    (JS.test JS.aadhar_re (body req "aadharNo") = false ->
     serve e req s =
     (Response 400 (Message "Invalid Aadhar number. Must be exactly 12 digits."), s))
    /\
    (JS.test JS.aadhar_re (body req "aadharNo") = true ->
     JS.test JS.email_re (body req "email") = false ->
     serve e req s = (Response 400 (Message "Invalid email format."), s))
    /\
    (JS.test JS.aadhar_re (body req "aadharNo") = true ->
     JS.test JS.email_re (body req "email") = true ->
     JS.lt_num (JS.length_of (body req "password")) 6 = true ->
     serve e req s =
     (Response 400 (Message "Password must be at least 6 characters long."), s)).
Proof.
  intros e req s t Hm Hp Te Tp Ta Ht Hut. rewrite (serve_signup e req s Hm Hp).
  unfold run, post_auth_signup, try_catch, bind, toUpperCase_of, ret, throw.
  rewrite Te, Tp, Ta, Ht. cbn [negb orb JS.truthy].
  assert (Hne : (t =? "")%string = false).
  { destruct t; [|reflexivity]. destruct Hut as [H|H]; discriminate H. }
  rewrite Hne. cbn [negb].
  assert (Hok : negb (JS.toUpperCase t =? "STAFF")%string
                && negb (JS.toUpperCase t =? "DONOR")%string = false).
  { destruct Hut as [-> | ->]; reflexivity. }
  rewrite Hok.
  split; [|split].
  - intros ->. reflexivity.
  - intros -> ->. reflexivity.
  - intros -> -> ->. reflexivity.
Qed.

Lemma signup_refusal_names_the_field_witness :
  serve (Sample.quiet 1700000009000)
        (Sample.signup_request (JS.Str "12345678901x") (JS.Str "x@y.zz")
                               (JS.Str "secret1") (JS.Str "donor"))
        Sample.store0
  = (Response 400 (Message "Invalid Aadhar number. Must be exactly 12 digits."),
     Sample.store0).
Proof.
  apply (proj1 (signup_refusal_names_the_field (Sample.quiet 1700000009000)
                  (Sample.signup_request (JS.Str "12345678901x") (JS.Str "x@y.zz")
                                         (JS.Str "secret1") (JS.Str "donor"))
                  Sample.store0 "donor" eq_refl eq_refl eq_refl eq_refl eq_refl
                  eq_refl (or_intror eq_refl))).
  reflexivity.
Defined.

(** X31.  Any number of expense requests served at the same time, their
    driver calls interleaved in any order and failing at any point: a
    project that is within its budget at the start is within it after
    every step, the budget being a number that a double holds.  (SPENT can
    go down on the way; it never passes the budget.) *)
Theorem expense_requests_at_once_stay_within_budget :
  forall (requests : list (env * request)) schedule s projId B,
    JS.fl B = B ->
    Forall expense_call requests ->
    within_budget projId B s ->
    within_budget projId B
      (shared (steps schedule
                 (State s (map (fun er => dispatch (app false) (snd er)) requests)))).
Proof.
  exact expense_interleaved_within_budget.
Qed.

Lemma expense_requests_at_once_stay_within_budget_witness :
  let small := Sample.expense_request Sample.staff_user "PROJ_1" (JS.Num 10) in
  let large := Sample.expense_request Sample.staff_user "PROJ_1" (JS.Num 190) in
  let move i := Choice i 0 None in
  within_budget "PROJ_1" 5000
    (shared (steps [move 0; move 0; move 1; move 1; move 1; move 0]%nat
               (State Sample.store0
                  (map (fun er => dispatch (app false) (snd er))
                       [(Sample.quiet 1700000009000, small);
                        (Sample.quiet 1700000009000, large)])))).
Proof.
  intros small large move.
  apply (expense_requests_at_once_stay_within_budget
           [(Sample.quiet 1700000009000, small); (Sample.quiet 1700000009000, large)]
           [move 0; move 0; move 1; move 1; move 1; move 0]%nat
           Sample.store0 "PROJ_1" 5000).
  - reflexivity.
  - repeat constructor; exists "PROJ_1"%string; reflexivity.
  - eexists. split; [reflexivity|]. split; [reflexivity|]. simpl. lia.
Defined.
